(** * generator-dock: the document-template service of [app.py]

    A shallow embedding of the Flask handlers of [app.py] over an explicit
    model of the SQLite database they query, and the properties of the
    handlers stated in the specification.

    Modelling conventions.
    - A Python [str] (and an SQLite TEXT value) is a list of Unicode code
      points.  The BINARY collation compares the UTF-8 encodings bytewise,
      which is the lexicographic order of the code points.
    - An SQLite INTEGER and a Python [int] are a [Z].  The ids and the
      counters of the tables stay within the 64 bits of the engine (no
      counter is driven to 2^63); an [int] of a request need not, and
      binding one that does not fit raises.
    - A text of a query string has no surrogate code point; a text of a
      JSON body may have one.
    - A nullable column is an [option]; a column that the only writer of
      the table (the seed) always fills is taken at its declared type.
    - A table is the list of its rows in rowid order, the order in which a
      full scan without ORDER BY returns them.
    - A handler is a function from the database (and the request) to a
      response and the database it leaves behind.  The body of its [try]
      block is given first, on the requests on which nothing raises, under
      the name of the handler; the handler on every request, with the
      answer of its [except] clause, has the suffix [_route]. *)

From Stdlib Require Import ZArith NArith List Bool Lia String Ascii DecimalString.
From Stdlib Require Import Sorting.Sorted Sorting.Permutation.
From stdpp Require Import base countable gmap.
Import ListNotations.

Open Scope Z_scope.

(* ===================================================================== *)
(** * Text *)
(* ===================================================================== *)

Definition text := list N.

(** The code points of a string literal of the source, which is written in
    UTF-8: [str "..."] is the Python value of the literal ["..."]. *)
Fixpoint utf8_decode (bs : list N) : text :=
  match bs with
  | [] => []
  | b :: rest =>
      if (b <? 128)%N then b :: utf8_decode rest
      else if (b <? 224)%N then
        match rest with
        | b2 :: rest' =>
            (N.land b 31 * 64 + N.land b2 63)%N :: utf8_decode rest'
        | [] => [65533%N]
        end
      else if (b <? 240)%N then
        match rest with
        | b2 :: b3 :: rest' =>
            (N.land b 15 * 4096 + N.land b2 63 * 64 + N.land b3 63)%N
              :: utf8_decode rest'
        | _ => [65533%N]
        end
      else
        match rest with
        | b2 :: b3 :: b4 :: rest' =>
            (N.land b 7 * 262144 + N.land b2 63 * 4096
             + N.land b3 63 * 64 + N.land b4 63)%N :: utf8_decode rest'
        | _ => [65533%N]
        end
  end.

Definition str (s : string) : text :=
  utf8_decode (List.map N_of_ascii (list_ascii_of_string s)).

Definition text_eqb (a b : text) : bool := bool_decide (a = b).

(** Comparison of two TEXT values under the BINARY collation. *)
Fixpoint text_leb (a b : text) : bool :=
  match a, b with
  | [], _ => true
  | _ :: _, [] => false
  | x :: a', y :: b' =>
      if (x <? y)%N then true
      else if (y <? x)%N then false
      else text_leb a' b'
  end.

(** Python truthiness of a [str]. *)
Definition nonempty (s : text) : bool :=
  match s with [] => false | _ :: _ => true end.


(* ===================================================================== *)
(** * The database *)
(* ===================================================================== *)

(** Rows of the four tables created by [init_database]. *)

Record Category := mkCategory {
  cat_id : Z;
  cat_name : text;
  cat_description : option text
}.

Record Template := mkTemplate {
  t_id : Z;
  t_category_id : option Z;
  t_name : text;
  t_description : option text;
  t_doc_type : text;
  t_word_count : Z;
  t_popularity : Z;
  t_created_at : text
}.

Record TemplateField := mkTemplateField {
  f_id : Z;
  f_template_id : Z;
  f_field_key : text;
  f_field_label : text;
  f_field_type : text;
  f_is_required : Z;
  f_min_value : option Z;
  f_max_value : option Z;
  f_format : option text;
  f_placeholder : option text;
  f_options : option text;
  f_order_index : Z
}.

Record FilledDocument := mkFilledDocument {
  fd_id : Z;
  fd_template_id : Z;
  fd_user_id : option Z;
  fd_document_data : text;
  fd_created_at : text;
  fd_status : text
}.

(** The database: the four tables and, for each, the counter that
    AUTOINCREMENT keeps in [sqlite_sequence] (the largest rowid the table
    has ever held). *)
Record DB := mkDB {
  categories : list Category;
  templates : list Template;
  template_fields : list TemplateField;
  filled_documents : list FilledDocument;
  seq_categories : Z;
  seq_templates : Z;
  seq_template_fields : Z;
  seq_filled_documents : Z
}.

Definition empty_db : DB := mkDB [] [] [] [] 0 0 0 0.

(** The CHECK constraints of the schema. *)
Definition doc_types : list text :=
  [str "Договор"; str "Заявление"; str "Исковое заявление"; str "Соглашение";
   str "Расторжение"; str "Акт"; str "Доверенность"; str "Приказ";
   str "Прочее"].

Definition field_types : list text :=
  [str "text"; str "number"; str "date"; str "email"; str "phone";
   str "select"; str "textarea"; str "boolean"].

Definition mem_text (x : text) (l : list text) : bool :=
  existsb (text_eqb x) l.

(** The rowid an AUTOINCREMENT table gives its next row: one more than the
    largest rowid the table holds or has ever held. *)
Definition max_id (ids : list Z) : Z := fold_right Z.max 0 ids.

Definition next_rowid (seq : Z) (ids : list Z) : Z :=
  Z.max seq (max_id ids) + 1.

(** Responses: the success payload of a handler, or an error status with
    its message. *)
Inductive Response (A : Type) : Type :=
| Ok (payload : A)
| Error (status : Z) (message : text).
Arguments Ok {A} payload.
Arguments Error {A} status message.

(** The payload of a listing: the rows and their number. *)
Record Listing (A : Type) := mkListing {
  items : list A;
  count : Z
}.
Arguments mkListing {A} items count.
Arguments items {A} l.
Arguments count {A} l.

Definition listing {A} (l : list A) : Listing A :=
  mkListing l (Z.of_nat (length l)).

(* ===================================================================== *)
(** * SQL operators used by the queries *)
(* ===================================================================== *)

(** ORDER BY: the rows in ascending order of [leb]; rows that compare equal
    keep their scan order. *)
Fixpoint insert_by {A} (leb : A -> A -> bool) (x : A) (l : list A) : list A :=
  match l with
  | [] => [x]
  | y :: l' => if leb x y then x :: l else y :: insert_by leb x l'
  end.

Definition order_by {A} (leb : A -> A -> bool) (l : list A) : list A :=
  fold_right (insert_by leb) [] l.

(** The relation of a boolean comparison. *)
Definition le_of {A} (leb : A -> A -> bool) : A -> A -> Prop :=
  fun a b => leb a b = true.

(** LIKE.  Without an ESCAPE clause [%] stands for any run of characters
    and [_] for any one character; other characters match themselves, the
    26 ASCII letters without regard to case and every other character
    exactly.  The engine reads the pattern and the text it is matched
    against as C strings: each of the two ends at its first NUL
    character. *)
Definition percent : N := 37.
Definition underscore : N := 95.

Definition lower (c : N) : N :=
  if ((65 <=? c) && (c <=? 90))%N then (c + 32)%N else c.

Definition ci_eqb (c d : N) : bool := (lower c =? lower d)%N.

(** The part of a text before its first NUL character. *)
Fixpoint cstring (s : text) : text :=
  match s with
  | [] => []
  | c :: s' => if (c =? 0)%N then [] else c :: cstring s'
  end.

(** The comparison of two C strings. *)
Fixpoint pattern_compare (pattern s : text) : bool :=
  match pattern with
  | [] => match s with [] => true | _ :: _ => false end
  | c :: p' =>
      if (c =? percent)%N then
        (fix any (s : text) : bool :=
           pattern_compare p' s
           || match s with [] => false | _ :: s' => any s' end) s
      else
        match s with
        | [] => false
        | d :: s' =>
            (if (c =? underscore)%N then true else ci_eqb c d)
            && pattern_compare p' s'
        end
  end.

(** [s LIKE pattern] *)
Definition like (pattern s : text) : bool :=
  pattern_compare (cstring pattern) (cstring s).

(** [x LIKE p] on a nullable column: NULL is not a match. *)
Definition like_null (pattern : text) (s : option text) : bool :=
  match s with Some s => like pattern s | None => false end.

(** [c = ?] on a nullable integer column: NULL equals nothing. *)
Definition eq_null (c : option Z) (v : Z) : bool :=
  match c with Some x => x =? v | None => false end.

(** [LEFT JOIN categories c ON t.category_id = c.id], column [c.name]. *)
Definition category_name (db : DB) (category_id : option Z) : option text :=
  option_map cat_name
    (List.find (fun c => eq_null category_id (cat_id c)) (categories db)).

(* ===================================================================== *)
(** * JSON values *)
(* ===================================================================== *)

(** The values [request.get_json] and [json.loads] return.  A float is kept
    as its IEEE-754 binary64 bit pattern; an object as its items in
    insertion order, with distinct keys. *)
#[warnings="-register-all"]
Inductive json : Type :=
| JNull
| JBool (b : bool)
| JInt (n : Z)
| JFloat (bits : N)
| JStr (s : text)
| JArr (items : list json)
| JObj (items : list (text * json)).

(** Python truthiness, [bool(v)]. *)
Definition truthy (v : json) : bool :=
  match v with
  | JNull => false
  | JBool b => b
  | JInt n => negb (n =? 0)
  | JFloat bits => negb ((bits =? 0)%N || (bits =? 2 ^ 63)%N)
  | JStr s => nonempty s
  | JArr items => match items with [] => false | _ :: _ => true end
  | JObj items => match items with [] => false | _ :: _ => true end
  end.

(** [d[k]] on a dict; [None] when [k not in d]. *)
Definition dict_get (k : text) (d : list (text * json)) : option json :=
  option_map snd (List.find (fun kv => text_eqb k (fst kv)) d).

(* ===================================================================== *)
(** * Exceptions *)
(* ===================================================================== *)

(** The exceptions a request can raise inside the [try] block of a
    handler:
    - [OverflowError]: an [int] outside the 64 bits of an SQLite INTEGER is
      bound to a statement;
    - [UnicodeEncodeError]: a [str] with a surrogate code point is bound;
    - [ProgrammingError]: a [list] or a [dict] is bound;
    - [OperationalError]: a LIKE is evaluated on a pattern longer than the
      engine allows;
    - [TypeError]: [k in v] or [v[k]] on a value [v] without that
      operation;
    - [KeyError]: [d[k]] on a dict without the key [k]. *)
Inductive Exception : Type :=
| OverflowError
| UnicodeEncodeError (s : text)
| ProgrammingError (v : json)
| OperationalError
| TypeError (v : json)
| KeyError (k : text).

(** A computation that returns a value or raises. *)
Inductive Result (A : Type) : Type :=
| Returns (value : A)
| Raises (e : Exception).
Arguments Returns {A} value.
Arguments Raises {A} e.

Definition and_then {A B} (r : Result A) (k : A -> Result B) : Result B :=
  match r with
  | Returns a => k a
  | Raises e => Raises e
  end.

Notation "x <- r ;; k" := (and_then r (fun x => k))
  (at level 63, r at next level, right associativity).

(** The 64 bits of an SQLite INTEGER. *)
Definition int64 (n : Z) : bool := (- 2 ^ 63 <=? n) && (n <? 2 ^ 63).

(** The values the [sqlite3] module binds to the [?] of a statement. *)
Inductive Value : Type :=
| VNull
| VInteger (n : Z)
| VReal (bits : N)
| VText (s : text).

Definition surrogate (c : N) : bool := ((55296 <=? c) && (c <=? 57343))%N.

(** The binding of a Python value: [None] is NULL, a [bool] is the integer
    0 or 1, an [int] must fit 64 bits, a [str] must have a UTF-8
    encoding. *)
Definition bind_parameter (v : json) : Result Value :=
  match v with
  | JNull => Returns VNull
  | JBool b => Returns (VInteger (if b then 1 else 0))
  | JInt n => if int64 n then Returns (VInteger n) else Raises OverflowError
  | JFloat bits => Returns (VReal bits)
  | JStr s =>
      if existsb surrogate s then Raises (UnicodeEncodeError s)
      else Returns (VText s)
  | JArr _ | JObj _ => Raises (ProgrammingError v)
  end.

(** [k in s] on two [str]. *)
Fixpoint starts_with (k s : text) : bool :=
  match k, s with
  | [], _ => true
  | _ :: _, [] => false
  | c :: k', d :: s' => (c =? d)%N && starts_with k' s'
  end.

Fixpoint substring (k s : text) : bool :=
  starts_with k s
  || match s with [] => false | _ :: s' => substring k s' end.

(** [k in v] for a [str] [k]: a key of a dict, an element of a list, a
    substring of a [str]. *)
Definition contains (v : json) (k : text) : Result bool :=
  match v with
  | JObj items =>
      Returns (match dict_get k items with Some _ => true | None => false end)
  | JArr items =>
      Returns (existsb (fun x => match x with
                                 | JStr s => text_eqb s k
                                 | _ => false
                                 end) items)
  | JStr s => Returns (substring k s)
  | _ => Raises (TypeError v)
  end.

(** [v[k]] for a [str] [k]. *)
Definition subscript (v : json) (k : text) : Result json :=
  match v with
  | JObj items =>
      match dict_get k items with
      | Some x => Returns x
      | None => Raises (KeyError k)
      end
  | _ => Raises (TypeError v)
  end.

(** The length of the UTF-8 encoding of a text, in bytes. *)
Definition utf8_length (s : text) : Z :=
  fold_right
    (fun c n =>
       (if (c <? 128)%N then 1
        else if (c <? 2048)%N then 2
        else if (c <? 65536)%N then 3
        else 4) + n)
    0 s.

(** SQLITE_MAX_LIKE_PATTERN_LENGTH, in bytes. *)
Definition like_pattern_limit : Z := 50000.

(* ===================================================================== *)
(** * The handlers *)
(* ===================================================================== *)

Section Handlers.

(** [json.dumps] and [json.loads] of the Python standard library;
    [json_loads] is [None] where [json.loads] raises. *)
Variable json_dumps : json -> text.
Variable json_loads : text -> option json.

(** [str(e)], the message of an exception. *)
Variable exception_str : Exception -> text.

(** The comparison of a column of INTEGER affinity with a REAL or a TEXT
    value: the integer the value is equal to once the engine has applied
    the affinity of the column to it, [None] when there is none.  It is
    also the integer such a column stores for the value. *)
Variable integer_of_real : N -> option Z.
Variable integer_of_text : text -> option Z.

(** ** GET /api/categories *)

Record CategoryInfo := mkCategoryInfo {
  ci_id : Z;
  ci_name : text;
  ci_description : option text;
  ci_template_count : Z
}.

(** [(SELECT COUNT( * ) FROM templates WHERE category_id = categories.id)] *)
Definition template_count (db : DB) (c : Category) : Z :=
  Z.of_nat
    (length (List.filter (fun t => eq_null (t_category_id t) (cat_id c))
               (templates db))).

Definition category_info (db : DB) (c : Category) : CategoryInfo :=
  mkCategoryInfo (cat_id c) (cat_name c) (cat_description c)
    (template_count db c).

Definition by_name (a b : CategoryInfo) : bool :=
  text_leb (ci_name a) (ci_name b).

Definition get_categories (db : DB) : Response (Listing CategoryInfo) :=
  let categories := order_by by_name (List.map (category_info db) (categories db)) in
  Ok (listing categories).

(** ** GET /api/templates *)

Record TemplateSummary := mkTemplateSummary {
  ts_id : Z;
  ts_name : text;
  ts_description : option text;
  ts_type : text;
  ts_category : option text;
  ts_word_count : Z;
  ts_popularity : Z
}.

(** The conditions the handler appends to [WHERE 1=1], one for each
    argument that is truthy. *)
Definition where_clauses (category_id : option Z) (doc_type : option text)
    (search : text) : list (Template -> bool) :=
  (match category_id with
   | Some c =>
       if negb (c =? 0) then [fun t => eq_null (t_category_id t) c] else []
   | None => []
   end)
  ++ (match doc_type with
      | Some d => if nonempty d then [fun t => text_eqb (t_doc_type t) d] else []
      | None => []
      end)
  ++ (if nonempty search then
        let pattern := [percent] ++ search ++ [percent] in
        [fun t => like pattern (t_name t) || like_null pattern (t_description t)]
      else []).

Definition selected (clauses : list (Template -> bool)) (t : Template) : bool :=
  forallb (fun clause => clause t) clauses.

(** [ORDER BY t.popularity DESC, t.name] *)
Definition by_popularity_name (a b : Template) : bool :=
  if t_popularity b <? t_popularity a then true
  else if t_popularity a <? t_popularity b then false
  else text_leb (t_name a) (t_name b).

Definition template_summary (db : DB) (t : Template) : TemplateSummary :=
  mkTemplateSummary (t_id t) (t_name t) (t_description t) (t_doc_type t)
    (category_name db (t_category_id t)) (t_word_count t) (t_popularity t).

Definition select_templates (category_id : option Z) (doc_type : option text)
    (search : text) (db : DB) : list Template :=
  order_by by_popularity_name
    (List.filter (selected (where_clauses category_id doc_type search))
       (templates db)).

(** The body on a [category_id] that can be bound and a pattern within the
    limit of the engine; [get_all_templates_route] below is the handler on
    every request. *)
Definition get_all_templates (category_id : option Z) (doc_type : option text)
    (search : text) (db : DB) : Response (Listing TemplateSummary) :=
  let templates := select_templates category_id doc_type search db in
  Ok (listing (List.map (template_summary db) templates)).

(** ** GET /api/templates/<template_id> *)

Record TemplateData := mkTemplateData {
  td_id : Z;
  td_name : text;
  td_description : option text;
  td_type : text;
  td_category : option text;
  td_category_id : option Z;
  td_word_count : Z;
  td_popularity : Z;
  td_created_at : text
}.

Definition find_template (db : DB) (template_id : Z) : option Template :=
  List.find (fun t => t_id t =? template_id) (templates db).

(** [UPDATE templates SET popularity = popularity + 1 WHERE id = ?] *)
Definition bump (template_id : Z) (t : Template) : Template :=
  if t_id t =? template_id then
    mkTemplate (t_id t) (t_category_id t) (t_name t) (t_description t)
      (t_doc_type t) (t_word_count t) (t_popularity t + 1) (t_created_at t)
  else t.

Definition update_popularity (template_id : Z) (db : DB) : DB :=
  mkDB (categories db) (List.map (bump template_id) (templates db))
    (template_fields db) (filled_documents db)
    (seq_categories db) (seq_templates db) (seq_template_fields db)
    (seq_filled_documents db).

Definition not_found : text := str "Шаблон не найден".

(** The row is read first, the counter is updated next, and the response
    is built from the row that was read.  This is the body on a
    [template_id] that can be bound; [get_template_detail_route] below is
    the handler on every id. *)
Definition get_template_detail (template_id : Z) (db : DB)
    : Response TemplateData * DB :=
  match find_template db template_id with
  | None => (Error 404 not_found, db)
  | Some template =>
      let db' := update_popularity template_id db in
      let template_data :=
        mkTemplateData (t_id template) (t_name template)
          (t_description template) (t_doc_type template)
          (category_name db (t_category_id template))
          (t_category_id template) (t_word_count template)
          (t_popularity template) (t_created_at template) in
      (Ok template_data, db')
  end.

(** ** GET /api/templates/<template_id>/fields *)

(** A serialized field; [None] in the last four components means that the
    key is absent from the object. *)
Record FieldData := mkFieldData {
  fdat_key : text;
  fdat_label : text;
  fdat_type : text;
  fdat_required : bool;
  fdat_placeholder : text;
  fdat_min : option Z;
  fdat_max : option Z;
  fdat_format : option text;
  fdat_options : option json
}.

Record FieldsResponse := mkFieldsResponse {
  fr_template_id : Z;
  fr_template_name : text;
  fr_fields : list FieldData
}.

(** [ORDER BY order_index, id] *)
Definition by_order_index_id (a b : TemplateField) : bool :=
  if f_order_index a <? f_order_index b then true
  else if f_order_index b <? f_order_index a then false
  else f_id a <=? f_id b.

(** [s] when [s] is a non-empty string, nothing otherwise. *)
Definition if_truthy (s : option text) : option text :=
  match s with
  | Some s => if nonempty s then Some s else None
  | None => None
  end.

Definition parse_options (options : text) : json :=
  match json_loads options with
  | Some v => v
  | None => JArr []
  end.

Definition field_data (field : TemplateField) : FieldData :=
  mkFieldData (f_field_key field) (f_field_label field) (f_field_type field)
    (negb (f_is_required field =? 0))
    (match if_truthy (f_placeholder field) with Some p => p | None => [] end)
    (f_min_value field)
    (f_max_value field)
    (if_truthy (f_format field))
    (option_map parse_options (if_truthy (f_options field))).

Definition fields_of (db : DB) (template_id : Z) : list TemplateField :=
  List.filter (fun f => f_template_id f =? template_id) (template_fields db).

(** The body on a [template_id] that can be bound;
    [get_template_fields_route] below is the handler on every id. *)
Definition get_template_fields (template_id : Z) (db : DB)
    : Response FieldsResponse :=
  match find_template db template_id with
  | None => Error 404 not_found
  | Some template =>
      let fields := order_by by_order_index_id (fields_of db template_id) in
      Ok (mkFieldsResponse template_id (t_name template)
            (List.map field_data fields))
  end.

(** ** POST /api/documents/generate *)

(** A body of the request that is a JSON object whose [template_id], if it
    has one, is an integer that can be bound and whose [fields], if it has
    them, are an object: the two members, [None] when the member is absent.
    The bodies of every other shape are those of
    [generate_document_route] below. *)
Record GenerateRequest := mkGenerateRequest {
  rq_template_id : option Z;
  rq_fields : option (list (text * json))
}.

(** The two clocks the handler reads: CURRENT_TIMESTAMP of the engine and
    [datetime.now().isoformat()]. *)
Record Clock := mkClock {
  current_timestamp : text;
  now_isoformat : text
}.

Record Generated := mkGenerated {
  g_document_id : Z;
  g_template_name : text;
  g_generated_at : text
}.

Definition quote : text := [34%N].

Definition missing_body : text := str "Необходимы template_id и fields".

Definition not_filled (req_field : text) : text :=
  str "Обязательное поле " ++ quote ++ req_field ++ quote ++ str " не заполнено".

(** [req_field not in fields_data or not fields_data[req_field]] *)
Definition unfilled (fields_data : list (text * json)) (req_field : text) : bool :=
  match dict_get req_field fields_data with
  | None => true
  | Some v => negb (truthy v)
  end.

Definition required_fields (db : DB) (template_id : Z) : list text :=
  List.map f_field_key
    (List.filter (fun f => negb (f_is_required f =? 0))
       (fields_of db template_id)).

Definition insert_filled_document (template_id : Z) (document_data : text)
    (status : text) (clock : Clock) (db : DB) : DB * Z :=
  let id := next_rowid (seq_filled_documents db)
              (List.map fd_id (filled_documents db)) in
  let row := mkFilledDocument id template_id None document_data
               (current_timestamp clock) status in
  (mkDB (categories db) (templates db) (template_fields db)
     (filled_documents db ++ [row])
     (seq_categories db) (seq_templates db) (seq_template_fields db) id,
   id).

(** The body of the handler on such a request. *)
Definition generate_document (clock : Clock) (data : GenerateRequest) (db : DB)
    : Response Generated * DB :=
  match rq_template_id data, rq_fields data with
  | Some template_id, Some fields_data =>
      match find_template db template_id with
      | None => (Error 404 not_found, db)
      | Some template =>
          match List.find (unfilled fields_data)
                  (required_fields db template_id) with
          | Some req_field => (Error 400 (not_filled req_field), db)
          | None =>
              let '(db', document_id) :=
                insert_filled_document template_id
                  (json_dumps (JObj fields_data)) (str "generated") clock db in
              (Ok (mkGenerated document_id (t_name template)
                     (now_isoformat clock)),
               db')
          end
      end
  | _, _ => (Error 400 missing_body, db)
  end.

(** ** GET /api/documents *)

Record DocumentInfo := mkDocumentInfo {
  di_id : Z;
  di_template_id : Z;
  di_template_name : text;
  di_created_at : text;
  di_status : text
}.

(** [filled_documents fd JOIN templates t ON fd.template_id = t.id] *)
Definition joined_documents (db : DB) : list (FilledDocument * Template) :=
  flat_map
    (fun fd =>
       List.map (fun t => (fd, t))
         (List.filter (fun t => fd_template_id fd =? t_id t) (templates db)))
    (filled_documents db).

(** [ORDER BY fd.created_at DESC] *)
Definition by_created_at_desc (a b : FilledDocument * Template) : bool :=
  text_leb (fd_created_at (fst b)) (fd_created_at (fst a)).

Definition document_info (r : FilledDocument * Template) : DocumentInfo :=
  let '(fd, t) := r in
  mkDocumentInfo (fd_id fd) (fd_template_id fd) (t_name t) (fd_created_at fd)
    (fd_status fd).

Definition select_documents (db : DB) : list (FilledDocument * Template) :=
  firstn 100 (order_by by_created_at_desc (joined_documents db)).

Definition get_documents (db : DB) : Response (Listing DocumentInfo) :=
  Ok (listing (List.map document_info (select_documents db))).

(** ** The [except] clauses *)

(** Every handler runs in [try: ... except Exception as e:] and answers
    500 with [str(e)] in the message when its body raises.  The definitions
    above are the bodies on the requests on which nothing raises: a
    template id and a category id that fit 64 bits, a search pattern within
    the limit of the engine, a body whose [template_id] is such an integer
    and whose [fields] is an object.  The definitions below are the
    handlers on every request. *)

Definition server_error (e : Exception) : text :=
  str "Ошибка сервера: " ++ exception_str e.

Definition creation_error (e : Exception) : text :=
  str "Ошибка при создании документа: " ++ exception_str e.

(** [template_id] is bound to [WHERE t.id = ?] before anything is read or
    written. *)
Definition get_template_detail_route (template_id : Z) (db : DB)
    : Response TemplateData * DB :=
  match bind_parameter (JInt template_id) with
  | Returns _ => get_template_detail template_id db
  | Raises e => (Error 500 (server_error e), db)
  end.

Definition get_template_fields_route (template_id : Z) (db : DB)
    : Response FieldsResponse :=
  match bind_parameter (JInt template_id) with
  | Returns _ => get_template_fields template_id db
  | Raises e => Error 500 (server_error e)
  end.

(** The listing binds [category_id] when it is truthy.  The scan then
    evaluates the conditions of a row from left to right, and the LIKE of
    the first row that passes the conditions before it raises when its
    pattern is too long. *)
Definition pattern_too_complex (search : text) : bool :=
  nonempty search
  && (like_pattern_limit <? utf8_length ([percent] ++ search ++ [percent])).

Definition get_all_templates_route (category_id : option Z)
    (doc_type : option text) (search : text) (db : DB)
    : Response (Listing TemplateSummary) :=
  let attempt :=
    _ <- match category_id with
         | Some c =>
             if negb (c =? 0) then bind_parameter (JInt c) else Returns VNull
         | None => Returns VNull
         end ;;
    if pattern_too_complex search
       && existsb (selected (where_clauses category_id doc_type []))
            (templates db)
    then Raises OperationalError
    else Returns (get_all_templates category_id doc_type search db) in
  match attempt with
  | Returns response => response
  | Raises e => Error 500 (server_error e)
  end.

(** The integer a bound value is equal to in [WHERE id = ?] and
    [WHERE template_id = ?], and is stored as in
    [filled_documents.template_id]. *)
Definition as_integer (p : Value) : option Z :=
  match p with
  | VNull => None
  | VInteger n => Some n
  | VReal bits => integer_of_real bits
  | VText s => integer_of_text s
  end.

(** [for req_field in required_fields:] with the test
    [req_field not in fields_data or not fields_data[req_field]]; the
    result is the first field for which the test holds. *)
Fixpoint first_unfilled (fields_data : json) (required : list text)
    : Result (option text) :=
  match required with
  | [] => Returns None
  | req_field :: rest =>
      present <- contains fields_data req_field ;;
      if negb present then Returns (Some req_field)
      else
        value <- subscript fields_data req_field ;;
        if negb (truthy value) then Returns (Some req_field)
        else first_unfilled fields_data rest
  end.

(** The handler on the value that [request.get_json()] returns, whatever
    it is. *)
Definition generate_document_route (clock : Clock) (data : json) (db : DB)
    : Response Generated * DB :=
  let attempt :=
    if negb (truthy data) then Returns (Error 400 missing_body, db)
    else
      has_template_id <- contains data (str "template_id") ;;
      if negb has_template_id then Returns (Error 400 missing_body, db)
      else
        has_fields <- contains data (str "fields") ;;
        if negb has_fields then Returns (Error 400 missing_body, db)
        else
          template_id <- subscript data (str "template_id") ;;
          fields_data <- subscript data (str "fields") ;;
          parameter <- bind_parameter template_id ;;
          match as_integer parameter with
          | None => Returns (Error 404 not_found, db)
          | Some id =>
              match find_template db id with
              | None => Returns (Error 404 not_found, db)
              | Some template =>
                  missing <- first_unfilled fields_data
                               (required_fields db id) ;;
                  match missing with
                  | Some req_field =>
                      Returns (Error 400 (not_filled req_field), db)
                  | None =>
                      let '(db', document_id) :=
                        insert_filled_document id (json_dumps fields_data)
                          (str "generated") clock db in
                      Returns
                        (Ok (mkGenerated document_id (t_name template)
                               (now_isoformat clock)),
                         db')
                  end
              end
          end in
  match attempt with
  | Returns response => response
  | Raises e => (Error 500 (creation_error e), db)
  end.

(** The JSON body of a [GenerateRequest]. *)
Definition body_of (data : GenerateRequest) : json :=
  JObj
    (match rq_template_id data with
     | Some template_id => [(str "template_id", JInt template_id)]
     | None => []
     end
     ++ match rq_fields data with
        | Some fields_data => [(str "fields", JObj fields_data)]
        | None => []
        end).

(** ** POST /api/admin/seed *)

(** An entry of a template's ['fields'] list and an entry of
    [templates_data]; an optional key of the dict literal is an [option]. *)
Record FieldDef := mkFieldDef {
  fdef_key : text;
  fdef_label : text;
  fdef_type : text;
  fdef_required : bool;
  fdef_placeholder : option text;
  fdef_min : option Z;
  fdef_max : option Z;
  fdef_options : option (list text)
}.

Record TemplateDef := mkTemplateDef {
  tdef_name : text;
  tdef_category : text;
  tdef_type : text;
  tdef_word_count : Z;
  tdef_description : text;
  tdef_fields : list FieldDef
}.

Record Seeded := mkSeeded {
  templates_added : Z;
  templates_list : list text
}.

(** [DELETE FROM template_fields], [DELETE FROM templates],
    [DELETE FROM categories]; the counters of [sqlite_sequence] stay. *)
Definition delete_template_fields (db : DB) : DB :=
  mkDB (categories db) (templates db) [] (filled_documents db)
    (seq_categories db) (seq_templates db) (seq_template_fields db)
    (seq_filled_documents db).

Definition delete_templates (db : DB) : DB :=
  mkDB (categories db) [] (template_fields db) (filled_documents db)
    (seq_categories db) (seq_templates db) (seq_template_fields db)
    (seq_filled_documents db).

Definition delete_categories (db : DB) : DB :=
  mkDB [] (templates db) (template_fields db) (filled_documents db)
    (seq_categories db) (seq_templates db) (seq_template_fields db)
    (seq_filled_documents db).

Definition insert_category (name description : text) (db : DB) : DB * Z :=
  let id := next_rowid (seq_categories db) (List.map cat_id (categories db)) in
  (mkDB (categories db ++ [mkCategory id name (Some description)])
     (templates db) (template_fields db) (filled_documents db)
     id (seq_templates db) (seq_template_fields db) (seq_filled_documents db),
   id).

Fixpoint insert_categories (cats : list (text * text)) (db : DB)
    (category_ids : gmap text Z) : DB * gmap text Z :=
  match cats with
  | [] => (db, category_ids)
  | (name, desc) :: rest =>
      let '(db', lastrowid) := insert_category name desc db in
      insert_categories rest db' (<[name := lastrowid]> category_ids)
  end.

(** [INSERT INTO templates]; [None] when the CHECK constraint on
    [doc_type] rejects the row. *)
Definition insert_template (category_id : Z) (name description doc_type : text)
    (word_count : Z) (clock : Clock) (db : DB) : option (DB * Z) :=
  if mem_text doc_type doc_types then
    let id := next_rowid (seq_templates db) (List.map t_id (templates db)) in
    let row := mkTemplate id (Some category_id) name (Some description)
                 doc_type word_count 0 (current_timestamp clock) in
    Some (mkDB (categories db) (templates db ++ [row]) (template_fields db)
            (filled_documents db)
            (seq_categories db) id (seq_template_fields db)
            (seq_filled_documents db),
          id)
  else None.

(** [INSERT INTO template_fields]; [None] when the CHECK constraint on
    [field_type] rejects the row. *)
Definition insert_template_field (template_id : Z) (field : FieldDef) (i : Z)
    (db : DB) : option DB :=
  if mem_text (fdef_type field) field_types then
    let id := next_rowid (seq_template_fields db)
                (List.map f_id (template_fields db)) in
    let options_json :=
      option_map (fun options => json_dumps (JArr (List.map JStr options)))
        (fdef_options field) in
    let row := mkTemplateField id template_id (fdef_key field)
                 (fdef_label field) (fdef_type field)
                 (if fdef_required field then 1 else 0)
                 (fdef_min field) (fdef_max field) None
                 (fdef_placeholder field) options_json i in
    Some (mkDB (categories db) (templates db) (template_fields db ++ [row])
            (filled_documents db)
            (seq_categories db) (seq_templates db) id
            (seq_filled_documents db))
  else None.

(** [for i, field in enumerate(template['fields'])]: the first insert that
    raises ends the loop. *)
Fixpoint insert_fields (template_id : Z) (i : Z) (fields : list FieldDef)
    (db : DB) : DB :=
  match fields with
  | [] => db
  | field :: rest =>
      match insert_template_field template_id field i db with
      | Some db' => insert_fields template_id (i + 1) rest db'
      | None => db
      end
  end.

(** The body of [for template in templates_data], on the database and
    [added_count]: an exception (an unknown category, a rejected row) is
    caught and the loop goes on with the next template. *)
Definition add_template (category_ids : gmap text Z) (clock : Clock)
    (st : DB * Z) (template : TemplateDef) : DB * Z :=
  let '(db, added_count) := st in
  match category_ids !! tdef_category template with
  | None => st
  | Some category_id =>
      match insert_template category_id (tdef_name template)
              (tdef_description template) (tdef_type template)
              (tdef_word_count template) clock db with
      | None => st
      | Some (db', template_id) =>
          (insert_fields template_id 0 (tdef_fields template) db',
           added_count + 1)
      end
  end.

Definition seed_with (cats : list (text * text)) (tdata : list TemplateDef)
    (clock : Clock) (db : DB) : Response Seeded * DB :=
  let db := delete_template_fields db in
  let db := delete_templates db in
  let db := delete_categories db in
  let '(db, category_ids) := insert_categories cats db ∅ in
  let '(db, added_count) :=
    fold_left (add_template category_ids clock) tdata (db, 0) in
  (Ok (mkSeeded added_count
         (List.map tdef_name (firstn (Z.to_nat added_count) tdata))),
   db).

Definition seed_categories : list (text * text) :=
  [(str "Договоры", str "Юридические договоры различных типов");
   (str "Заявления", str "Официальные заявления");
   (str "Исковые заявления", str "Документы для подачи в суд");
   (str "Соглашения и расторжения", str "Дополнительные соглашения и расторжения договоров");
   (str "Акты", str "Акты приема-передачи и другие акты");
   (str "Доверенности", str "Доверенности различного назначения");
   (str "Приказы", str "Организационно-распорядительные документы");
   (str "Прочее", str "Прочие документы")].

Definition templates_data : list TemplateDef :=
  [ mkTemplateDef
      (str "Образец договора аренды квартиры с мебелью и бытовой техникой")
      (str "Договоры") (str "Договор") 149900
      (str "Полный договор аренды квартиры с мебелью и техникой для длительной аренды")
      [ mkFieldDef (str "landlord_name") (str "ФИО Арендодателя")
         (str "text") true (Some (str "Иванов Иван Иванович")) None None None;
        mkFieldDef (str "landlord_passport") (str "Паспортные данные Арендодателя")
         (str "text") true (Some (str "Серия 1234 №567890 выдан ОВД района")) None None None;
        mkFieldDef (str "tenant_name") (str "ФИО Арендатора")
         (str "text") true (Some (str "Петров Петр Петрович")) None None None;
        mkFieldDef (str "tenant_passport") (str "Паспортные данные Арендатора")
         (str "text") true (Some (str "Серия 4321 №098765 выдан ОВД района")) None None None;
        mkFieldDef (str "address") (str "Адрес квартиры")
         (str "text") true (Some (str "г. Москва, ул. Ленина, д. 1, кв. 1")) None None None;
        mkFieldDef (str "apartment_area") (str "Площадь квартиры (кв.м.)")
         (str "number") true None (Some 10) (Some 500) None;
        mkFieldDef (str "rooms_count") (str "Количество комнат")
         (str "number") true None (Some 1) (Some 10) None;
        mkFieldDef (str "rent_amount") (str "Сумма аренды (руб./мес.)")
         (str "number") true None (Some 1000) (Some 1000000) None;
        mkFieldDef (str "start_date") (str "Дата начала аренды")
         (str "date") true None None None None;
        mkFieldDef (str "end_date") (str "Дата окончания аренды")
         (str "date") true None None None None;
        mkFieldDef (str "deposit") (str "Залог (руб.)")
         (str "number") false None (Some 0) None None;
        mkFieldDef (str "utilities_included") (str "Коммунальные услуги включены")
         (str "boolean") false None None None None ];
    mkTemplateDef
      (str "Договор купли-продажи транспортного средства")
      (str "Договоры") (str "Договор") 20017
      (str "Договор купли-продажи автомобиля между физическими лицами")
      [ mkFieldDef (str "seller_name") (str "ФИО Продавца")
         (str "text") true (Some (str "Сидоров Алексей Владимирович")) None None None;
        mkFieldDef (str "seller_passport") (str "Паспортные данные Продавца")
         (str "text") true (Some (str "Серия 1111 №222222")) None None None;
        mkFieldDef (str "buyer_name") (str "ФИО Покупателя")
         (str "text") true (Some (str "Кузнецов Дмитрий Сергеевич")) None None None;
        mkFieldDef (str "buyer_passport") (str "Паспортные данные Покупателя")
         (str "text") true (Some (str "Серия 3333 №444444")) None None None;
        mkFieldDef (str "car_brand") (str "Марка автомобиля")
         (str "text") true (Some (str "Toyota")) None None None;
        mkFieldDef (str "car_model") (str "Модель автомобиля")
         (str "text") true (Some (str "Camry")) None None None;
        mkFieldDef (str "car_year") (str "Год выпуска")
         (str "number") true None (Some 1980) (Some 2024) None;
        mkFieldDef (str "vin") (str "VIN номер")
         (str "text") true (Some (str "JTDBR32E160123456")) None None None;
        mkFieldDef (str "state_number") (str "Государственный номер")
         (str "text") true (Some (str "А123БВ77")) None None None;
        mkFieldDef (str "price") (str "Цена (руб.)")
         (str "number") true None (Some 1000) (Some 10000000) None;
        mkFieldDef (str "sale_date") (str "Дата продажи")
         (str "date") true None None None None;
        mkFieldDef (str "payment_method") (str "Способ оплаты")
         (str "select") true None None None (Some [str "Наличные"; str "Банковский перевод"; str "Другое"]) ];
    mkTemplateDef
      (str "Образец трудового договора")
      (str "Договоры") (str "Договор") 79545
      (str "Стандартный трудовой договор между работодателем и работником")
      [ mkFieldDef (str "employer_name") (str "Наименование работодателя")
         (str "text") true (Some (str "ООО " ++ quote ++ str "Ромашка" ++ quote)) None None None;
        mkFieldDef (str "employer_details") (str "Реквизиты работодателя")
         (str "textarea") true (Some (str "ИНН 1234567890, ОГРН 1234567890123")) None None None;
        mkFieldDef (str "employee_name") (str "ФИО работника")
         (str "text") true (Some (str "Смирнова Анна Петровна")) None None None;
        mkFieldDef (str "employee_passport") (str "Паспортные данные работника")
         (str "text") true None None None None;
        mkFieldDef (str "position") (str "Должность")
         (str "text") true (Some (str "Менеджер по продажам")) None None None;
        mkFieldDef (str "department") (str "Отдел/подразделение")
         (str "text") true (Some (str "Отдел продаж")) None None None;
        mkFieldDef (str "salary") (str "Оклад (руб.)")
         (str "number") true None (Some 16242) (Some 1000000) None;
        mkFieldDef (str "start_date") (str "Дата начала работы")
         (str "date") true None None None None;
        mkFieldDef (str "contract_type") (str "Вид договора")
         (str "select") true None None None (Some [str "Бессрочный"; str "Срочный (до 5 лет)"; str "Сезонный"; str "На время выполнения работы"]);
        mkFieldDef (str "probation_period") (str "Испытательный срок (месяцев)")
         (str "number") false None (Some 0) (Some 6) None;
        mkFieldDef (str "work_schedule") (str "График работы")
         (str "select") true None None None (Some [str "5/2"; str "6/1"; str "Сменный"; str "Гибкий"]) ];
    mkTemplateDef
      (str "Образец заявления на оплачиваемый отпуск")
      (str "Заявления") (str "Заявление") 15284
      (str "Заявление на ежегодный оплачиваемый отпуск")
      [ mkFieldDef (str "to_director") (str "Кому (должность, ФИО)")
         (str "text") true (Some (str "Генеральному директору ООО " ++ quote ++ str "Ромашка" ++ quote ++ str " Иванову И.И.")) None None None;
        mkFieldDef (str "employee_name") (str "От кого (ФИО сотрудника)")
         (str "text") true (Some (str "Петрова Мария Сергеевна")) None None None;
        mkFieldDef (str "position") (str "Должность")
         (str "text") true (Some (str "Менеджер")) None None None;
        mkFieldDef (str "department") (str "Отдел")
         (str "text") true (Some (str "Отдел маркетинга")) None None None;
        mkFieldDef (str "vacation_start") (str "Дата начала отпуска")
         (str "date") true None None None None;
        mkFieldDef (str "vacation_end") (str "Дата окончания отпуска")
         (str "date") true None None None None;
        mkFieldDef (str "vacation_days") (str "Количество календарных дней")
         (str "number") true None (Some 1) (Some 60) None;
        mkFieldDef (str "vacation_type") (str "Тип отпуска")
         (str "select") true None None None (Some [str "Ежегодный оплачиваемый"; str "Без сохранения зарплаты"; str "Учебный"; str "По беременности и родам"]);
        mkFieldDef (str "application_date") (str "Дата заявления")
         (str "date") true None None None None;
        mkFieldDef (str "phone") (str "Контактный телефон")
         (str "phone") false (Some (str "+7 (999) 123-45-67")) None None None ];
    mkTemplateDef
      (str "Образец договора подряда, заключаемого между юридическим и физическим лицом")
      (str "Договоры") (str "Договор") 217729
      (str "Договор подряда на выполнение работ между компанией и физическим лицом")
      [ mkFieldDef (str "customer_name") (str "Наименование Заказчика (компания)")
         (str "text") true (Some (str "ООО " ++ quote ++ str "СтройГарант" ++ quote)) None None None;
        mkFieldDef (str "customer_details") (str "Реквизиты Заказчика")
         (str "textarea") true None None None None;
        mkFieldDef (str "contractor_name") (str "ФИО Подрядчика")
         (str "text") true None None None None;
        mkFieldDef (str "contractor_passport") (str "Паспортные данные Подрядчика")
         (str "text") true None None None None;
        mkFieldDef (str "work_description") (str "Описание работ")
         (str "textarea") true (Some (str "Ремонт офисного помещения")) None None None;
        mkFieldDef (str "work_address") (str "Адрес выполнения работ")
         (str "text") true None None None None;
        mkFieldDef (str "start_date") (str "Дата начала работ")
         (str "date") true None None None None;
        mkFieldDef (str "end_date") (str "Дата окончания работ")
         (str "date") true None None None None;
        mkFieldDef (str "contract_price") (str "Цена договора (руб.)")
         (str "number") true None (Some 1000) None None;
        mkFieldDef (str "advance_payment") (str "Аванс (руб.)")
         (str "number") false None (Some 0) None None;
        mkFieldDef (str "payment_schedule") (str "График платежей")
         (str "textarea") false (Some (str "50% - аванс, 50% - после приемки работ")) None None None ];
    mkTemplateDef
      (str "Образец искового заявления о взыскании алиментов на ребенка")
      (str "Исковые заявления") (str "Исковое заявление") 52892
      (str "Исковое заявление о взыскании алиментов на несовершеннолетнего ребенка")
      [ mkFieldDef (str "court_name") (str "Наименование суда")
         (str "text") true (Some (str "Мировой суд судебного участка №1")) None None None;
        mkFieldDef (str "plaintiff_name") (str "ФИО Истца (получателя алиментов)")
         (str "text") true None None None None;
        mkFieldDef (str "plaintiff_address") (str "Адрес Истца")
         (str "text") true None None None None;
        mkFieldDef (str "plaintiff_phone") (str "Телефон Истца")
         (str "phone") true None None None None;
        mkFieldDef (str "defendant_name") (str "ФИО Ответчика (плательщика алиментов)")
         (str "text") true None None None None;
        mkFieldDef (str "defendant_address") (str "Адрес Ответчика")
         (str "text") true None None None None;
        mkFieldDef (str "child_name") (str "ФИО ребенка")
         (str "text") true None None None None;
        mkFieldDef (str "child_birthdate") (str "Дата рождения ребенка")
         (str "date") true None None None None;
        mkFieldDef (str "child_birth_certificate") (str "Свидетельство о рождении")
         (str "text") true (Some (str "серия II-АБ №123456")) None None None;
        mkFieldDef (str "marriage_status") (str "Брак зарегистрирован")
         (str "boolean") true None None None None;
        mkFieldDef (str "alimony_amount") (str "Размер алиментов")
         (str "select") true None None None (Some [str "1/4 заработка"; str "1/3 заработка"; str "1/2 заработка"; str "Твердая денежная сумма"]);
        mkFieldDef (str "request") (str "Прошу взыскать")
         (str "textarea") true (Some (str "Взыскать с Ответчика алименты на содержание ребенка...")) None None None ];
    mkTemplateDef
      (str "Образец доверенности в налоговую от юридического лица")
      (str "Доверенности") (str "Доверенность") 7894
      (str "Доверенность на представление интересов компании в налоговой инспекции")
      [ mkFieldDef (str "company_name") (str "Наименование организации")
         (str "text") true (Some (str "ООО " ++ quote ++ str "Вектор" ++ quote)) None None None;
        mkFieldDef (str "company_details") (str "Реквизиты организации")
         (str "textarea") true (Some (str "ИНН 1234567890, ОГРН 1234567890123, адрес: г. Москва...")) None None None;
        mkFieldDef (str "director_name") (str "ФИО руководителя")
         (str "text") true (Some (str "Генеральный директор Иванов И.И.")) None None None;
        mkFieldDef (str "trustee_name") (str "ФИО доверенного лица")
         (str "text") true None None None None;
        mkFieldDef (str "trustee_passport") (str "Паспортные данные доверенного лица")
         (str "text") true None None None None;
        mkFieldDef (str "tax_office") (str "Наименование налоговой инспекции")
         (str "text") true (Some (str "ИФНС России №1 по г. Москве")) None None None;
        mkFieldDef (str "purpose") (str "Цель доверенности")
         (str "textarea") true (Some (str "Представлять интересы организации, подавать документы, получать документы...")) None None None;
        mkFieldDef (str "validity_period") (str "Срок действия (месяцев)")
         (str "number") true None (Some 1) (Some 36) None;
        mkFieldDef (str "issue_date") (str "Дата выдачи доверенности")
         (str "date") true None None None None;
        mkFieldDef (str "with_right_of_substitution") (str "С правом передоверия")
         (str "boolean") false None None None None ];
    mkTemplateDef
      (str "Образец расторжения договора по соглашению сторон")
      (str "Соглашения и расторжения") (str "Расторжение") 35118
      (str "Соглашение о расторжении договора по взаимному согласию сторон")
      [ mkFieldDef (str "original_contract_number") (str "Номер расторгаемого договора")
         (str "text") true (Some (str "№123 от 01.01.2023")) None None None;
        mkFieldDef (str "original_contract_date") (str "Дата расторгаемого договора")
         (str "date") true None None None None;
        mkFieldDef (str "party1_name") (str "Наименование Стороны 1")
         (str "text") true None None None None;
        mkFieldDef (str "party1_details") (str "Реквизиты Стороны 1")
         (str "textarea") true None None None None;
        mkFieldDef (str "party2_name") (str "Наименование Стороны 2")
         (str "text") true None None None None;
        mkFieldDef (str "party2_details") (str "Реквизиты Стороны 2")
         (str "textarea") true None None None None;
        mkFieldDef (str "termination_date") (str "Дата расторжения договора")
         (str "date") true None None None None;
        mkFieldDef (str "termination_reason") (str "Причина расторжения")
         (str "textarea") true (Some (str "По взаимному согласию сторон в связи с...")) None None None;
        mkFieldDef (str "mutual_settlements") (str "Взаиморасчеты произведены")
         (str "boolean") true None None None None;
        mkFieldDef (str "no_claims") (str "Стороны претензий друг к другу не имеют")
         (str "boolean") true None None None None;
        mkFieldDef (str "signature_date") (str "Дата подписания соглашения")
         (str "date") true None None None None ];
    mkTemplateDef
      (str "Образец акта приема-передачи автомобиля (простой)")
      (str "Акты") (str "Акт") 22754
      (str "Акт приема-передачи транспортного средства")
      [ mkFieldDef (str "act_number") (str "Номер акта")
         (str "text") true (Some (str "АКТ-1")) None None None;
        mkFieldDef (str "act_date") (str "Дата составления акта")
         (str "date") true None None None None;
        mkFieldDef (str "transferor_name") (str "ФИО передающего")
         (str "text") true None None None None;
        mkFieldDef (str "transferee_name") (str "ФИО принимающего")
         (str "text") true None None None None;
        mkFieldDef (str "car_brand") (str "Марка автомобиля")
         (str "text") true None None None None;
        mkFieldDef (str "car_model") (str "Модель автомобиля")
         (str "text") true None None None None;
        mkFieldDef (str "car_year") (str "Год выпуска")
         (str "number") true None None None None;
        mkFieldDef (str "vin") (str "VIN номер")
         (str "text") true None None None None;
        mkFieldDef (str "state_number") (str "Государственный номер")
         (str "text") true None None None None;
        mkFieldDef (str "mileage") (str "Пробег (км)")
         (str "number") true None (Some 0) None None;
        mkFieldDef (str "condition_description") (str "Описание состояния")
         (str "textarea") true (Some (str "Автомобиль передан в исправном техническом состоянии...")) None None None;
        mkFieldDef (str "documents_list") (str "Передаваемые документы")
         (str "textarea") true (Some (str "ПТС, СТС, ключи (2 шт.), сервисная книжка...")) None None None;
        mkFieldDef (str "transfer_purpose") (str "Цель передачи")
         (str "select") true None None None (Some [str "Продажа"; str "Аренда"; str "Хранение"; str "Ремонт"; str "Другое"]) ];
    mkTemplateDef
      (str "Образец завещания имущества (с подназначением наследника)")
      (str "Прочее") (str "Прочее") 3734
      (str "Завещание с указанием основного и подназначенного наследника")
      [ mkFieldDef (str "testator_name") (str "ФИО Завещателя")
         (str "text") true None None None None;
        mkFieldDef (str "testator_passport") (str "Паспортные данные Завещателя")
         (str "text") true None None None None;
        mkFieldDef (str "testator_address") (str "Адрес Завещателя")
         (str "text") true None None None None;
        mkFieldDef (str "testator_birthdate") (str "Дата рождения Завещателя")
         (str "date") true None None None None;
        mkFieldDef (str "notary_name") (str "ФИО нотариуса")
         (str "text") true None None None None;
        mkFieldDef (str "notary_office") (str "Нотариальная контора")
         (str "text") true None None None None;
        mkFieldDef (str "main_heir_name") (str "ФИО основного наследника")
         (str "text") true None None None None;
        mkFieldDef (str "main_heir_relation") (str "Отношение к Завещателю")
         (str "text") true (Some (str "сын, дочь, супруг(а)")) None None None;
        mkFieldDef (str "substitute_heir_name") (str "ФИО подназначенного наследника")
         (str "text") false None None None None;
        mkFieldDef (str "property_description") (str "Описание завещаемого имущества")
         (str "textarea") true (Some (str "Квартира, расположенная по адресу... Автомобиль марки... Денежные средства...")) None None None;
        mkFieldDef (str "special_conditions") (str "Особые условия")
         (str "textarea") false (Some (str "Имущество не подлежит разделу... Наследник обязуется...")) None None None;
        mkFieldDef (str "execution_date") (str "Дата составления завещания")
         (str "date") true None None None None ] ].

Definition seed_database : Clock -> DB -> Response Seeded * DB :=
  seed_with seed_categories templates_data.


(** ** Sequences of requests and sample data *)

Definition with_popularity (t : Template) (p : Z) : Template :=
  mkTemplate (t_id t) (t_category_id t) (t_name t) (t_description t)
    (t_doc_type t) (t_word_count t) p (t_created_at t).

(** The database after [n] GETs of the detail of [template_id], one after
    the other. *)
Fixpoint after_details (n : nat) (template_id : Z) (db : DB) : DB :=
  match n with
  | O => db
  | S n' => snd (get_template_detail template_id (after_details n' template_id db))
  end.

(** A small database: two categories, three templates, the fields of the
    first template and two filled documents, one of them of a template that
    is gone. *)
Definition sample_db : DB :=
  mkDB
    [ mkCategory 1 (str "Contracts") (Some (str "Contracts of all kinds"));
      mkCategory 2 (str "Acts") None ]
    [ mkTemplate 1 (Some 1) (str "Lease") (Some (str "Lease of a flat"))
        (str "Договор") 1200 0 (str "2024-01-01 10:00:00");
      mkTemplate 2 (Some 2) (str "abc") None
        (str "Акт") 300 5 (str "2024-01-02 10:00:00");
      mkTemplate 3 None (str "Will") (Some (str "Last will"))
        (str "Прочее") 800 5 (str "2024-01-03 10:00:00") ]
    [ mkTemplateField 1 1 (str "tenant") (str "Tenant") (str "text") 1
        None None None (Some (str "John Smith")) None 0;
      mkTemplateField 2 1 (str "area") (str "Area") (str "number") 1
        (Some 10) (Some 500) None None None 1;
      mkTemplateField 3 1 (str "note") (str "Note") (str "textarea") 0
        None None None None None 2 ]
    [ mkFilledDocument 1 1 None (str "{}") (str "2024-02-01 09:00:00")
        (str "generated");
      mkFilledDocument 2 9 None (str "{}") (str "2024-02-02 09:00:00")
        (str "generated") ]
    2 9 3 2.

Definition sample_clock : Clock :=
  mkClock (str "2024-03-01 12:00:00") (str "2024-03-01T15:00:00.000001").

(** ** Substrings *)

(** [term] occurs in [s] as a substring, up to the case of the ASCII
    letters. *)
Definition contains_ci (term s : text) : Prop :=
  exists pre mid post : text,
    s = pre ++ mid ++ post /\ Forall2 (fun c d => lower c = lower d) term mid.

(** [term] has no LIKE wildcard in it. *)
Definition wildcard_free (term : text) : Prop :=
  Forall (fun c => c <> percent /\ c <> underscore) term.

(** [term] has no NUL character in it. *)
Definition nul_free (term : text) : Prop :=
  Forall (fun c => c <> 0%N) term.

(** [term] is the end of [s], up to the case of the ASCII letters. *)
Definition ends_with_ci (term s : text) : Prop :=
  exists pre mid : text,
    s = pre ++ mid /\ Forall2 (fun c d => lower c = lower d) term mid.

(** ** The filters of the listing *)

(** What a template row has to satisfy to be listed: a condition for each
    of the category id, the document type and the search term that is
    given and truthy. *)
Definition passes (category_id : option Z) (doc_type : option text)
    (search : text) (t : Template) : Prop :=
  (forall c, category_id = Some c -> c <> 0 -> t_category_id t = Some c)
  /\ (forall d, doc_type = Some d -> d <> [] -> t_doc_type t = d)
  /\ (search <> [] ->
      like ([percent] ++ search ++ [percent]) (t_name t) = true
      \/ exists desc,
           t_description t = Some desc
           /\ like ([percent] ++ search ++ [percent]) desc = true).

(** ** Submissions *)

(** The submission has no value for [key], or a falsy one. *)
Definition Missing (fields_data : list (text * json)) (key : text) : Prop :=
  dict_get key fields_data = None
  \/ exists v, dict_get key fields_data = Some v /\ truthy v = false.

(** The field is flagged required. *)
Definition Required (f : TemplateField) : Prop := f_is_required f <> 0.

(** ** Bodies of a generation request *)

(** [k] occurs in [s] as a substring. *)
Definition occurs (k s : text) : Prop :=
  exists pre post : text, s = pre ++ k ++ post.

(** A JSON value that is no container and no string. *)
Definition scalar (v : json) : Prop :=
  match v with
  | JNull | JBool _ | JInt _ | JFloat _ => True
  | _ => False
  end.

(** [k in v] holds on a list or a string [v]. *)
Definition holds (v : json) (k : text) : Prop :=
  match v with
  | JArr items => In (JStr k) items
  | JStr s => occurs k s
  | _ => False
  end.

(** The body is an object with the two members. *)
Definition members (data template_id fields_data : json) : Prop :=
  exists items,
    data = JObj items
    /\ dict_get (str "template_id") items = Some template_id
    /\ dict_get (str "fields") items = Some fields_data.

(** The body has the two members, its [template_id] can be bound, and
    what is bound is the id of no template. *)
Definition no_template (db : DB) (data : json) : Prop :=
  exists template_id fields_data p,
    members data template_id fields_data
    /\ bind_parameter template_id = Returns p
    /\ forall t, In t (templates db) -> as_integer p <> Some (t_id t).

(** The requests on which the body of the handler raises, with what it
    raises: [in] on a body that is a number or [true]; the subscript of a
    body that is a list or a string with both keys in it; the binding of
    the [template_id]; and, for an existing template with a required
    field, [in] or the subscript on [fields] that is no object, at the
    first required field. *)
Inductive Raised (db : DB) (data : json) : Exception -> Prop :=
| raised_in :
    truthy data = true -> scalar data -> Raised db data (TypeError data)
| raised_subscript :
    holds data (str "template_id") -> holds data (str "fields") ->
    Raised db data (TypeError data)
| raised_bind (template_id fields_data : json) (e : Exception) :
    members data template_id fields_data ->
    bind_parameter template_id = Raises e ->
    Raised db data e
| raised_validation (template_id fields_data : json) (p : Value)
    (t : Template) (req : text) (rest : list text) :
    members data template_id fields_data ->
    bind_parameter template_id = Returns p ->
    as_integer p = Some (t_id t) ->
    In t (templates db) ->
    required_fields db (t_id t) = req :: rest ->
    scalar fields_data \/ holds fields_data req ->
    Raised db data (TypeError fields_data).

(** ** The seeded catalog *)

(** Every template row has a field row. *)
Definition covered (db : DB) : Prop :=
  forall t, In t (templates db) ->
    exists f, In f (template_fields db) /\ f_template_id f = t_id t.

(** What the specification asks of the catalog after a seed. *)
Definition catalog_seeded (db : DB) : Prop :=
  length (categories db) = 8%nat
  /\ length (templates db) = 10%nat
  /\ covered db.

(** An entry of [templates_data] whose inserts cannot fail before its first
    field is stored: its category is one of [names], its type passes the
    CHECK constraint, and so does the type of its first field. *)
Definition insertable (names : list text) (template : TemplateDef) : bool :=
  mem_text (tdef_category template) names
  && mem_text (tdef_type template) doc_types
  && match tdef_fields template with
     | field :: _ => mem_text (fdef_type field) field_types
     | [] => false
     end.

(** An entry whose insert into [templates] raises: its category is not in
    [category_ids], or its type fails the CHECK constraint. *)
Definition rejected (names : list text) (template : TemplateDef) : Prop :=
  ~ In (tdef_category template) names \/ ~ In (tdef_type template) doc_types.

(** ** Orders *)

(** The orders of the four queries, as relations. *)

Definition name_le (a b : CategoryInfo) : Prop :=
  text_leb (ci_name a) (ci_name b) = true.

Definition popularity_name_le (a b : Template) : Prop :=
  t_popularity b < t_popularity a
  \/ (t_popularity a = t_popularity b /\ text_leb (t_name a) (t_name b) = true).

Definition order_index_id_le (a b : TemplateField) : Prop :=
  f_order_index a < f_order_index b
  \/ (f_order_index a = f_order_index b /\ f_id a <= f_id b).

Definition created_at_ge (a b : FilledDocument * Template) : Prop :=
  text_leb (fd_created_at (fst b)) (fd_created_at (fst a)) = true.

(** ** The states of the service *)

(** The requests that write to the database. *)
Inductive step (db : DB) : DB -> Prop :=
| step_detail (template_id : Z) :
    step db (snd (get_template_detail template_id db))
| step_generate (clock : Clock) (data : GenerateRequest) :
    step db (snd (generate_document clock data db))
| step_generate_route (clock : Clock) (data : json) :
    step db (snd (generate_document_route clock data db))
| step_seed (clock : Clock) :
    step db (snd (seed_database clock db)).

(** The states the service reaches from the empty tables that
    [init_database] creates. *)
Inductive reachable : DB -> Prop :=
| reachable_init : reachable empty_db
| reachable_step (db db' : DB) : reachable db -> step db db' -> reachable db'.

(** The field rows of every template are stored in the order of the
    template's fields, and every field row is the field of a template. *)
Definition fields_in_order (db : DB) : Prop :=
  (forall template_id, Sorted order_index_id_le (fields_of db template_id))
  /\ forall f, In f (template_fields db) ->
       exists t, In t (templates db) /\ t_id t = f_template_id f.

(** ** Stand-ins for the JSON library *)

(** Enough of [json.dumps] and [json.loads] to run the examples below: the
    printer writes no escape and no float, the parser reads the empty list
    and the empty object and raises on any other text. *)
Definition decimal (n : Z) : text :=
  str (DecimalString.NilZero.string_of_int (Z.to_int n)).

Definition json_null : text := Eval vm_compute in str "null".
Definition json_true : text := Eval vm_compute in str "true".
Definition json_false : text := Eval vm_compute in str "false".
Definition json_nan : text := Eval vm_compute in str "NaN".
Definition comma : text := Eval vm_compute in str ", ".
Definition colon : text := Eval vm_compute in str ": ".

Fixpoint sample_dumps (v : json) : text :=
  match v with
  | JNull => json_null
  | JBool b => if b then json_true else json_false
  | JInt n => decimal n
  | JFloat _ => json_nan
  | JStr s => quote ++ s ++ quote
  | JArr items =>
      [91%N]
      ++ (fix go (l : list json) : text :=
            match l with
            | [] => []
            | [x] => sample_dumps x
            | x :: l' => sample_dumps x ++ comma ++ go l'
            end) items
      ++ [93%N]
  | JObj items =>
      [123%N]
      ++ (fix go (l : list (text * json)) : text :=
            match l with
            | [] => []
            | [(k, x)] => quote ++ k ++ quote ++ colon ++ sample_dumps x
            | (k, x) :: l' =>
                quote ++ k ++ quote ++ colon ++ sample_dumps x ++ comma
                ++ go l'
            end) items
      ++ [125%N]
  end.

Definition sample_loads (s : text) : option json :=
  if text_eqb s (str "[]") then Some (JArr [])
  else if text_eqb s (str "{}") then Some (JObj [])
  else None.

(** Two submissions for template 1 of [sample_db]: one without the required
    [area], one with every required field. *)
Definition sample_incomplete : list (text * json) :=
  [(str "tenant", JStr (str "Ann")); (str "area", JInt 0)].

Definition sample_complete : list (text * json) :=
  [(str "tenant", JStr (str "Ann")); (str "area", JInt 42)].

(** ** Stand-ins for the exception texts and the affinity *)

(** The texts of the exceptions, in short, and the two conversions that
    the affinity of a column applies; the examples below bind integers,
    booleans and [None] only, so the stand-ins of the conversions find no
    integer in a REAL or a TEXT value. *)
Definition overflow_text : text :=
  Eval vm_compute in str "Python int too large to convert to SQLite INTEGER".
Definition too_complex_text : text :=
  Eval vm_compute in str "LIKE or GLOB pattern too complex".
Definition encode_text : text := Eval vm_compute in str "surrogates not allowed".
Definition binding_text : text := Eval vm_compute in str "type is not supported".
Definition type_text : text := Eval vm_compute in str "unsupported operand".

Definition sample_exception_str (e : Exception) : text :=
  match e with
  | OverflowError => overflow_text
  | UnicodeEncodeError _ => encode_text
  | ProgrammingError _ => binding_text
  | OperationalError => too_complex_text
  | TypeError _ => type_text
  | KeyError k => k
  end.

Definition sample_integer_of_real (bits : N) : option Z := None.

Definition sample_integer_of_text (s : text) : option Z := None.

(** [sample_db] with two fields for template 3, stored against the order
    of their order index, and a body for that template. *)
Definition sample_will_db : DB :=
  mkDB (categories sample_db) (templates sample_db)
    (template_fields sample_db
     ++ [ mkTemplateField 4 3 (str "heir") (str "Heir") (str "text") 1
            None None None None None 1;
          mkTemplateField 5 3 (str "testator") (str "Testator") (str "text") 1
            None None None (Some (str "Full name")) None 0 ])
    (filled_documents sample_db)
    2 9 5 2.

Definition sample_will : list (text * json) :=
  [(str "testator", JStr (str "Ann")); (str "heir", JStr (str "Bob"))].

Definition sample_body (template_id fields_data : json) : list (text * json) :=
  [(str "template_id", template_id); (str "fields", fields_data)].


(** ** GET /api/statistics *)

Record PopularTemplate := mkPopularTemplate {
  pt_id : Z;
  pt_name : text;
  pt_popularity : Z
}.

Record RecentDocument := mkRecentDocument {
  rd_id : Z;
  rd_name : text;
  rd_created_at : text
}.

Record Statistics := mkStatistics {
  total_templates : Z;
  total_documents : Z;
  popular_templates : list PopularTemplate;
  recent_documents : list RecentDocument
}.

(** [ORDER BY popularity DESC] *)
Definition by_popularity_desc (a b : Template) : bool :=
  t_popularity b <=? t_popularity a.

Definition popular_template (t : Template) : PopularTemplate :=
  mkPopularTemplate (t_id t) (t_name t) (t_popularity t).

Definition recent_document (r : FilledDocument * Template) : RecentDocument :=
  let '(fd, t) := r in
  mkRecentDocument (fd_id fd) (t_name t) (fd_created_at fd).

Definition select_popular (db : DB) : list Template :=
  firstn 5 (order_by by_popularity_desc (templates db)).

Definition select_recent (db : DB) : list (FilledDocument * Template) :=
  firstn 5 (order_by by_created_at_desc (joined_documents db)).

Definition get_statistics (db : DB) : Response Statistics :=
  let total_templates := Z.of_nat (length (templates db)) in
  let total_documents := Z.of_nat (length (filled_documents db)) in
  Ok (mkStatistics total_templates total_documents
        (List.map popular_template (select_popular db))
        (List.map recent_document (select_recent db))).

(** The template of a filled document is a row of [templates]. *)
Definition has_template (db : DB) (fd : FilledDocument) : bool :=
  existsb (fun t => fd_template_id fd =? t_id t) (templates db).

(** [popularity DESC], as a relation. *)
Definition popularity_ge (a b : Template) : Prop :=
  t_popularity b <= t_popularity a.

(** ** More on the states of the service *)

(** The rowids of a table grow along the table and stay below the counter
    of [sqlite_sequence]. *)
Definition ids_increasing (ids : list Z) (seq : Z) : Prop :=
  StronglySorted Z.lt ids /\ Forall (fun id => 0 < id <= seq) ids.

(** The primary keys of the four tables, and the references of the filled
    documents: a filled document is of a template that the table holds or
    has held. *)
Definition keys_ok (db : DB) : Prop :=
  ids_increasing (List.map cat_id (categories db)) (seq_categories db)
  /\ ids_increasing (List.map t_id (templates db)) (seq_templates db)
  /\ ids_increasing (List.map f_id (template_fields db)) (seq_template_fields db)
  /\ ids_increasing (List.map fd_id (filled_documents db))
       (seq_filled_documents db)
  /\ Forall (fun fd => fd_template_id fd <= seq_templates db)
       (filled_documents db).

(** The state after the first seed of the empty tables. *)
Definition seeded_once : DB := snd (seed_database sample_clock empty_db).

(** A submission for the first template of the catalog, the lease of a
    flat, with a value for each of its ten required fields. *)
Definition sample_lease : list (text * json) :=
  [(str "landlord_name", JStr (str "Ivanov Ivan"));
   (str "landlord_passport", JStr (str "1234 567890"));
   (str "tenant_name", JStr (str "Petrov Petr"));
   (str "tenant_passport", JStr (str "4321 098765"));
   (str "address", JStr (str "Moscow, Lenina 1"));
   (str "apartment_area", JInt 54);
   (str "rooms_count", JInt 2);
   (str "rent_amount", JInt 45000);
   (str "start_date", JStr (str "2024-04-01"));
   (str "end_date", JStr (str "2025-03-31"))].

(** The state after the first seed and one generation. *)
Definition sample_reached : DB :=
  snd (generate_document sample_clock
         (mkGenerateRequest (Some 1) (Some sample_lease)) seeded_once).

(** ** The rows of the seed *)

(** The row that [INSERT INTO templates] stores for an entry of
    [templates_data]: the columns of the statement, popularity 0 and the
    time of the insert by default. *)
Definition template_row (id category_id : Z) (template : TemplateDef)
    (clock : Clock) : Template :=
  mkTemplate id (Some category_id) (tdef_name template)
    (Some (tdef_description template)) (tdef_type template)
    (tdef_word_count template) 0 (current_timestamp clock).

(** The row that [INSERT INTO template_fields] stores for the [i]-th entry
    of a template's ['fields']. *)
Definition field_row (id template_id : Z) (field : FieldDef) (i : Z)
    : TemplateField :=
  mkTemplateField id template_id (fdef_key field) (fdef_label field)
    (fdef_type field) (if fdef_required field then 1 else 0)
    (fdef_min field) (fdef_max field) None (fdef_placeholder field)
    (option_map (fun options => json_dumps (JArr (List.map JStr options)))
       (fdef_options field))
    i.

(** [rows] are the rows of [fields], in this order, with the order indices
    [i], [i + 1], ... *)
Fixpoint stored_fields (template_id : Z) (i : Z) (rows : list TemplateField)
    (fields : list FieldDef) : Prop :=
  match rows, fields with
  | [], [] => True
  | row :: rows', field :: fields' =>
      row = field_row (f_id row) template_id field i
      /\ stored_fields template_id (i + 1) rows' fields'
  | _, _ => False
  end.

(** An entry of [templates_data] none of whose inserts can fail. *)
Definition valid_entry (names : list text) (template : TemplateDef) : bool :=
  mem_text (tdef_category template) names
  && mem_text (tdef_type template) doc_types
  && forallb (fun field => mem_text (fdef_type field) field_types)
       (tdef_fields template).

(** The categories that [category_ids] names are rows of the table, under
    the name that is the key. *)
Definition names_resolve (db : DB) (ids : gmap text Z) : Prop :=
  StronglySorted Z.lt (List.map cat_id (categories db))
  /\ forall name id, ids !! name = Some id ->
       exists c, In c (categories db) /\ cat_id c = id /\ cat_name c = name.

(** The template row of an entry, up to its id and the id of its
    category. *)
Definition row_of (ids : gmap text Z) (clock : Clock) (t : Template)
    (template : TemplateDef) : Prop :=
  exists category_id,
    ids !! tdef_category template = Some category_id
    /\ t = template_row (t_id t) category_id template clock.

(** Every field row is the field of a template row. *)
Definition fields_refer (db : DB) : Prop :=
  forall f, In f (template_fields db) ->
    exists t, In t (templates db) /\ t_id t = f_template_id f.

(** What the database holds of an entry of the catalog after a seed: the
    template row with the columns of the entry, popularity 0, the time of
    the insert and a category that resolves to the category of the entry,
    and the field rows of the entry, in order. *)
Definition seeded_template (db : DB) (clock : Clock) (t : Template)
    (template : TemplateDef) : Prop :=
  t_name t = tdef_name template
  /\ t_description t = Some (tdef_description template)
  /\ t_doc_type t = tdef_type template
  /\ t_word_count t = tdef_word_count template
  /\ t_popularity t = 0
  /\ t_created_at t = current_timestamp clock
  /\ category_name db (t_category_id t) = Some (tdef_category template)
  /\ stored_fields (t_id t) 0 (fields_of db (t_id t)) (tdef_fields template).

(** What the database holds of an entry of the catalog in a state of the
    service: as after the seed, with a view counter that has been counted
    up from 0. *)
Definition catalog_entry (db : DB) (t : Template) (template : TemplateDef)
    : Prop :=
  t_name t = tdef_name template
  /\ t_description t = Some (tdef_description template)
  /\ t_doc_type t = tdef_type template
  /\ t_word_count t = tdef_word_count template
  /\ 0 <= t_popularity t
  /\ category_name db (t_category_id t) = Some (tdef_category template)
  /\ stored_fields (t_id t) 0 (fields_of db (t_id t)) (tdef_fields template).

(** A submission for template 1 of [sample_db] whose values have the wrong
    types: a boolean for the text field, a string for the number field. *)
Definition sample_untyped : list (text * json) :=
  [(str "tenant", JBool true); (str "area", JStr (str "abc"))].

(* ===================================================================== *)
(** * Properties *)
(* ===================================================================== *)

(** ** Ordering *)

Section OrderBy.
Context {A : Type} (leb : A -> A -> bool).

Hypothesis leb_total : forall a b, leb a b = true \/ leb b a = true.

Lemma insert_by_perm x l : Permutation (insert_by leb x l) (x :: l).
Proof.
  induction l as [|y l IH]; simpl; [reflexivity|].
  destruct (leb x y); [reflexivity|].
  rewrite IH. apply perm_swap.
Qed.

Lemma order_by_perm l : Permutation (order_by leb l) l.
Proof.
  induction l as [|x l IH]; simpl; [constructor|].
  rewrite insert_by_perm. now constructor.
Qed.

Lemma insert_by_hd x y l :
  leb y x = true -> HdRel (le_of leb) y l -> HdRel (le_of leb) y (insert_by leb x l).
Proof.
  intros Hyx Hl. destruct l as [|z l]; simpl.
  - now constructor.
  - destruct (leb x z); constructor; [assumption|].
    now inversion Hl.
Qed.

Lemma insert_by_sorted x l :
  Sorted (le_of leb) l -> Sorted (le_of leb) (insert_by leb x l).
Proof.
  induction 1 as [|y l Hs IH Hhd]; simpl.
  - repeat constructor.
  - destruct (leb x y) eqn:E.
    + constructor; [now constructor|now constructor].
    + constructor; [assumption|].
      apply insert_by_hd; [|assumption].
      destruct (leb_total x y); congruence.
Qed.

Lemma order_by_sorted l : Sorted (le_of leb) (order_by leb l).
Proof.
  induction l as [|x l IH]; simpl; [constructor|].
  now apply insert_by_sorted.
Qed.

Lemma order_by_strongly_sorted l :
  Transitive (le_of leb) -> StronglySorted (le_of leb) (order_by leb l).
Proof.
  intros Htr. apply Sorted_StronglySorted; [assumption|apply order_by_sorted].
Qed.

Lemma order_by_of_sorted l : Sorted (le_of leb) l -> order_by leb l = l.
Proof.
  induction 1 as [|x l Hs IH Hhd]; simpl; [reflexivity|].
  rewrite IH. destruct Hhd as [|y l Hxy]; simpl; [reflexivity|].
  unfold le_of in Hxy. now rewrite Hxy.
Qed.
End OrderBy.

Lemma text_leb_total a b : text_leb a b = true \/ text_leb b a = true.
Proof.
  revert b. induction a as [|x a IH]; intros [|y b]; simpl; auto.
  destruct (N.ltb_spec x y), (N.ltb_spec y x); auto; lia.
Qed.

Lemma text_leb_trans a b c :
  text_leb a b = true -> text_leb b c = true -> text_leb a c = true.
Proof.
  revert b c. induction a as [|x a IH]; intros [|y b] [|z c]; simpl;
    try congruence.
  destruct (N.ltb_spec x y), (N.ltb_spec y x), (N.ltb_spec y z),
    (N.ltb_spec z y), (N.ltb_spec x z), (N.ltb_spec z x);
    try congruence; try lia; eauto.
Qed.

Lemma text_leb_refl a : text_leb a a = true.
Proof. destruct (text_leb_total a a); assumption. Qed.

Lemma text_eqb_eq a b : text_eqb a b = true <-> a = b.
Proof. unfold text_eqb. apply bool_decide_eq_true. Qed.

Lemma mem_text_In x l : mem_text x l = true <-> In x l.
Proof.
  unfold mem_text. rewrite existsb_exists. split.
  - intros (y & Hy & E). apply text_eqb_eq in E. now subst.
  - intros H. exists x. split; [assumption|now apply text_eqb_eq].
Qed.

Lemma by_popularity_name_le a b :
  by_popularity_name a b = true <-> popularity_name_le a b.
Proof.
  unfold by_popularity_name, popularity_name_le.
  destruct (Z.ltb_spec (t_popularity b) (t_popularity a)) as [Hba|Hba].
  { split; auto. }
  destruct (Z.ltb_spec (t_popularity a) (t_popularity b)) as [Hab|Hab].
  { split; [discriminate|lia]. }
  split; [intros H; right; split; [lia|exact H]|].
  intros [H|[_ H]]; [lia|exact H].
Qed.

Lemma by_order_index_id_le a b :
  by_order_index_id a b = true <-> order_index_id_le a b.
Proof.
  unfold by_order_index_id, order_index_id_le.
  destruct (Z.ltb_spec (f_order_index a) (f_order_index b)) as [Hab|Hab].
  { split; auto. }
  destruct (Z.ltb_spec (f_order_index b) (f_order_index a)) as [Hba|Hba].
  { split; [discriminate|lia]. }
  rewrite Z.leb_le. lia.
Qed.

Lemma by_popularity_name_total a b :
  by_popularity_name a b = true \/ by_popularity_name b a = true.
Proof.
  rewrite !by_popularity_name_le. unfold popularity_name_le.
  destruct (Z.lt_trichotomy (t_popularity a) (t_popularity b)) as [H|[H|H]];
    [right; left; exact H| |left; left; exact H].
  destruct (text_leb_total (t_name a) (t_name b)); [left|right]; right; auto.
Qed.

Lemma by_order_index_id_total a b :
  by_order_index_id a b = true \/ by_order_index_id b a = true.
Proof. rewrite !by_order_index_id_le. unfold order_index_id_le. lia. Qed.

Lemma popularity_name_le_trans : Transitive popularity_name_le.
Proof.
  intros a b c [H1|[H1 L1]] [H2|[H2 L2]]; unfold popularity_name_le;
    try (left; lia).
  right. split; [lia|]. eapply text_leb_trans; eassumption.
Qed.

Lemma order_index_id_le_trans : Transitive order_index_id_le.
Proof. intros a b c H1 H2. unfold order_index_id_le in *. lia. Qed.

Lemma name_le_trans : Transitive name_le.
Proof. intros a b c. unfold name_le. apply text_leb_trans. Qed.

Lemma created_at_ge_trans : Transitive created_at_ge.
Proof.
  intros a b c H1 H2. unfold created_at_ge in *.
  eapply text_leb_trans; eassumption.
Qed.

Lemma StronglySorted_impl {A} (R S : A -> A -> Prop) l :
  (forall a b, R a b -> S a b) -> StronglySorted R l -> StronglySorted S l.
Proof.
  intros HRS. induction 1 as [|x l Hs IH Hall]; constructor; [assumption|].
  eapply List.Forall_impl; [|exact Hall]. auto.
Qed.

(** ** Category listing *)

Lemma eq_null_eq c v : eq_null c v = true <-> c = Some v.
Proof.
  destruct c as [x|]; simpl; [|split; discriminate].
  rewrite Z.eqb_eq. split; congruence.
Qed.

Lemma filter_ext_length {A} (f g : A -> bool) l :
  (forall x, f x = g x) -> length (List.filter f l) = length (List.filter g l).
Proof. intros H. now rewrite (List.filter_ext f g H). Qed.

(** C8: the category listing returns every category, ordered by name, and
    the [template_count] reported for a category is the number of template
    rows whose category reference is that category's id. *)
Theorem get_categories_spec (db : DB) :
  exists cats : list CategoryInfo,
    get_categories db = Ok (mkListing cats (Z.of_nat (length cats)))
    /\ Permutation cats (List.map (category_info db) (categories db))
    /\ StronglySorted name_le cats
    /\ forall c : Category,
         ci_id (category_info db c) = cat_id c
         /\ ci_name (category_info db c) = cat_name c
         /\ ci_description (category_info db c) = cat_description c
         /\ ci_template_count (category_info db c)
            = Z.of_nat
                (length
                   (List.filter
                      (fun t => bool_decide (t_category_id t = Some (cat_id c)))
                      (templates db))).
Proof.
  exists (order_by by_name (List.map (category_info db) (categories db))).
  split; [reflexivity|]. split; [apply order_by_perm|]. split.
  - apply order_by_strongly_sorted; [|exact name_le_trans].
    intros a b. apply text_leb_total.
  - intros c. repeat split. simpl. unfold template_count. f_equal.
    apply filter_ext_length. intros t.
    destruct (eq_null (t_category_id t) (cat_id c)) eqn:E.
    + apply eq_null_eq in E. symmetry. now apply bool_decide_eq_true.
    + symmetry. apply bool_decide_eq_false. intros H.
      apply eq_null_eq in H. congruence.
Qed.

(** ** Template detail *)

Lemma find_bump tid tid' ts :
  List.find (fun t => t_id t =? tid') (List.map (bump tid) ts)
  = option_map (bump tid) (List.find (fun t => t_id t =? tid') ts).
Proof.
  induction ts as [|t ts IH]; simpl; [reflexivity|].
  replace (t_id (bump tid t)) with (t_id t)
    by (unfold bump; destruct (t_id t =? tid); reflexivity).
  destruct (t_id t =? tid'); [reflexivity|exact IH].
Qed.

Lemma find_template_id db tid t :
  find_template db tid = Some t -> t_id t = tid.
Proof.
  unfold find_template. intros H. apply find_some in H.
  destruct H as [_ H]. now apply Z.eqb_eq.
Qed.

Lemma find_template_In db tid t :
  find_template db tid = Some t -> In t (templates db).
Proof. unfold find_template. intros H. now apply find_some in H. Qed.

Lemma find_by_id ts t :
  List.NoDup (List.map t_id ts) -> In t ts ->
  List.find (fun t' => t_id t' =? t_id t) ts = Some t.
Proof.
  induction ts as [|t' ts IH]; intros Hnd Hin; [destruct Hin|].
  inversion Hnd as [|? ? Hnotin Hnd']; subst. cbn [List.find].
  destruct Hin as [->|Hin]; [now rewrite Z.eqb_refl|].
  destruct (Z.eqb_spec (t_id t') (t_id t)) as [E|E]; [|now apply IH].
  exfalso. apply Hnotin. rewrite E. now apply in_map.
Qed.

Lemma find_template_row db template_id t :
  List.NoDup (List.map t_id (templates db)) ->
  In t (templates db) -> t_id t = template_id ->
  find_template db template_id = Some t.
Proof. intros Hnd Hin <-. now apply find_by_id. Qed.

Lemma find_after_update db tid tid' :
  find_template (update_popularity tid db) tid'
  = option_map (bump tid) (find_template db tid').
Proof. unfold find_template, update_popularity. simpl. apply find_bump. Qed.

Lemma bump_hit tid t :
  t_id t = tid -> bump tid t = with_popularity t (t_popularity t + 1).
Proof. intros H. unfold bump. now rewrite (proj2 (Z.eqb_eq _ _) H). Qed.

Lemma bump_miss tid t : t_id t <> tid -> bump tid t = t.
Proof. intros H. unfold bump. now rewrite (proj2 (Z.eqb_neq _ _) H). Qed.

Lemma after_details_find n db tid t :
  find_template db tid = Some t ->
  find_template (after_details n tid db) tid
  = Some (with_popularity t (t_popularity t + Z.of_nat n)).
Proof.
  intros Hfind. induction n as [|n IH].
  - simpl. rewrite Hfind, Z.add_0_r. now destruct t.
  - cbn [after_details]. unfold get_template_detail. rewrite IH. cbn [snd].
    rewrite find_after_update, IH. cbn [option_map].
    rewrite bump_hit by (simpl; eapply find_template_id; eassumption).
    unfold with_popularity. simpl. do 2 f_equal. lia.
Qed.

(** The claim C1 as it was stated fails: the first GET of the detail of
    template 1, whose popularity is 0, stores 1 and reports 0. *)
Lemma detail_popularity_counterexample :
  exists (r : TemplateData) (db' : DB) (t' : Template),
    get_template_detail 1 sample_db = (Ok r, db')
    /\ find_template db' 1 = Some t'
    /\ t_popularity t' = 1
    /\ td_popularity r = 0
    /\ td_popularity r <> t_popularity t'.
Proof.
  do 3 eexists. split; [reflexivity|]. split; [reflexivity|].
  repeat split. discriminate.
Qed.

(** C1 (as amended): a GET of the detail of an existing template adds
    exactly 1 to the stored popularity of that template and of no other, and
    returns the full record as it was read before the update, so the
    popularity in the response is the value before the increment.  After
    [n] sequential calls the stored popularity is the original plus [n], and
    the next response, number [n + 1], reports the original plus [n]. *)
Theorem get_template_detail_increments (db : DB) (template_id : Z) (t : Template) :
  find_template db template_id = Some t ->
  (exists db' : DB,
     get_template_detail template_id db
     = (Ok (mkTemplateData (t_id t) (t_name t) (t_description t) (t_doc_type t)
              (category_name db (t_category_id t)) (t_category_id t)
              (t_word_count t) (t_popularity t) (t_created_at t)),
        db')
     /\ find_template db' template_id
        = Some (with_popularity t (t_popularity t + 1))
     /\ (forall other : Z,
           other <> template_id ->
           find_template db' other = find_template db other)
     /\ length (templates db') = length (templates db)
     /\ categories db' = categories db
     /\ template_fields db' = template_fields db
     /\ filled_documents db' = filled_documents db)
  /\ forall n : nat,
       find_template (after_details n template_id db) template_id
       = Some (with_popularity t (t_popularity t + Z.of_nat n))
       /\ exists r : TemplateData,
            fst (get_template_detail template_id
                   (after_details n template_id db)) = Ok r
            /\ td_popularity r = t_popularity t + Z.of_nat n.
Proof.
  intros Hfind. split.
  - exists (update_popularity template_id db).
    unfold get_template_detail. rewrite Hfind.
    split; [reflexivity|]. split; [|split; [|split]].
    + rewrite find_after_update, Hfind. simpl. f_equal.
      apply bump_hit. eapply find_template_id; eassumption.
    + intros other Hne. rewrite find_after_update.
      destruct (find_template db other) as [t'|] eqn:E; [|reflexivity].
      simpl. f_equal. apply bump_miss.
      apply find_template_id in E. congruence.
    + simpl. apply length_map.
    + repeat split.
  - intros n. pose proof (after_details_find n db template_id t Hfind) as Hn.
    split; [exact Hn|].
    unfold get_template_detail. rewrite Hn. simpl. eexists. split; reflexivity.
Qed.

(** *** Binding an id *)

Lemma int64_range n : int64 n = true <-> - 2 ^ 63 <= n < 2 ^ 63.
Proof. unfold int64. rewrite andb_true_iff, Z.leb_le, Z.ltb_lt. reflexivity. Qed.

Lemma bind_parameter_int n :
  - 2 ^ 63 <= n < 2 ^ 63 -> bind_parameter (JInt n) = Returns (VInteger n).
Proof. intros H. apply int64_range in H. unfold bind_parameter. now rewrite H. Qed.

Lemma bind_parameter_overflow n :
  n < - 2 ^ 63 \/ 2 ^ 63 <= n -> bind_parameter (JInt n) = Raises OverflowError.
Proof.
  intros H. unfold bind_parameter.
  destruct (int64 n) eqn:E; [|reflexivity].
  apply int64_range in E. lia.
Qed.

(** On an id that fits 64 bits a route is the body of its handler. *)
Lemma get_template_detail_route_in_range template_id db :
  - 2 ^ 63 <= template_id < 2 ^ 63 ->
  get_template_detail_route template_id db = get_template_detail template_id db.
Proof.
  intros H. unfold get_template_detail_route.
  now rewrite (bind_parameter_int _ H).
Qed.

Lemma get_template_fields_route_in_range template_id db :
  - 2 ^ 63 <= template_id < 2 ^ 63 ->
  get_template_fields_route template_id db = get_template_fields template_id db.
Proof.
  intros H. unfold get_template_fields_route.
  now rewrite (bind_parameter_int _ H).
Qed.

(** C7 (as amended): a GET of the detail of an id that no template has
    answers 404 when the id fits the 64 bits of an SQLite INTEGER and 500
    when it does not, since the id cannot be bound then; in both cases the
    database is left as it was. *)
Theorem get_template_detail_not_found (db : DB) (template_id : Z) :
  (forall t : Template, In t (templates db) -> t_id t <> template_id) ->
  (- 2 ^ 63 <= template_id < 2 ^ 63 ->
   get_template_detail_route template_id db = (Error 404 not_found, db))
  /\ (template_id < - 2 ^ 63 \/ 2 ^ 63 <= template_id ->
      get_template_detail_route template_id db
      = (Error 500 (str "Ошибка сервера: " ++ exception_str OverflowError),
         db)).
Proof.
  intros Hnone. split.
  - intros Hrange. rewrite (get_template_detail_route_in_range _ _ Hrange).
    unfold get_template_detail.
    destruct (find_template db template_id) as [t|] eqn:E; [|reflexivity].
    exfalso. apply (Hnone t).
    + eapply find_template_In; eassumption.
    + eapply find_template_id; eassumption.
  - intros Hout. unfold get_template_detail_route.
    now rewrite (bind_parameter_overflow _ Hout).
Qed.

(** ** Template listing *)

(** C10: with [category_id=0] the listing adds no condition on the
    category, so the answer is the answer to the same request without
    [category_id]. *)
Theorem get_all_templates_category_zero (doc_type : option text) (search : text)
    (db : DB) :
  where_clauses (Some 0) doc_type search = where_clauses None doc_type search
  /\ get_all_templates (Some 0) doc_type search db
     = get_all_templates None doc_type search db.
Proof.
  assert (H : where_clauses (Some 0) doc_type search
              = where_clauses None doc_type search).
  { unfold where_clauses. rewrite Z.eqb_refl. reflexivity. }
  split; [exact H|].
  unfold get_all_templates, select_templates. now rewrite H.
Qed.

(** *** LIKE *)

Lemma pattern_compare_percent_cons p s :
  pattern_compare (percent :: p) s
  = (pattern_compare p s
     || match s with
        | [] => false
        | _ :: s' => pattern_compare (percent :: p) s'
        end).
Proof. destruct s; reflexivity. Qed.

Lemma pattern_compare_percent p s :
  pattern_compare (percent :: p) s = true
  <-> exists pre post, s = pre ++ post /\ pattern_compare p post = true.
Proof.
  induction s as [|a s IH]; rewrite pattern_compare_percent_cons.
  - rewrite orb_false_r. split.
    + intros H. now exists [], [].
    + intros (pre & post & E & H).
      symmetry in E. apply app_eq_nil in E. destruct E as [_ ->]. exact H.
  - rewrite orb_true_iff, IH. split.
    + intros [H|(pre & post & E & H)].
      * now exists [], (a :: s).
      * exists (a :: pre), post. subst s. now split.
    + intros ([|b pre] & post & E & H); simpl in E.
      * left. now subst post.
      * right. injection E as -> ->. now exists pre, post.
Qed.

Lemma pattern_compare_literal_cons c p s :
  c <> percent -> c <> underscore ->
  pattern_compare (c :: p) s = true
  <-> exists d s',
        s = d :: s' /\ lower c = lower d /\ pattern_compare p s' = true.
Proof.
  intros Hp Hu. simpl.
  rewrite (proj2 (N.eqb_neq _ _) Hp), (proj2 (N.eqb_neq _ _) Hu).
  destruct s as [|d s'].
  - split; [discriminate|]. now intros (d & s' & E & _).
  - unfold ci_eqb. rewrite andb_true_iff, N.eqb_eq. split.
    + intros [H1 H2]. now exists d, s'.
    + intros (d' & s'' & E & H1 & H2). injection E as -> ->. now split.
Qed.

Lemma pattern_compare_literal term p s :
  wildcard_free term ->
  pattern_compare (term ++ p) s = true
  <-> exists mid rest,
        s = mid ++ rest
        /\ Forall2 (fun c d => lower c = lower d) term mid
        /\ pattern_compare p rest = true.
Proof.
  intros Hfree. revert s.
  induction Hfree as [|c term [Hp Hu] Hfree IH]; intros s.
  - simpl. split.
    + intros H. exists [], s. repeat split; [constructor|exact H].
    + intros (mid & rest & E & Hmid & H). inversion Hmid; subst. exact H.
  - cbn [app]. rewrite (pattern_compare_literal_cons c _ s Hp Hu). split.
    + intros (d & s' & E & Hcd & H). apply IH in H.
      destruct H as (mid & rest & E' & Hmid & H).
      exists (d :: mid), rest. subst. repeat split; [|exact H].
      now constructor.
    + intros (mid & rest & E & Hmid & H).
      inversion Hmid as [|c' d term' mid' Hcd Hmid']; subst.
      exists d, (mid' ++ rest). repeat split; [exact Hcd|].
      apply IH. now exists mid', rest.
Qed.

Lemma pattern_compare_any s : pattern_compare [percent] s = true.
Proof.
  apply pattern_compare_percent. exists s, [].
  split; [now rewrite app_nil_r|reflexivity].
Qed.

Lemma pattern_compare_contains term s :
  wildcard_free term ->
  pattern_compare ([percent] ++ term ++ [percent]) s = true
  <-> contains_ci term s.
Proof.
  intros Hfree. cbn [app]. rewrite pattern_compare_percent.
  unfold contains_ci. split.
  - intros (pre & post & E & H).
    apply (pattern_compare_literal term) in H; [|exact Hfree].
    destruct H as (mid & rest & E' & Hmid & _).
    exists pre, mid, rest. subst. now split.
  - intros (pre & mid & post & E & Hmid).
    exists pre, (mid ++ post). split; [exact E|].
    apply pattern_compare_literal; [exact Hfree|].
    exists mid, post. repeat split; [exact Hmid|apply pattern_compare_any].
Qed.

Lemma cstring_nul_free s : nul_free s -> cstring s = s.
Proof.
  induction 1 as [|c s Hc Hs IH]; [reflexivity|].
  simpl. rewrite (proj2 (N.eqb_neq _ _) Hc). now rewrite IH.
Qed.

Lemma cstring_app a b : nul_free a -> cstring (a ++ b) = a ++ cstring b.
Proof.
  induction 1 as [|c a Hc Ha IH]; [reflexivity|].
  simpl. rewrite (proj2 (N.eqb_neq _ _) Hc). now rewrite IH.
Qed.

Lemma cstring_is_nul_free s : nul_free (cstring s).
Proof.
  induction s as [|c s IH]; simpl; [constructor|].
  destruct (N.eqb_spec c 0); constructor; assumption.
Qed.

Lemma cstring_prefix s : exists rest, s = cstring s ++ rest.
Proof.
  induction s as [|c s [rest IH]]; simpl; [now exists []|].
  destruct (c =? 0)%N.
  - now exists (c :: s).
  - exists rest. simpl. now f_equal.
Qed.

Lemma nul_free_pattern term :
  nul_free term -> nul_free ([percent] ++ term ++ [percent]).
Proof.
  intros H. unfold nul_free. apply List.Forall_app. split.
  - now repeat constructor.
  - apply List.Forall_app. split; [exact H|]. now repeat constructor.
Qed.

(** The pattern of a search whose term has a NUL character ends before
    that character: the second percent sign is not part of it. *)
Lemma cstring_pattern_nul term rest :
  nul_free term ->
  cstring ([percent] ++ (term ++ 0%N :: rest) ++ [percent]) = percent :: term.
Proof.
  intros H. cbn [app cstring]. change (percent =? 0)%N with false. cbv iota.
  f_equal. rewrite <- app_assoc. rewrite cstring_app by exact H.
  cbn [app cstring]. change (0 =? 0)%N with true. cbv iota.
  apply app_nil_r.
Qed.

Lemma like_any s : like [percent] s = true.
Proof. apply pattern_compare_any. Qed.

Lemma like_contains term s :
  wildcard_free term -> nul_free term ->
  like ([percent] ++ term ++ [percent]) s = true
  <-> contains_ci term (cstring s).
Proof.
  intros Hfree Hnul. unfold like.
  rewrite (cstring_nul_free _ (nul_free_pattern term Hnul)).
  now apply pattern_compare_contains.
Qed.

Lemma Sorted_impl {A} (R S : A -> A -> Prop) l :
  (forall a b, R a b -> S a b) -> Sorted R l -> Sorted S l.
Proof.
  intros HRS. induction 1 as [|x l Hs IH Hhd]; constructor; [assumption|].
  destruct Hhd; constructor. auto.
Qed.

Lemma and_iff (A B C D : Prop) : (A <-> B) -> (C <-> D) -> (A /\ C <-> B /\ D).
Proof. tauto. Qed.

Lemma filter_none {A} (f : A -> bool) l :
  (forall x, In x l -> f x = false) -> List.filter f l = [].
Proof.
  induction l as [|x l IH]; intros H; simpl; [reflexivity|].
  rewrite (H x (or_introl eq_refl)). apply IH. intros y Hy. apply H. now right.
Qed.

Lemma nonempty_true (s : text) : nonempty s = true <-> s <> [].
Proof. destruct s; simpl; split; congruence. Qed.

Lemma like_null_true pattern d :
  like_null pattern d = true
  <-> exists desc, d = Some desc /\ like pattern desc = true.
Proof.
  destruct d as [desc|]; simpl; split.
  - intros H. now exists desc.
  - intros (desc' & E & H). now injection E as ->.
  - discriminate.
  - now intros (desc & E & _).
Qed.

Lemma selected_iff category_id doc_type search t :
  selected (where_clauses category_id doc_type search) t = true
  <-> (forall c, category_id = Some c -> c <> 0 -> t_category_id t = Some c)
      /\ (forall d, doc_type = Some d -> d <> [] -> t_doc_type t = d)
      /\ (search <> [] ->
          like ([percent] ++ search ++ [percent]) (t_name t) = true
          \/ exists desc,
               t_description t = Some desc
               /\ like ([percent] ++ search ++ [percent]) desc = true).
Proof.
  unfold selected, where_clauses.
  rewrite !forallb_app, !andb_true_iff.
  apply and_iff; [|apply and_iff].
  - destruct category_id as [c|]; [|split; [discriminate|reflexivity]].
    destruct (Z.eqb_spec c 0) as [->|Hc]; simpl.
    + split; [|reflexivity]. intros _ c E Hne. congruence.
    + rewrite andb_true_r, eq_null_eq. split.
      * intros H c' E _. congruence.
      * intros H. now apply H.
  - destruct doc_type as [d|]; [|split; [discriminate|reflexivity]].
    destruct d as [|x d]; simpl.
    + split; [|reflexivity]. intros _ d E Hne. congruence.
    + rewrite andb_true_r, text_eqb_eq. split.
      * intros H d' E _. congruence.
      * intros H. now apply H.
  - destruct search as [|x search]; simpl forallb.
    + split; [|reflexivity]. intros _ Hne. congruence.
    + rewrite andb_true_r, orb_true_iff, like_null_true. split.
      * intros H _. exact H.
      * intros H. apply H. discriminate.
Qed.

Lemma utf8_length_app a b : utf8_length (a ++ b) = utf8_length a + utf8_length b.
Proof.
  unfold utf8_length. induction a as [|c a IH]; [reflexivity|].
  cbn [app fold_right]. rewrite IH. lia.
Qed.

Lemma utf8_length_pattern search :
  utf8_length ([percent] ++ search ++ [percent]) = utf8_length search + 2.
Proof. rewrite !utf8_length_app. cbn. lia. Qed.

Lemma pattern_too_complex_true search :
  pattern_too_complex search = true
  <-> search <> [] /\ 50000 < utf8_length search + 2.
Proof.
  unfold pattern_too_complex, like_pattern_limit.
  rewrite andb_true_iff, nonempty_true, Z.ltb_lt, utf8_length_pattern.
  reflexivity.
Qed.

Lemma passes_some category_id doc_type search db :
  existsb (selected (where_clauses category_id doc_type search)) (templates db)
  = true
  <-> exists t, In t (templates db) /\ passes category_id doc_type search t.
Proof.
  rewrite existsb_exists. split; intros (t & Hin & H); exists t;
    (split; [exact Hin|]); now apply selected_iff.
Qed.

Lemma like_ends_with term rest s :
  wildcard_free term -> nul_free term ->
  like ([percent] ++ (term ++ 0%N :: rest) ++ [percent]) s = true
  <-> ends_with_ci term (cstring s).
Proof.
  intros Hfree Hnul. unfold like. rewrite (cstring_pattern_nul _ _ Hnul).
  rewrite pattern_compare_percent. unfold ends_with_ci. split.
  - intros (pre & post & E & H). rewrite <- (app_nil_r term) in H.
    apply (pattern_compare_literal term) in H; [|exact Hfree].
    destruct H as (mid & tail & E' & Hmid & Htail).
    destruct tail; [|discriminate].
    exists pre, mid. rewrite app_nil_r in E'. subst. now split.
  - intros (pre & mid & E & Hmid). exists pre, mid. split; [exact E|].
    rewrite <- (app_nil_r term).
    apply pattern_compare_literal; [exact Hfree|].
    exists mid, []. rewrite app_nil_r. now repeat split.
Qed.

Lemma category_name_some db category_id n :
  category_name db category_id = Some n
  -> exists c, In c (categories db)
               /\ category_id = Some (cat_id c) /\ cat_name c = n.
Proof.
  unfold category_name.
  destruct (List.find _ (categories db)) as [c|] eqn:E; [|discriminate].
  intros H. injection H as <-. apply find_some in E. destruct E as [Hin E].
  apply eq_null_eq in E. now exists c.
Qed.

Lemma category_name_none db category_id :
  category_name db category_id = None
  -> forall c, In c (categories db) -> category_id <> Some (cat_id c).
Proof.
  unfold category_name.
  destruct (List.find _ (categories db)) as [c|] eqn:E; [discriminate|].
  intros _ c Hin Heq. eapply find_none in E; [|exact Hin].
  apply eq_null_eq in Heq. cbv beta in E. congruence.
Qed.

Lemma bind_category category_id :
  (forall c, category_id = Some c -> c <> 0 -> - 2 ^ 63 <= c < 2 ^ 63) ->
  match category_id with
  | Some c => if negb (c =? 0) then bind_parameter (JInt c) else Returns VNull
  | None => Returns VNull
  end
  = Returns match category_id with
            | Some c => if negb (c =? 0) then VInteger c else VNull
            | None => VNull
            end.
Proof.
  intros Hrange. destruct category_id as [c|]; [|reflexivity].
  destruct (Z.eqb_spec c 0) as [->|Hc]; [reflexivity|]. cbn [negb].
  apply bind_parameter_int. now apply Hrange.
Qed.

(** On a category id that fits 64 bits and a pattern within the limit the
    route is the body of its handler. *)
Lemma get_all_templates_route_in_range category_id doc_type search db :
  (forall c, category_id = Some c -> c <> 0 -> - 2 ^ 63 <= c < 2 ^ 63) ->
  utf8_length search + 2 <= 50000 ->
  get_all_templates_route category_id doc_type search db
  = get_all_templates category_id doc_type search db.
Proof.
  intros Hrange Hfits. unfold get_all_templates_route.
  rewrite (bind_category _ Hrange). cbn [and_then].
  destruct (pattern_too_complex search) eqn:E; [|reflexivity].
  apply pattern_too_complex_true in E. lia.
Qed.

(** C4 (as amended): of the category id, the document type and the search
    term, each one that is given and truthy (a non-zero id, a non-empty
    string) adds a condition, and the conditions are combined with AND.
    The search keeps exactly the templates whose name or description
    matches the LIKE pattern [%term%], in which [%] and [_] of the term are
    wildcards, only ASCII letters are compared without regard to case, and
    the pattern and the text end at their first NUL character.  For a term
    without wildcards and without NUL these are the templates whose name or
    description contains the term up to the case of ASCII letters; for such
    a term followed by a NUL, those whose name or description ends with it.
    A non-empty document type outside the enumerated set matches no
    template of a table that satisfies the CHECK constraint.  The result is
    ordered by popularity descending, then by name ascending; a row has the
    columns of its template and the name of the category the template
    refers to, if there is one.  The request is answered 500 when its
    category id does not fit 64 bits, and when its pattern is longer than
    50000 bytes and a template passes the two other filters. *)
Theorem get_all_templates_spec (category_id : option Z) (doc_type : option text)
    (search : text) (db : DB) :
  (forall c, category_id = Some c -> c <> 0 ->
     c < - 2 ^ 63 \/ 2 ^ 63 <= c ->
     get_all_templates_route category_id doc_type search db
     = Error 500 (str "Ошибка сервера: " ++ exception_str OverflowError))
  /\ ((forall c, category_id = Some c -> c <> 0 -> - 2 ^ 63 <= c < 2 ^ 63) ->
      search <> [] /\ 50000 < utf8_length search + 2
      /\ (exists t, In t (templates db) /\ passes category_id doc_type [] t) ->
      get_all_templates_route category_id doc_type search db
      = Error 500 (str "Ошибка сервера: " ++ exception_str OperationalError))
  /\ ((forall c, category_id = Some c -> c <> 0 -> - 2 ^ 63 <= c < 2 ^ 63) ->
      search = [] \/ utf8_length search + 2 <= 50000
      \/ (forall t, In t (templates db) -> ~ passes category_id doc_type [] t) ->
      exists rows : list Template,
        get_all_templates_route category_id doc_type search db
        = Ok (mkListing (List.map (template_summary db) rows)
                (Z.of_nat (length rows)))
        /\ StronglySorted popularity_name_le rows
        /\ Permutation rows
             (List.filter (selected (where_clauses category_id doc_type search))
                (templates db))
        /\ (forall t : Template,
              selected (where_clauses category_id doc_type search) t = true
              <-> passes category_id doc_type search t)
        /\ (forall d : text,
              doc_type = Some d -> d <> [] -> ~ In d doc_types ->
              (forall t, In t (templates db) -> In (t_doc_type t) doc_types) ->
              rows = []))
  /\ (forall term s : text,
        wildcard_free term -> nul_free term ->
        (like ([percent] ++ term ++ [percent]) s = true
         <-> contains_ci term (cstring s))
        /\ forall rest : text,
             like ([percent] ++ (term ++ 0%N :: rest) ++ [percent]) s = true
             <-> ends_with_ci term (cstring s))
  /\ (forall t : Template,
        ts_id (template_summary db t) = t_id t
        /\ ts_name (template_summary db t) = t_name t
        /\ ts_description (template_summary db t) = t_description t
        /\ ts_type (template_summary db t) = t_doc_type t
        /\ ts_word_count (template_summary db t) = t_word_count t
        /\ ts_popularity (template_summary db t) = t_popularity t
        /\ (forall n, ts_category (template_summary db t) = Some n ->
             exists c, In c (categories db)
                       /\ t_category_id t = Some (cat_id c) /\ cat_name c = n)
        /\ (ts_category (template_summary db t) = None ->
            forall c, In c (categories db) ->
                      t_category_id t <> Some (cat_id c))).
Proof.
  pose proof (bind_category category_id) as Hbind.
  split; [|split; [|split; [|split]]].
  - intros c -> Hc Hout. unfold get_all_templates_route.
    rewrite (proj2 (Z.eqb_neq _ _) Hc). cbn [negb].
    now rewrite (bind_parameter_overflow _ Hout).
  - intros Hrange (Hne & Hlong & Hsome). unfold get_all_templates_route.
    rewrite (Hbind Hrange). cbn [and_then].
    rewrite (proj2 (pattern_too_complex_true search) (conj Hne Hlong)).
    now rewrite (proj2 (passes_some category_id doc_type [] db) Hsome).
  - intros Hrange Hfits.
    exists (select_templates category_id doc_type search db).
    split; [|split; [|split; [|split]]].
    + unfold get_all_templates_route. rewrite (Hbind Hrange). cbn [and_then].
      replace (pattern_too_complex search
               && existsb (selected (where_clauses category_id doc_type []))
                    (templates db))
        with false.
      * unfold get_all_templates, listing. now rewrite length_map.
      * symmetry. apply andb_false_iff.
        destruct (pattern_too_complex search) eqn:Elong; [right|now left].
        apply pattern_too_complex_true in Elong. destruct Elong as [Hne Hlong].
        apply not_true_iff_false. intros Hsome. apply passes_some in Hsome.
        destruct Hsome as (t & Hin & Hpass).
        destruct Hfits as [->|[Hshort|Hnone]];
          [congruence|lia|exact (Hnone t Hin Hpass)].
    + unfold select_templates.
      eapply StronglySorted_impl; [intros a b; apply by_popularity_name_le|].
      apply order_by_strongly_sorted.
      * apply by_popularity_name_total.
      * intros a b c. unfold le_of. rewrite !by_popularity_name_le.
        apply popularity_name_le_trans.
    + apply order_by_perm.
    + intros t. apply selected_iff.
    + intros d Hd Hne Hout Hcheck. unfold select_templates.
      rewrite filter_none; [reflexivity|].
      intros t Hin. apply not_true_iff_false. intros Hsel.
      apply selected_iff in Hsel. destruct Hsel as (_ & Hty & _).
      apply Hout. rewrite <- (Hty d Hd Hne). now apply Hcheck.
  - intros term s Hfree Hnul. split.
    + now apply like_contains.
    + intros rest. now apply like_ends_with.
  - intros t. cbn [template_summary ts_id ts_name ts_description ts_type
                   ts_word_count ts_popularity ts_category].
    repeat split.
    + apply category_name_some.
    + apply category_name_none.
Qed.

Lemma contains_ci_chars term s c :
  contains_ci term s -> In c term -> exists d, In d s /\ lower c = lower d.
Proof.
  intros (pre & mid & post & -> & Hmid) Hc.
  induction Hmid as [|c' d term mid Hcd Hmid IH].
  - destruct Hc.
  - destruct Hc as [->|Hc].
    + exists d. split; [|exact Hcd]. apply in_or_app. right. now left.
    + destruct (IH Hc) as (d' & Hin & Hl). exists d'. split; [|exact Hl].
      apply in_app_or in Hin. apply in_or_app.
      destruct Hin as [Hin|Hin]; [now left|right].
      right. exact Hin.
Qed.

(** Two more departures from the claim as stated: an empty [doc_type] adds
    no condition, and letters outside ASCII are compared exactly. *)
Lemma doc_type_empty_not_applied (category_id : option Z) (search : text) (db : DB) :
  get_all_templates_route category_id (Some []) search db
  = get_all_templates_route category_id None search db.
Proof. reflexivity. Qed.

Example like_cyrillic_case :
  like ([percent] ++ str "договор" ++ [percent]) (str "Договор аренды") = false
  /\ like ([percent] ++ str "Договор" ++ [percent]) (str "Договор аренды") = true
  /\ like ([percent] ++ str "LEASE" ++ [percent]) (str "Lease of a flat") = true.
Proof. repeat split; vm_compute; reflexivity. Qed.

(** ** Template fields *)

Lemma fields_of_In db tid f :
  In f (fields_of db tid) <-> In f (template_fields db) /\ f_template_id f = tid.
Proof. unfold fields_of. rewrite filter_In, Z.eqb_eq. reflexivity. Qed.

Lemma filter_bool_decide_eq (tid : Z) l :
  List.filter (fun f => bool_decide (f_template_id f = tid)) l
  = List.filter (fun f => f_template_id f =? tid) l.
Proof.
  apply List.filter_ext. intros f.
  destruct (Z.eqb_spec (f_template_id f) tid) as [E|E].
  - now apply bool_decide_eq_true.
  - now apply bool_decide_eq_false.
Qed.

(** C5: for an existing template the fields endpoint returns the template
    name and the fields of the template ordered by order index, then id.
    A field carries its key, label, type and required flag, its placeholder
    or the empty string, [min] and [max] when the column is not NULL,
    [format] when it is a non-empty string, and [options] when the stored
    text is non-empty: the parsed value, or the empty list when parsing
    fails.  The template is the row of the table that has the requested
    id; ids are unique, and an id of a row fits 64 bits. *)
Theorem get_template_fields_spec (db : DB) (template_id : Z) (t : Template) :
  In t (templates db) ->
  t_id t = template_id ->
  List.NoDup (List.map t_id (templates db)) ->
  - 2 ^ 63 <= template_id < 2 ^ 63 ->
  exists fields : list TemplateField,
    get_template_fields_route template_id db
    = Ok (mkFieldsResponse template_id (t_name t) (List.map field_data fields))
    /\ Permutation fields
         (List.filter (fun f => bool_decide (f_template_id f = template_id))
            (template_fields db))
    /\ StronglySorted order_index_id_le fields
    /\ forall f : TemplateField,
         fdat_key (field_data f) = f_field_key f
         /\ fdat_label (field_data f) = f_field_label f
         /\ fdat_type (field_data f) = f_field_type f
         /\ (fdat_required (field_data f) = true <-> Required f)
         /\ fdat_placeholder (field_data f)
            = match f_placeholder f with Some p => p | None => [] end
         /\ fdat_min (field_data f) = f_min_value f
         /\ fdat_max (field_data f) = f_max_value f
         /\ fdat_format (field_data f)
            = match f_format f with
              | Some (c :: s) => Some (c :: s)
              | _ => None
              end
         /\ fdat_options (field_data f)
            = match f_options f with
              | Some (c :: s) =>
                  Some (match json_loads (c :: s) with
                        | Some v => v
                        | None => JArr []
                        end)
              | _ => None
              end.
Proof.
  intros Hin Hid Hnd Hrange.
  pose proof (find_template_row db template_id t Hnd Hin Hid) as Hfind.
  exists (order_by by_order_index_id (fields_of db template_id)).
  split; [|split; [|split]].
  - rewrite (get_template_fields_route_in_range _ _ Hrange).
    unfold get_template_fields. now rewrite Hfind.
  - rewrite filter_bool_decide_eq. apply order_by_perm.
  - eapply StronglySorted_impl; [intros a b; apply by_order_index_id_le|].
    apply order_by_strongly_sorted.
    + apply by_order_index_id_total.
    + intros a b c. unfold le_of. rewrite !by_order_index_id_le.
      apply order_index_id_le_trans.
  - intros f. unfold field_data, Required. cbn.
    repeat split.
    + intros H E. rewrite E in H. discriminate.
    + intros H. apply negb_true_iff. now apply Z.eqb_neq.
    + destruct (f_placeholder f) as [[|c p]|]; reflexivity.
    + destruct (f_format f) as [[|c p]|]; reflexivity.
    + destruct (f_options f) as [[|c p]|]; reflexivity.
Qed.

(** ** Document generation *)

Lemma unfilled_Missing fields_data key :
  unfilled fields_data key = true <-> Missing fields_data key.
Proof.
  unfold unfilled, Missing.
  destruct (dict_get key fields_data) as [v|]; split.
  - intros H. right. exists v. split; [reflexivity|]. now apply negb_true_iff.
  - intros [H|(v' & E & H)]; [discriminate|].
    injection E as ->. now apply negb_true_iff.
  - now left.
  - reflexivity.
Qed.

(** The first element of a list that satisfies a test, with what stands
    before it. *)
Lemma find_split {A} (f : A -> bool) l x :
  List.find f l = Some x ->
  exists before after,
    l = before ++ x :: after /\ f x = true
    /\ Forall (fun y => f y = false) before.
Proof.
  induction l as [|y l IH]; simpl; [discriminate|].
  destruct (f y) eqn:E.
  - intros H. injection H as ->. exists [], l. repeat split; [exact E|constructor].
  - intros H. destruct (IH H) as (before & after & -> & Hx & Hb).
    exists (y :: before), after. repeat split; [exact Hx|now constructor].
Qed.

Lemma find_required db tid fields_data key :
  List.find (unfilled fields_data) (required_fields db tid) = Some key ->
  exists before f after,
    fields_of db tid = before ++ f :: after
    /\ f_field_key f = key /\ Required f /\ Missing fields_data key
    /\ Forall (fun g => Required g -> ~ Missing fields_data (f_field_key g))
         before.
Proof.
  unfold required_fields.
  induction (fields_of db tid) as [|g l IH]; simpl; [discriminate|].
  destruct (Z.eqb_spec (f_is_required g) 0) as [E|E]; simpl.
  - intros H. destruct (IH H) as (before & f & after & -> & Hk & Hr & Hm & Hb).
    exists (g :: before), f, after. repeat split; try assumption.
    constructor; [|exact Hb]. intros Hg. contradiction.
  - destruct (unfilled fields_data (f_field_key g)) eqn:U.
    + intros H. injection H as <-. exists [], g, l.
      repeat split; [exact E|now apply unfilled_Missing|constructor].
    + intros H. destruct (IH H) as (before & f & after & -> & Hk & Hr & Hm & Hb).
      exists (g :: before), f, after. repeat split; try assumption.
      constructor; [|exact Hb]. intros _ Hg.
      apply unfilled_Missing in Hg. congruence.
Qed.

Lemma find_required_none db tid fields_data :
  List.find (unfilled fields_data) (required_fields db tid) = None <->
  forall f, In f (fields_of db tid) -> Required f ->
            ~ Missing fields_data (f_field_key f).
Proof.
  unfold required_fields. split.
  - intros H f Hin Hreq Hm.
    eapply find_none in H.
    + apply unfilled_Missing in Hm. rewrite Hm in H. discriminate.
    + apply in_map, filter_In. split; [exact Hin|].
      apply negb_true_iff. now apply Z.eqb_neq.
  - intros H. destruct (List.find _ _) as [key|] eqn:E; [|reflexivity].
    apply find_some in E. destruct E as [Hin Hu].
    apply in_map_iff in Hin. destruct Hin as (f & <- & Hin).
    apply filter_In in Hin. destruct Hin as [Hin Hreq].
    exfalso. apply (H f Hin).
    + apply negb_true_iff in Hreq. now apply Z.eqb_neq.
    + now apply unfilled_Missing.
Qed.

(** C2: when the template exists and the submission has no value, or a
    falsy one, for some required field of the template, the request fails
    with 400, the message names the first such field in the order of the
    template's fields (order index, then id), and the database is left as
    it was: no filled document is created.  The field rows of the template
    are stored in that order, as the seed stores them. *)
Theorem generate_document_missing_required (clock : Clock) (db : DB)
    (template_id : Z) (fields_data : list (text * json)) (t : Template) :
  find_template db template_id = Some t ->
  Sorted order_index_id_le (fields_of db template_id) ->
  (exists f, In f (fields_of db template_id)
             /\ Required f /\ Missing fields_data (f_field_key f)) ->
  exists before f after,
    order_by by_order_index_id (fields_of db template_id) = before ++ f :: after
    /\ Required f /\ Missing fields_data (f_field_key f)
    /\ Forall (fun g => Required g -> ~ Missing fields_data (f_field_key g))
         before
    /\ generate_document clock
         (mkGenerateRequest (Some template_id) (Some fields_data)) db
       = (Error 400 (not_filled (f_field_key f)), db).
Proof.
  intros Hfind Hsorted (f0 & Hin0 & Hreq0 & Hmiss0).
  rewrite order_by_of_sorted
    by (eapply Sorted_impl; [|exact Hsorted];
        intros a b; apply by_order_index_id_le).
  unfold generate_document. cbn [rq_template_id rq_fields]. rewrite Hfind.
  destruct (List.find (unfilled fields_data) (required_fields db template_id))
    as [key|] eqn:E.
  - destruct (find_required _ _ _ _ E)
      as (before & f & after & Hsplit & Hk & Hr & Hm & Hb).
    exists before, f, after. subst key. repeat split; assumption.
  - exfalso. rewrite find_required_none in E. exact (E f0 Hin0 Hreq0 Hmiss0).
Qed.

Lemma max_id_ge ids x : In x ids -> x <= max_id ids.
Proof.
  induction ids as [|y ids IH]; simpl; [contradiction|].
  intros [->|H]; [lia|]. specialize (IH H). lia.
Qed.

Lemma next_rowid_fresh seq ids x : In x ids -> x < next_rowid seq ids.
Proof. intros H. apply max_id_ge in H. unfold next_rowid. lia. Qed.

Lemma next_rowid_seq seq ids : seq < next_rowid seq ids.
Proof. unfold next_rowid. lia. Qed.

(** *** The handler on every body *)

Lemma first_unfilled_dict fields_data required :
  first_unfilled (JObj fields_data) required
  = Returns (List.find (unfilled fields_data) required).
Proof.
  induction required as [|req_field rest IH]; [reflexivity|].
  cbn [first_unfilled contains subscript and_then List.find]. unfold unfilled.
  destruct (dict_get req_field fields_data) as [v|]; [|reflexivity].
  cbn [negb and_then]. destruct (truthy v); [exact IH|reflexivity].
Qed.

Lemma dict_get_nonempty k items v :
  dict_get k items = Some v -> truthy (JObj items) = true.
Proof. destruct items; [discriminate|reflexivity]. Qed.

(** On a body whose [template_id] is an integer that fits 64 bits and whose
    [fields] is an object, the handler is its body on the two members. *)
Lemma generate_document_route_typed clock items template_id fields_data db :
  dict_get (str "template_id") items = Some (JInt template_id) ->
  dict_get (str "fields") items = Some (JObj fields_data) ->
  - 2 ^ 63 <= template_id < 2 ^ 63 ->
  generate_document_route clock (JObj items) db
  = generate_document clock
      (mkGenerateRequest (Some template_id) (Some fields_data)) db.
Proof.
  intros Hid Hfields Hrange.
  unfold generate_document_route, generate_document.
  rewrite (dict_get_nonempty _ _ _ Hid).
  cbn [negb contains subscript rq_template_id rq_fields].
  rewrite Hid, Hfields. cbn [and_then negb].
  rewrite (bind_parameter_int _ Hrange). cbn [and_then as_integer].
  destruct (find_template db template_id) as [t|]; [|reflexivity].
  rewrite first_unfilled_dict. cbn [and_then].
  destruct (List.find (unfilled fields_data) (required_fields db template_id));
    [reflexivity|].
  destruct (insert_filled_document template_id (json_dumps (JObj fields_data))
              (str "generated") clock db).
  reflexivity.
Qed.

Lemma starts_with_prefix k s :
  starts_with k s = true <-> exists post, s = k ++ post.
Proof.
  revert s. induction k as [|c k IH]; intros s.
  - destruct s; simpl; (split; [intros _; eauto|reflexivity]).
  - destruct s as [|d s]; simpl.
    + split; [discriminate|]. intros (post & E). discriminate.
    + rewrite andb_true_iff, N.eqb_eq, IH. split.
      * intros [-> (post & ->)]. now exists post.
      * intros (post & E). injection E as -> ->.
        split; [reflexivity|now exists post].
Qed.

Lemma substring_occurs k s : substring k s = true <-> occurs k s.
Proof.
  unfold occurs. induction s as [|d s IH].
  - cbn [substring]. rewrite orb_false_r, starts_with_prefix. split.
    + intros (post & E). now exists [], post.
    + intros (pre & post & E). destruct pre; [now exists post|discriminate].
  - cbn [substring]. rewrite orb_true_iff, starts_with_prefix, IH. split.
    + intros [(post & E)|(pre & post & E)].
      * now exists [], post.
      * exists (d :: pre), post. now rewrite E.
    + intros ([|c pre] & post & E).
      * left. now exists post.
      * right. injection E as -> E. now exists pre, post.
Qed.

Lemma contains_list items k :
  existsb (fun x => match x with JStr s => text_eqb s k | _ => false end) items
  = true
  <-> In (JStr k) items.
Proof.
  rewrite existsb_exists. split.
  - intros (x & Hin & H). destruct x; try discriminate.
    apply text_eqb_eq in H. now subst.
  - intros H. exists (JStr k). split; [exact H|]. now apply text_eqb_eq.
Qed.

Lemma contains_holds v k :
  holds v k -> contains v k = Returns true.
Proof.
  destruct v; cbn [holds contains]; try contradiction; intros H; f_equal.
  - now apply substring_occurs.
  - now apply contains_list.
Qed.

Lemma holds_subscript v k : holds v k -> subscript v k = Raises (TypeError v).
Proof. destruct v; cbn [holds]; try contradiction; reflexivity. Qed.

Lemma holds_truthy v k : k <> [] -> holds v k -> truthy v = true.
Proof.
  intros Hk. destruct v as [| | | |s|items|]; cbn [holds]; try contradiction.
  - intros (pre & post & ->). destruct pre; [|reflexivity].
    destruct k; [congruence|reflexivity].
  - destruct items; [contradiction|reflexivity].
Qed.

Lemma scalar_contains v k : scalar v -> contains v k = Raises (TypeError v).
Proof. destruct v; cbn [scalar]; try contradiction; reflexivity. Qed.

Lemma first_unfilled_raises fields_data req rest :
  scalar fields_data \/ holds fields_data req ->
  first_unfilled fields_data (req :: rest) = Raises (TypeError fields_data).
Proof.
  intros [H|H]; cbn [first_unfilled].
  - now rewrite (scalar_contains _ _ H).
  - rewrite (contains_holds _ _ H). cbn [and_then negb].
    now rewrite (holds_subscript _ _ H).
Qed.

(** The three ends of the loop over the required fields. *)
Lemma first_unfilled_cases fields_data required :
  (exists req, first_unfilled fields_data required = Returns (Some req))
  \/ (first_unfilled fields_data required = Returns None
      /\ (required = []
          \/ exists fields,
               fields_data = JObj fields
               /\ forall req, In req required ->
                    exists v, dict_get req fields = Some v /\ truthy v = true))
  \/ (first_unfilled fields_data required = Raises (TypeError fields_data)
      /\ exists req rest,
           required = req :: rest
           /\ (scalar fields_data \/ holds fields_data req)).
Proof.
  destruct required as [|req rest]; [right; left; now split; [|left]|].
  assert (Hraise : scalar fields_data \/ holds fields_data req ->
            first_unfilled fields_data (req :: rest)
            = Raises (TypeError fields_data)
            /\ exists req' rest',
                 req :: rest = req' :: rest'
                 /\ (scalar fields_data \/ holds fields_data req')).
  { intros H. split; [now apply first_unfilled_raises|]. now exists req, rest. }
  destruct fields_data as [|b|n|bits|s|items|fields].
  - right; right. apply Hraise. now left.
  - right; right. apply Hraise. now left.
  - right; right. apply Hraise. now left.
  - right; right. apply Hraise. now left.
  - destruct (substring req s) eqn:E.
    + right; right. apply Hraise. right. now apply substring_occurs.
    + left. exists req. cbn [first_unfilled contains and_then]. now rewrite E.
  - destruct (existsb (fun x => match x with
                                | JStr s => text_eqb s req
                                | _ => false
                                end) items) eqn:E.
    + right; right. apply Hraise. right. now apply contains_list.
    + left. exists req. cbn [first_unfilled contains and_then]. now rewrite E.
  - rewrite first_unfilled_dict.
    destruct (List.find (unfilled fields) (req :: rest)) as [key|] eqn:E.
    + left. now exists key.
    + right; left. split; [reflexivity|]. right. exists fields.
      split; [reflexivity|]. intros key Hin.
      eapply find_none in E; [|exact Hin]. unfold unfilled in E.
      destruct (dict_get key fields) as [v|]; [|discriminate].
      exists v. split; [reflexivity|]. now apply negb_false_iff.
Qed.

Lemma find_template_exists db t :
  In t (templates db) -> exists t', find_template db (t_id t) = Some t'.
Proof.
  intros Hin. unfold find_template.
  destruct (List.find _ (templates db)) as [t'|] eqn:E; [now exists t'|].
  eapply find_none in E; [|exact Hin]. cbv beta in E.
  now rewrite Z.eqb_refl in E.
Qed.

Lemma key_template_id_nonempty : str "template_id" <> [].
Proof. vm_compute. discriminate. Qed.

(** The four outcomes of the handler. *)
Lemma generate_document_route_cases clock data db :
  (exists message,
     generate_document_route clock data db = (Error 400 message, db))
  \/ (no_template db data
      /\ generate_document_route clock data db = (Error 404 not_found, db))
  \/ (exists e,
        Raised db data e
        /\ generate_document_route clock data db
           = (Error 500 (creation_error e), db))
  \/ (exists template_id fields_data p t,
        members data template_id fields_data
        /\ bind_parameter template_id = Returns p
        /\ as_integer p = Some (t_id t)
        /\ In t (templates db)
        /\ (required_fields db (t_id t) = []
            \/ exists fields,
                 fields_data = JObj fields
                 /\ forall req, In req (required_fields db (t_id t)) ->
                      exists v, dict_get req fields = Some v
                                /\ truthy v = true)
        /\ generate_document_route clock data db
           = (Ok (mkGenerated
                    (snd (insert_filled_document (t_id t)
                            (json_dumps fields_data) (str "generated")
                            clock db))
                    (t_name t) (now_isoformat clock)),
              fst (insert_filled_document (t_id t) (json_dumps fields_data)
                     (str "generated") clock db))).
Proof.
  unfold generate_document_route.
  destruct (truthy data) eqn:Htruthy; cbn [negb]; [|left; eauto].
  destruct data as [|b|n|bits|s|items|items].
  - discriminate.
  - right; right; left. exists (TypeError (JBool b)).
    split; [now apply raised_in|reflexivity].
  - right; right; left. exists (TypeError (JInt n)).
    split; [now apply raised_in|reflexivity].
  - right; right; left. exists (TypeError (JFloat bits)).
    split; [now apply raised_in|reflexivity].
  - cbn [contains and_then].
    destruct (substring (str "template_id") s) eqn:E1; cbn [negb];
      [|left; eauto].
    destruct (substring (str "fields") s) eqn:E2; cbn [negb and_then subscript];
      [|left; eauto].
    right; right; left. exists (TypeError (JStr s)).
    split; [|reflexivity].
    apply raised_subscript; cbn [holds]; now apply substring_occurs.
  - cbn [contains and_then].
    destruct (existsb _ items) eqn:E1; cbn [negb]; [|left; eauto].
    destruct (existsb _ items) eqn:E2 in |- *; cbn [negb and_then subscript];
      [|left; eauto].
    right; right; left. exists (TypeError (JArr items)).
    split; [|reflexivity].
    apply raised_subscript; cbn [holds]; now apply contains_list.
  - cbn [contains subscript and_then].
    destruct (dict_get (str "template_id") items) as [template_id|] eqn:E1;
      cbn [negb and_then]; [|left; eauto].
    destruct (dict_get (str "fields") items) as [fields_data|] eqn:E2;
      cbn [negb and_then]; [|left; eauto].
    assert (Hm : members (JObj items) template_id fields_data).
    { exists items. auto. }
    destruct (bind_parameter template_id) as [p|e] eqn:Eb; cbn [and_then].
    2:{ right; right; left. exists e.
        split; [eapply raised_bind; eassumption|reflexivity]. }
    destruct (as_integer p) as [id|] eqn:Ei.
    2:{ right; left. split; [|reflexivity].
        exists template_id, fields_data, p.
        split; [exact Hm|]. split; [exact Eb|].
        intros t _. rewrite Ei. discriminate. }
    destruct (find_template db id) as [t|] eqn:Ef.
    2:{ right; left. split; [|reflexivity].
        exists template_id, fields_data, p.
        split; [exact Hm|]. split; [exact Eb|].
        intros t Hin. rewrite Ei. intros H. injection H as ->.
        unfold find_template in Ef. eapply find_none in Ef; [|exact Hin].
        cbv beta in Ef. now rewrite Z.eqb_refl in Ef. }
    pose proof (find_template_id _ _ _ Ef) as Hid.
    pose proof (find_template_In _ _ _ Ef) as Hin. subst id.
    destruct (first_unfilled_cases fields_data (required_fields db (t_id t)))
      as [(req & E)|[(E & Hall)|(E & req & rest & Hreq & Hraise)]];
      rewrite E; cbn [and_then].
    + left. eauto.
    + right; right; right. exists template_id, fields_data, p, t.
      split; [exact Hm|]. split; [exact Eb|]. split; [exact Ei|].
      split; [exact Hin|]. split; [exact Hall|].
      destruct (insert_filled_document (t_id t) (json_dumps fields_data)
                  (str "generated") clock db).
      reflexivity.
    + right; right; left. exists (TypeError fields_data).
      split; [|reflexivity].
      eapply raised_validation; eassumption.
Qed.

Lemma generate_document_route_raises clock data db e :
  Raised db data e ->
  generate_document_route clock data db = (Error 500 (creation_error e), db).
Proof.
  intros H. unfold generate_document_route.
  destruct H as [Ht Hs|H1 H2|template_id fields_data e (items & -> & E1 & E2) Hb
                |template_id fields_data p t req rest (items & -> & E1 & E2)
                   Hb Hi Hin Hreq Hraise].
  - rewrite Ht. cbn [negb]. now rewrite (scalar_contains _ _ Hs).
  - rewrite (holds_truthy _ _ key_template_id_nonempty H1). cbn [negb].
    rewrite (contains_holds _ _ H1). cbn [and_then negb].
    rewrite (contains_holds _ _ H2). cbn [and_then negb].
    now rewrite (holds_subscript _ _ H1).
  - rewrite (dict_get_nonempty _ _ _ E1). cbn [negb contains subscript].
    rewrite E1, E2. cbn [and_then negb]. now rewrite Hb.
  - rewrite (dict_get_nonempty _ _ _ E1). cbn [negb contains subscript].
    rewrite E1, E2. cbn [and_then negb]. rewrite Hb. cbn [and_then].
    rewrite Hi. destruct (find_template_exists db t Hin) as [t' ->].
    rewrite Hreq. now rewrite (first_unfilled_raises _ _ _ Hraise).
Qed.

Lemma generate_document_route_no_template clock data db :
  no_template db data ->
  generate_document_route clock data db = (Error 404 not_found, db).
Proof.
  intros (template_id & fields_data & p & (items & -> & E1 & E2) & Hb & Hnone).
  unfold generate_document_route.
  rewrite (dict_get_nonempty _ _ _ E1). cbn [negb contains subscript].
  rewrite E1, E2. cbn [and_then negb]. rewrite Hb. cbn [and_then].
  destruct (as_integer p) as [id|] eqn:Ei; [|reflexivity].
  destruct (find_template db id) as [t|] eqn:Ef; [|reflexivity].
  exfalso. apply (Hnone t (find_template_In _ _ _ Ef)).
  now rewrite (find_template_id _ _ _ Ef).
Qed.

(** What a generation leaves behind: the database as it was, or one more
    filled document of one of its templates. *)
Lemma generate_document_route_db clock data db :
  snd (generate_document_route clock data db) = db
  \/ exists t document_data,
       In t (templates db)
       /\ snd (generate_document_route clock data db)
          = fst (insert_filled_document (t_id t) document_data
                   (str "generated") clock db).
Proof.
  destruct (generate_document_route_cases clock data db)
    as [(m & E)|[(_ & E)|[(e & _ & E)
       |(template_id & fields_data & p & t & _ & _ & _ & Hin & _ & E)]]];
    rewrite E; cbn [snd]; [now left..|].
  right. now exists t, (json_dumps fields_data).
Qed.

(** The body of the handler is the handler on the bodies it is defined
    on. *)
Lemma generate_document_route_body clock data db :
  (forall n, rq_template_id data = Some n -> - 2 ^ 63 <= n < 2 ^ 63) ->
  generate_document_route clock (body_of data) db
  = generate_document clock data db.
Proof.
  intros Hrange. destruct data as [[template_id|] [fields_data|]];
    unfold body_of; cbn [rq_template_id rq_fields app].
  - apply generate_document_route_typed;
      [vm_compute; reflexivity|vm_compute; reflexivity|].
    now apply Hrange.
  - vm_compute. reflexivity.
  - vm_compute. reflexivity.
  - vm_compute. reflexivity.
Qed.

(** C3: when the template exists and the submission has a truthy value for
    every required field of the template, exactly one row is added to the
    filled documents, with a fresh id, the status [generated] and the
    serialized submission as its data; nothing else changes, and the
    response carries that id, the name of the template and a timestamp.
    The request is a body with the id of a template row and with an object
    of fields; ids are unique, and an id of a row fits 64 bits. *)
Theorem generate_document_success (clock : Clock) (db : DB)
    (data : list (text * json)) (template_id : Z)
    (fields_data : list (text * json)) (t : Template) :
  dict_get (str "template_id") data = Some (JInt template_id) ->
  dict_get (str "fields") data = Some (JObj fields_data) ->
  In t (templates db) ->
  t_id t = template_id ->
  List.NoDup (List.map t_id (templates db)) ->
  - 2 ^ 63 <= template_id < 2 ^ 63 ->
  (forall f, In f (template_fields db) -> f_template_id f = template_id ->
             Required f ->
             exists v, dict_get (f_field_key f) fields_data = Some v
                       /\ truthy v = true) ->
  exists (document_id : Z) (db' : DB),
    generate_document_route clock (JObj data) db
    = (Ok (mkGenerated document_id (t_name t) (now_isoformat clock)), db')
    /\ filled_documents db'
       = filled_documents db
         ++ [mkFilledDocument document_id template_id None
               (json_dumps (JObj fields_data)) (current_timestamp clock)
               (str "generated")]
    /\ (forall d, In d (filled_documents db) -> fd_id d < document_id)
    /\ categories db' = categories db
    /\ templates db' = templates db
    /\ template_fields db' = template_fields db.
Proof.
  intros Hid Hfields Hin Ht Hnd Hrange Hall.
  pose proof (find_template_row db template_id t Hnd Hin Ht) as Hfind.
  rewrite (generate_document_route_typed clock data template_id fields_data db
             Hid Hfields Hrange).
  unfold generate_document. cbn [rq_template_id rq_fields]. rewrite Hfind.
  replace (List.find (unfilled fields_data) (required_fields db template_id))
    with (@None text).
  - unfold insert_filled_document. do 2 eexists.
    split; [reflexivity|]. split; [reflexivity|]. split; [|repeat split].
    intros d Hd. apply next_rowid_fresh. now apply in_map.
  - symmetry. apply find_required_none. intros f Hf Hreq Hmiss.
    apply fields_of_In in Hf. destruct Hf as [Hf Hft].
    destruct (Hall f Hf Hft Hreq) as (v & Hv & Htrue).
    destruct Hmiss as [Hnone|(v' & Hv' & Hfalse)]; congruence.
Qed.

(** ** Document listing *)

Lemma joined_documents_In db fd t :
  In (fd, t) (joined_documents db)
  <-> In fd (filled_documents db) /\ In t (templates db)
      /\ fd_template_id fd = t_id t.
Proof.
  unfold joined_documents. rewrite in_flat_map. split.
  - intros (fd' & Hfd & Hin). apply in_map_iff in Hin.
    destruct Hin as (t' & E & Ht). injection E as -> ->.
    apply filter_In in Ht. destruct Ht as [Ht Heq].
    apply Z.eqb_eq in Heq. auto.
  - intros (Hfd & Ht & Heq). exists fd. split; [exact Hfd|].
    apply in_map. apply filter_In. split; [exact Ht|]. now apply Z.eqb_eq.
Qed.

(** C9: the document listing returns at most 100 rows, the most recent of
    the filled documents joined with their templates, ordered by creation
    time descending; a row has the id, template id, template name, creation
    time and status, and a filled document whose template is gone has no
    row: the inner join leaves it out. *)
Theorem get_documents_spec (db : DB) :
  exists rows rest : list (FilledDocument * Template),
    get_documents db
    = Ok (mkListing (List.map document_info rows) (Z.of_nat (length rows)))
    /\ length rows = Nat.min 100 (length (joined_documents db))
    /\ Permutation (rows ++ rest) (joined_documents db)
    /\ StronglySorted created_at_ge (rows ++ rest)
    /\ (forall fd t,
          In (fd, t) (joined_documents db)
          <-> In fd (filled_documents db) /\ In t (templates db)
              /\ fd_template_id fd = t_id t)
    /\ (forall fd t,
          document_info (fd, t)
          = mkDocumentInfo (fd_id fd) (fd_template_id fd) (t_name t)
              (fd_created_at fd) (fd_status fd))
    /\ (forall fd,
          (forall t, In t (templates db) -> t_id t <> fd_template_id fd) ->
          forall r, In r rows -> fst r <> fd).
Proof.
  set (sorted := order_by by_created_at_desc (joined_documents db)).
  assert (Hperm : Permutation (firstn 100 sorted ++ skipn 100 sorted)
                    (joined_documents db)).
  { rewrite firstn_skipn. apply order_by_perm. }
  exists (firstn 100 sorted), (skipn 100 sorted).
  split; [unfold get_documents, listing, select_documents;
          now rewrite length_map|].
  split; [|split; [exact Hperm|split; [|split; [|split]]]].
  - rewrite length_firstn. f_equal.
    apply Permutation_length. apply order_by_perm.
  - rewrite firstn_skipn. apply order_by_strongly_sorted.
    + intros a b. apply text_leb_total.
    + exact created_at_ge_trans.
  - apply joined_documents_In.
  - reflexivity.
  - intros fd Hgone [fd' t'] Hin Heq. simpl in Heq. subst fd'.
    assert (Hj : In (fd, t') (joined_documents db)).
    { eapply Permutation_in; [exact Hperm|]. apply in_or_app. now left. }
    apply joined_documents_In in Hj. destruct Hj as (_ & Ht & E).
    apply (Hgone t' Ht). congruence.
Qed.

(** ** Seeding *)

Lemma insert_categories_spec cats db ids :
  let r := insert_categories cats db ids in
  List.map cat_name (categories (fst r))
  = List.map cat_name (categories db) ++ List.map fst cats
  /\ templates (fst r) = templates db
  /\ template_fields (fst r) = template_fields db
  /\ filled_documents (fst r) = filled_documents db
  /\ forall name : text,
       is_Some (snd r !! name)
       <-> In name (List.map fst cats) \/ is_Some (ids !! name).
Proof.
  revert db ids. induction cats as [|[name desc] cats IH]; intros db ids.
  - simpl. rewrite app_nil_r. repeat split; tauto.
  - cbn [insert_categories insert_category].
    match goal with |- context [insert_categories cats ?d ?i] =>
      specialize (IH d i) end.
    cbv zeta in IH.
    destruct IH as (Hn & Ht & Hf & Hd & Hids).
    cbv zeta. rewrite Hn, Ht, Hf, Hd. cbn [categories templates template_fields
      filled_documents]. rewrite List.map_app, <- app_assoc.
    do 4 (split; [reflexivity|]). intros key. split.
    + intros H. apply Hids in H. destruct H as [H|H]; [left; now right|].
      apply lookup_insert_is_Some in H.
      destruct H as [<-|[_ H]]; [left; now left|now right].
    + intros H. apply Hids. destruct H as [[<-|H]|H].
      * right. apply lookup_insert_is_Some. now left.
      * now left.
      * right. apply lookup_insert_is_Some.
        destruct (decide (name = key)); [now left|right; now split].
Qed.

Lemma insert_fields_spec fields tid i db :
  let db' := insert_fields tid i fields db in
  categories db' = categories db
  /\ templates db' = templates db
  /\ seq_templates db' = seq_templates db
  /\ filled_documents db' = filled_documents db
  /\ exists new,
       template_fields db' = template_fields db ++ new
       /\ Forall (fun f => f_template_id f = tid) new
       /\ match fields with
          | field :: _ =>
              mem_text (fdef_type field) field_types = true -> new <> []
          | [] => True
          end.
Proof.
  revert i db. induction fields as [|field fields IH]; intros i db; cbv zeta.
  - simpl. do 4 (split; [reflexivity|]). exists [].
    rewrite app_nil_r. repeat split. constructor.
  - cbn [insert_fields]. unfold insert_template_field.
    destruct (mem_text (fdef_type field) field_types).
    + match goal with |- context [insert_fields tid (i + 1) fields ?d] =>
        specialize (IH (i + 1) d) end.
      cbv zeta in IH. destruct IH as (Hc & Ht & Hs & Hd & new & Hf & Hall & _).
      rewrite Hc, Ht, Hs, Hd, Hf. cbn [categories templates seq_templates
        filled_documents template_fields].
      do 4 (split; [reflexivity|]).
      eexists (_ :: new). rewrite <- app_assoc. split; [reflexivity|].
      split; [constructor; [reflexivity|exact Hall]|]. discriminate.
    + do 4 (split; [reflexivity|]). exists [].
      rewrite app_nil_r. repeat split; [constructor|discriminate].
Qed.

(** An entry that can be inserted adds one template row, at least one field
    row of that template, and 1 to the count. *)
Lemma add_template_ok ids names clock db n template :
  (forall name, In name names -> is_Some (ids !! name)) ->
  insertable names template = true ->
  exists db' row new,
    add_template ids clock (db, n) template = (db', n + 1)
    /\ templates db' = templates db ++ [row]
    /\ t_name row = tdef_name template
    /\ template_fields db' = template_fields db ++ new
    /\ Forall (fun f => f_template_id f = t_id row) new
    /\ new <> []
    /\ categories db' = categories db
    /\ filled_documents db' = filled_documents db.
Proof.
  intros Hids Hok. unfold insertable in Hok.
  apply andb_true_iff in Hok. destruct Hok as [Hok Hfield].
  apply andb_true_iff in Hok. destruct Hok as [Hcat Htype].
  apply mem_text_In in Hcat. destruct (Hids _ Hcat) as [cid Hcid].
  unfold add_template. rewrite Hcid. unfold insert_template. rewrite Htype.
  match goal with |- context [insert_fields ?tid 0 ?fs ?d] =>
    pose proof (insert_fields_spec fs tid 0 d) as Hspec end.
  cbv zeta in Hspec.
  destruct Hspec as (Hc & Ht & _ & Hd & new & Hf & Hall & Hne).
  eexists _, _, new. split; [reflexivity|].
  rewrite Ht, Hf, Hc, Hd. cbn [templates template_fields categories
    filled_documents]. split; [reflexivity|]. split; [reflexivity|].
  split; [reflexivity|]. split; [exact Hall|]. split; [|split; reflexivity].
  destruct (tdef_fields template) as [|field fields]; [discriminate|].
  now apply Hne.
Qed.

(** An entry whose insert raises is skipped: the database and the count
    stay as they were. *)
Lemma add_template_rejected ids names clock st template :
  (forall name, is_Some (ids !! name) -> In name names) ->
  rejected names template ->
  add_template ids clock st template = st.
Proof.
  intros Hids Hrej. destruct st as [db n]. unfold add_template.
  destruct (ids !! tdef_category template) as [cid|] eqn:E; [|reflexivity].
  destruct Hrej as [Hcat|Htype].
  - exfalso. apply Hcat, Hids. now exists cid.
  - unfold insert_template.
    destruct (mem_text (tdef_type template) doc_types) eqn:M; [|reflexivity].
    apply mem_text_In in M. contradiction.
Qed.

(** Whatever the entry, the count goes up by the number of template rows
    added. *)
Lemma add_template_count ids clock db n template :
  let st' := add_template ids clock (db, n) template in
  snd st' - n
  = Z.of_nat (length (templates (fst st'))) - Z.of_nat (length (templates db)).
Proof.
  cbv zeta. unfold add_template.
  destruct (ids !! tdef_category template) as [cid|]; [|simpl; lia].
  unfold insert_template.
  destruct (mem_text (tdef_type template) doc_types); [|simpl; lia].
  match goal with |- context [insert_fields ?tid 0 ?fs ?d] =>
    pose proof (insert_fields_spec fs tid 0 d) as Hspec end.
  cbv zeta in Hspec. destruct Hspec as (_ & Ht & _).
  cbn [fst snd]. rewrite Ht. cbn [templates]. rewrite length_app. simpl. lia.
Qed.

Lemma fold_add_count ids clock tdata st :
  let st' := fold_left (add_template ids clock) tdata st in
  snd st' - snd st
  = Z.of_nat (length (templates (fst st')))
    - Z.of_nat (length (templates (fst st))).
Proof.
  revert st. induction tdata as [|template tdata IH]; intros [db n]; cbv zeta.
  - simpl. lia.
  - cbn [fold_left]. specialize (IH (add_template ids clock (db, n) template)).
    cbv zeta in IH. pose proof (add_template_count ids clock db n template) as H.
    cbv zeta in H. cbn [fst snd]. lia.
Qed.

Lemma fold_add_rejected ids names clock before template after st :
  (forall name, is_Some (ids !! name) -> In name names) ->
  rejected names template ->
  fold_left (add_template ids clock) (before ++ template :: after) st
  = fold_left (add_template ids clock) (before ++ after) st.
Proof.
  intros Hids Hrej. rewrite !fold_left_app. cbn [fold_left].
  now rewrite (add_template_rejected ids names clock _ template Hids Hrej).
Qed.

Lemma fold_add_all ids names clock tdata db n :
  (forall name, In name names -> is_Some (ids !! name)) ->
  forallb (insertable names) tdata = true ->
  covered db ->
  exists db',
    fold_left (add_template ids clock) tdata (db, n)
    = (db', n + Z.of_nat (length tdata))
    /\ List.map t_name (templates db')
       = List.map t_name (templates db) ++ List.map tdef_name tdata
    /\ covered db'
    /\ categories db' = categories db
    /\ filled_documents db' = filled_documents db.
Proof.
  intros Hids. revert db n.
  induction tdata as [|template tdata IH]; intros db n Hok Hcov.
  - exists db. simpl. rewrite Z.add_0_r, app_nil_r. repeat split. exact Hcov.
  - cbn [forallb] in Hok. apply andb_true_iff in Hok. destruct Hok as [Hok Hrest].
    destruct (add_template_ok ids names clock db n template Hids Hok)
      as (db1 & row & new & Hadd & Ht & Hname & Hf & Hall & Hne & Hc & Hd).
    assert (Hcov1 : covered db1).
    { intros t Hin. rewrite Ht in Hin. apply in_app_or in Hin.
      destruct Hin as [Hin|[<-|[]]].
      - destruct (Hcov t Hin) as (f & Hf' & E). exists f.
        split; [|exact E]. rewrite Hf. apply in_or_app. now left.
      - destruct new as [|f new]; [congruence|]. exists f. split.
        + rewrite Hf. apply in_or_app. right. now left.
        + now inversion Hall. }
    destruct (IH db1 (n + 1) Hrest Hcov1) as (db' & Hfold & Hnames & Hcov' & Hc' & Hd').
    exists db'. cbn [fold_left]. rewrite Hadd, Hfold.
    split; [f_equal; cbn [length]; lia|].
    rewrite Hnames, Ht, List.map_app, <- app_assoc. cbn [List.map app].
    rewrite Hname. repeat split; try assumption; congruence.
Qed.

Lemma seed_with_unfold cats tdata clock db :
  seed_with cats tdata clock db
  = let emptied :=
      delete_categories (delete_templates (delete_template_fields db)) in
    let r := insert_categories cats emptied ∅ in
    let st := fold_left (add_template (snd r) clock) tdata (fst r, 0) in
    (Ok (mkSeeded (snd st)
           (List.map tdef_name (firstn (Z.to_nat (snd st)) tdata))),
     fst st).
Proof.
  unfold seed_with. cbv zeta.
  destruct (insert_categories cats _ ∅) as [db1 ids]. cbn [fst snd].
  destruct (fold_left (add_template ids clock) tdata (db1, 0)) as [db2 n].
  reflexivity.
Qed.

Lemma delete_twice db :
  delete_categories (delete_templates (delete_template_fields
    (delete_categories (delete_templates (delete_template_fields db)))))
  = delete_categories (delete_templates (delete_template_fields db)).
Proof. reflexivity. Qed.

(** The seed starts from the emptied tables: the rows that the catalog
    held before have no part in its outcome. *)
Lemma seed_with_emptied cats tdata clock db :
  seed_with cats tdata clock db
  = seed_with cats tdata clock
      (delete_categories (delete_templates (delete_template_fields db))).
Proof. rewrite !seed_with_unfold. cbv zeta. now rewrite delete_twice. Qed.

Lemma seed_with_all cats tdata clock db :
  forallb (insertable (List.map fst cats)) tdata = true ->
  exists s db',
    seed_with cats tdata clock db = (Ok s, db')
    /\ templates_added s = Z.of_nat (length tdata)
    /\ templates_list s = List.map tdef_name tdata
    /\ List.map cat_name (categories db') = List.map fst cats
    /\ List.map t_name (templates db') = List.map tdef_name tdata
    /\ covered db'
    /\ filled_documents db' = filled_documents db.
Proof.
  intros Hok. rewrite seed_with_unfold. cbv zeta.
  set (emptied := delete_categories (delete_templates (delete_template_fields db))).
  pose proof (insert_categories_spec cats emptied ∅) as Hcats. cbv zeta in Hcats.
  destruct (insert_categories cats emptied ∅) as [db1 ids]. cbn [fst snd] in *.
  destruct Hcats as (Hn & Ht & Hf & Hd & Hids).
  assert (Hcov : covered db1).
  { intros t Hin. rewrite Ht in Hin. destruct Hin. }
  destruct (fold_add_all ids (List.map fst cats) clock tdata db1 0)
    as (db2 & Hfold & Hnames & Hcov2 & Hc2 & Hd2); [|exact Hok|exact Hcov|].
  { intros name Hin. apply Hids. now left. }
  rewrite Hfold. cbn [fst snd]. do 2 eexists. split; [reflexivity|].
  cbn [templates_added templates_list].
  split; [lia|]. split.
  { rewrite Z.add_0_l, Nat2Z.id, firstn_all. reflexivity. }
  split; [now rewrite Hc2, Hn|]. split; [now rewrite Hnames, Ht|].
  split; [exact Hcov2|]. now rewrite Hd2, Hd.
Qed.

Lemma seed_with_names cats db :
  forall name,
    is_Some (snd (insert_categories cats db ∅) !! name)
    -> In name (List.map fst cats).
Proof.
  intros name H. pose proof (insert_categories_spec cats db ∅) as Hspec.
  cbv zeta in Hspec. destruct Hspec as (_ & _ & _ & _ & Hids).
  apply Hids in H. destruct H as [H|H]; [exact H|].
  rewrite lookup_empty in H. now destruct H.
Qed.

Lemma catalog_seeded_of db :
  List.map cat_name (categories db) = List.map fst seed_categories ->
  List.map t_name (templates db) = List.map tdef_name templates_data ->
  covered db ->
  catalog_seeded db.
Proof.
  intros Hc Ht Hcov. unfold catalog_seeded.
  apply (f_equal (@length text)) in Hc, Ht. rewrite !length_map in Hc, Ht.
  repeat split; [exact Hc|exact Ht|exact Hcov].
Qed.

Lemma templates_data_insertable :
  forallb (insertable (List.map fst seed_categories)) templates_data = true.
Proof. vm_compute. reflexivity. Qed.

(** C6: the seed deletes the rows of the fields, of the templates and of
    the categories, in this order, and then, from any prior state, leaves
    exactly the 8 categories and the 10 templates of the fixed catalog, each
    template with at least one field row, and the filled documents as they
    were; seeding again leaves 8 categories and 10 templates again.  The
    response reports the number of template rows inserted, and an entry
    whose insert fails is skipped: the outcome is that of the catalog
    without the entry. *)
Theorem seed_database_spec (clock : Clock) (db : DB) :
  (categories (delete_categories (delete_templates (delete_template_fields db))) = []
   /\ templates (delete_categories (delete_templates (delete_template_fields db))) = []
   /\ template_fields (delete_categories (delete_templates (delete_template_fields db))) = []
   /\ seed_database clock db
      = seed_database clock
          (delete_categories (delete_templates (delete_template_fields db))))
  /\ (exists (s : Seeded) (db' : DB),
        seed_database clock db = (Ok s, db')
        /\ catalog_seeded db'
        /\ templates_added s = 10
        /\ List.map cat_name (categories db') = List.map fst seed_categories
        /\ List.map t_name (templates db') = List.map tdef_name templates_data
        /\ filled_documents db' = filled_documents db)
  /\ (forall clock' : Clock,
        catalog_seeded
          (snd (seed_database clock' (snd (seed_database clock db)))))
  /\ (forall cats tdata,
        exists s : Seeded,
          fst (seed_with cats tdata clock db) = Ok s
          /\ templates_added s
             = Z.of_nat
                 (length (templates (snd (seed_with cats tdata clock db)))))
  /\ (forall cats before template after,
        rejected (List.map fst cats) template ->
        snd (seed_with cats (before ++ template :: after) clock db)
        = snd (seed_with cats (before ++ after) clock db)
        /\ exists s s' : Seeded,
             fst (seed_with cats (before ++ template :: after) clock db) = Ok s
             /\ fst (seed_with cats (before ++ after) clock db) = Ok s'
             /\ templates_added s = templates_added s').
Proof.
  assert (Hseeded : forall c d, exists s db',
            seed_database c d = (Ok s, db')
            /\ catalog_seeded db'
            /\ templates_added s = 10
            /\ List.map cat_name (categories db') = List.map fst seed_categories
            /\ List.map t_name (templates db') = List.map tdef_name templates_data
            /\ filled_documents db' = filled_documents d).
  { intros c d.
    destruct (seed_with_all seed_categories templates_data c d
                templates_data_insertable)
      as (s & db' & Hseed & Hadded & _ & Hc & Ht & Hcov & Hd).
    exists s, db'. split; [exact Hseed|].
    split; [now apply catalog_seeded_of|]. split; [exact Hadded|]. auto. }
  split; [|split; [|split; [|split]]].
  - do 3 (split; [reflexivity|]). apply seed_with_emptied.
  - apply Hseeded.
  - intros clock'.
    destruct (Hseeded clock' (snd (seed_database clock db)))
      as (s & db' & Hseed & Hcat & _).
    now rewrite Hseed.
  - intros cats tdata. rewrite seed_with_unfold. cbv zeta. cbn [fst snd].
    eexists. split; [reflexivity|]. cbn [templates_added].
    match goal with |- context [fold_left (add_template ?ids clock) tdata ?st] =>
      pose proof (fold_add_count ids clock tdata st) as Hcount end.
    cbv zeta in Hcount. cbn [fst snd] in Hcount.
    pose proof (insert_categories_spec cats
      (delete_categories (delete_templates (delete_template_fields db))) ∅)
      as Hcats.
    cbv zeta in Hcats. destruct Hcats as (_ & Ht & _).
    rewrite Ht in Hcount. cbn [templates delete_categories delete_templates
      length] in Hcount. lia.
  - intros cats before template after Hrej.
    rewrite !seed_with_unfold. cbv zeta. cbn [fst snd].
    rewrite (fold_add_rejected _ (List.map fst cats) clock before template
               after _ (seed_with_names cats _) Hrej).
    split; [reflexivity|]. do 2 eexists. repeat split.
Qed.

(** ** The stored order of the fields *)

Lemma Sorted_snoc {A} (R : A -> A -> Prop) l y :
  Sorted R l -> (forall x, In x l -> R x y) -> Sorted R (l ++ [y]).
Proof.
  induction 1 as [|x l Hs IH Hhd]; intros Hy; simpl.
  - repeat constructor.
  - constructor.
    + apply IH. intros z Hz. apply Hy. now right.
    + destruct Hhd as [|z l Hxz]; simpl; constructor; [|exact Hxz].
      apply Hy. now left.
Qed.

Lemma insert_template_field_spec tid field i db db' :
  insert_template_field tid field i db = Some db' ->
  templates db' = templates db
  /\ exists row,
       template_fields db' = template_fields db ++ [row]
       /\ f_template_id row = tid
       /\ f_order_index row = i
       /\ forall f, In f (template_fields db) -> f_id f < f_id row.
Proof.
  unfold insert_template_field.
  destruct (mem_text (fdef_type field) field_types); [|discriminate].
  intros H. injection H as <-. split; [reflexivity|].
  eexists. split; [reflexivity|]. repeat split.
  intros f Hf. cbn [f_id]. apply next_rowid_fresh. now apply in_map.
Qed.

Lemma fields_of_snoc db db' row tid :
  template_fields db' = template_fields db ++ [row] ->
  fields_of db' tid
  = fields_of db tid ++ (if f_template_id row =? tid then [row] else []).
Proof. intros H. unfold fields_of. rewrite H, List.filter_app. reflexivity. Qed.

Lemma insert_fields_in_order fields tid i db :
  (forall tid', Sorted order_index_id_le (fields_of db tid')) ->
  (forall f, In f (template_fields db) -> f_template_id f = tid ->
             f_order_index f < i) ->
  forall tid',
    Sorted order_index_id_le (fields_of (insert_fields tid i fields db) tid').
Proof.
  revert i db. induction fields as [|field fields IH]; intros i db Hs Hlt;
    [exact Hs|].
  cbn [insert_fields].
  destruct (insert_template_field tid field i db) as [db'|] eqn:E; [|exact Hs].
  destruct (insert_template_field_spec _ _ _ _ _ E)
    as (_ & row & Hf & Htid & Hidx & Hfresh).
  apply IH.
  - intros tid'. rewrite (fields_of_snoc db db' row tid' Hf).
    destruct (Z.eqb_spec (f_template_id row) tid') as [E'|E'];
      [|rewrite app_nil_r; apply Hs].
    apply Sorted_snoc; [apply Hs|].
    intros f Hin. apply fields_of_In in Hin. destruct Hin as [Hin Hft].
    left. rewrite Hidx. apply Hlt; [exact Hin|congruence].
  - intros f Hin Hft. rewrite Hf in Hin. apply in_app_or in Hin.
    destruct Hin as [Hin|[<-|[]]]; [|lia].
    specialize (Hlt f Hin Hft). lia.
Qed.

Lemma add_template_in_order ids clock db n template :
  fields_in_order db ->
  fields_in_order (fst (add_template ids clock (db, n) template)).
Proof.
  intros [Hs Href]. unfold add_template.
  destruct (ids !! tdef_category template) as [cid|]; [|now split].
  unfold insert_template.
  destruct (mem_text (tdef_type template) doc_types); [|now split].
  cbn [fst].
  set (tid := next_rowid (seq_templates db) (List.map t_id (templates db))).
  match goal with |- fields_in_order (insert_fields tid 0 ?fs ?d) =>
    set (db1 := d);
    pose proof (insert_fields_spec fs tid 0 db1) as Hspec end.
  cbv zeta in Hspec. destruct Hspec as (_ & Ht & _ & _ & new & Hf & Hall & _).
  split.
  - apply insert_fields_in_order; [exact Hs|].
    intros f Hin Hft. exfalso.
    destruct (Href f Hin) as (t & Htin & Hid).
    assert (t_id t < tid) by (apply next_rowid_fresh; now apply in_map).
    lia.
  - intros f Hin. rewrite Hf in Hin. rewrite Ht. cbn [templates db1].
    apply in_app_or in Hin. destruct Hin as [Hin|Hin].
    + destruct (Href f Hin) as (t & Htin & Hid).
      exists t. split; [apply in_or_app; now left|exact Hid].
    + eexists. split; [apply in_or_app; right; now left|].
      cbn [t_id]. symmetry.
      rewrite List.Forall_forall in Hall. now apply Hall.
Qed.

Lemma fold_add_in_order ids clock tdata st :
  fields_in_order (fst st) ->
  fields_in_order (fst (fold_left (add_template ids clock) tdata st)).
Proof.
  revert st. induction tdata as [|template tdata IH]; intros [db n] H;
    [exact H|].
  cbn [fold_left]. apply IH.
  destruct (add_template ids clock (db, n) template) as [db' n'] eqn:E.
  pose proof (add_template_in_order ids clock db n template H) as H'.
  now rewrite E in H'.
Qed.

(** Whatever the catalog, and whatever the state before, the seed stores
    the fields of every template in the order of the template's fields. *)
Lemma seed_with_in_order cats tdata clock db :
  fields_in_order (snd (seed_with cats tdata clock db)).
Proof.
  rewrite seed_with_unfold. cbv zeta. cbn [snd].
  apply fold_add_in_order. cbn [fst].
  pose proof (insert_categories_spec cats
    (delete_categories (delete_templates (delete_template_fields db))) ∅)
    as Hcats.
  cbv zeta in Hcats. destruct Hcats as (_ & Ht & Hf & _).
  split.
  - intros tid. unfold fields_of. rewrite Hf. constructor.
  - intros f Hin. rewrite Hf in Hin. destruct Hin.
Qed.

(** Every state of the service stores the fields in that order: the seed
    is the only request that writes field or template rows. *)
Lemma reachable_fields_in_order db : reachable db -> fields_in_order db.
Proof.
  induction 1 as [|db db' Hreach IH Hstep].
  - split; [intros tid; constructor|intros f []].
  - destruct Hstep as [tid|clock data|clock data|clock].
    + unfold get_template_detail.
      destruct (find_template db tid) as [t|]; [|exact IH].
      cbn [snd]. destruct IH as [Hs Href]. split; [exact Hs|].
      intros f Hin. destruct (Href f Hin) as (t' & Hin' & Hid).
      exists (bump tid t'). split.
      * cbn [templates update_popularity]. now apply in_map.
      * rewrite <- Hid. unfold bump. now destruct (t_id t' =? tid).
    + unfold generate_document.
      destruct (rq_template_id data) as [tid|]; [|exact IH].
      destruct (rq_fields data) as [fields_data|]; [|exact IH].
      destruct (find_template db tid) as [t|]; [|exact IH].
      destruct (List.find _ _); exact IH.
    + destruct (generate_document_route_db clock data db)
        as [->|(t & document_data & _ & ->)]; exact IH.
    + apply seed_with_in_order.
Qed.


(* ===================================================================== *)
(** * Further properties of the handlers *)
(* ===================================================================== *)

(** ** Statistics *)

Lemma by_popularity_desc_total a b :
  by_popularity_desc a b = true \/ by_popularity_desc b a = true.
Proof. unfold by_popularity_desc. rewrite !Z.leb_le. lia. Qed.

Lemma by_popularity_desc_trans : Transitive (le_of by_popularity_desc).
Proof.
  intros a b c. unfold le_of, by_popularity_desc. rewrite !Z.leb_le. lia.
Qed.

(** X1: the statistics report the number of template rows and the number of
    filled document rows, the five most popular templates in descending
    order of popularity (no template that is left out is more popular than
    one that is listed), and the five most recent of the filled documents
    joined with their templates. *)
Theorem get_statistics_spec (db : DB) :
  exists (popular rest : list Template)
         (recent rest' : list (FilledDocument * Template)),
    get_statistics db
    = Ok (mkStatistics (Z.of_nat (length (templates db)))
            (Z.of_nat (length (filled_documents db)))
            (List.map popular_template popular)
            (List.map recent_document recent))
    /\ length popular = Nat.min 5 (length (templates db))
    /\ Permutation (popular ++ rest) (templates db)
    /\ StronglySorted popularity_ge (popular ++ rest)
    /\ length recent = Nat.min 5 (length (joined_documents db))
    /\ Permutation (recent ++ rest') (joined_documents db)
    /\ StronglySorted created_at_ge (recent ++ rest').
Proof.
  set (ts := order_by by_popularity_desc (templates db)).
  set (ds := order_by by_created_at_desc (joined_documents db)).
  exists (firstn 5 ts), (skipn 5 ts), (firstn 5 ds), (skipn 5 ds).
  split; [reflexivity|].
  rewrite !firstn_skipn, !length_firstn.
  split; [f_equal; apply Permutation_length, order_by_perm|].
  split; [apply order_by_perm|].
  split.
  { eapply StronglySorted_impl;
      [|apply order_by_strongly_sorted;
        [apply by_popularity_desc_total|apply by_popularity_desc_trans]].
    intros a b H. unfold le_of, by_popularity_desc in H.
    now apply Z.leb_le in H. }
  split; [f_equal; apply Permutation_length, order_by_perm|].
  split; [apply order_by_perm|].
  apply order_by_strongly_sorted;
    [intros a b; apply text_leb_total|exact created_at_ge_trans].
Qed.

Lemma filter_id_le_1 (x : Z) ts :
  List.NoDup (List.map t_id ts) ->
  (length (List.filter (fun t => (x =? t_id t)%Z) ts) <= 1)%nat.
Proof.
  induction ts as [|t ts IH]; simpl; [lia|].
  intros Hnd. inversion Hnd as [|? ? Hnotin Hnd']; subst.
  destruct (Z.eqb_spec x (t_id t)) as [E|E]; [|now apply IH].
  simpl. rewrite filter_none; [simpl; lia|].
  intros t' Hin. apply Z.eqb_neq. intros E'.
  apply Hnotin. rewrite <- E, E'. now apply in_map.
Qed.

Lemma filter_id_length (x : Z) ts :
  List.NoDup (List.map t_id ts) ->
  length (List.filter (fun t => (x =? t_id t)%Z) ts)
  = if existsb (fun t => (x =? t_id t)%Z) ts then 1%nat else 0%nat.
Proof.
  induction ts as [|t ts IH]; [reflexivity|].
  intros Hnd. inversion Hnd as [|? ? Hnotin Hnd']; subst.
  cbn [List.filter existsb].
  destruct (Z.eqb_spec x (t_id t)) as [E|E]; [|now apply IH].
  cbn [orb length]. rewrite filter_none; [reflexivity|].
  intros t' Hin. apply Z.eqb_neq. intros E'.
  apply Hnotin. rewrite <- E, E'. now apply in_map.
Qed.

Lemma joined_documents_length db :
  List.NoDup (List.map t_id (templates db)) ->
  length (joined_documents db)
  = length (List.filter (has_template db) (filled_documents db)).
Proof.
  intros Hnd. unfold joined_documents, has_template.
  induction (filled_documents db) as [|fd fds IH]; [reflexivity|].
  cbn [flat_map List.filter]. rewrite length_app, length_map, IH.
  rewrite (filter_id_length (fd_template_id fd) (templates db) Hnd).
  now destruct (existsb _ (templates db)).
Qed.

(** X2: where no two templates share an id, the statistics count every filled
    document, the documents listing has a row for each filled document
    whose template exists, up to 100, and the statistics show up to five of
    them as recent: the total counts the documents whose template is gone,
    the listing and the recent documents leave them out. *)
Theorem get_statistics_documents (db : DB) :
  List.NoDup (List.map t_id (templates db)) ->
  exists (st : Statistics) (docs : Listing DocumentInfo),
    get_statistics db = Ok st
    /\ get_documents db = Ok docs
    /\ total_documents st = Z.of_nat (length (filled_documents db))
    /\ count docs
       = Z.min 100
           (Z.of_nat
              (length (List.filter (has_template db) (filled_documents db))))
    /\ Z.of_nat (length (recent_documents st)) = Z.min 5 (count docs).
Proof.
  intros Hnd. do 2 eexists. split; [reflexivity|]. split; [reflexivity|].
  cbn [recent_documents items count total_documents listing].
  split; [reflexivity|].
  rewrite !length_map. unfold select_documents, select_recent.
  rewrite !length_firstn.
  rewrite (Permutation_length (order_by_perm by_created_at_desc _)).
  rewrite (joined_documents_length db Hnd). lia.
Qed.

(** ** Outcomes of a document generation *)

(** X3: whatever the body of the request, a generation leaves the
    categories, templates and fields as they were.  It answers 200 after
    adding exactly one filled document of an existing template, whose id
    is what was bound for [template_id] and whose required fields all have
    a truthy value in the object [fields]; or it answers 400, 404 or 500 and
    leaves the database as it was.  404 is the answer exactly when the body
    is an object with both members whose [template_id] can be bound and is
    the id of no template, whatever the fields hold; 500 is the answer
    exactly when something raises, and the message then carries the text
    of the exception. *)
Theorem generate_document_outcomes (clock : Clock) (data : json) (db : DB) :
  categories (snd (generate_document_route clock data db)) = categories db
  /\ templates (snd (generate_document_route clock data db)) = templates db
  /\ template_fields (snd (generate_document_route clock data db))
     = template_fields db
  /\ match fst (generate_document_route clock data db) with
     | Ok g =>
         exists template_id fields_data p t,
           members data template_id fields_data
           /\ bind_parameter template_id = Returns p
           /\ as_integer p = Some (t_id t)
           /\ In t (templates db)
           /\ (required_fields db (t_id t) = []
               \/ exists fields,
                    fields_data = JObj fields
                    /\ forall req, In req (required_fields db (t_id t)) ->
                         exists v, dict_get req fields = Some v
                                   /\ truthy v = true)
           /\ g_template_name g = t_name t
           /\ filled_documents (snd (generate_document_route clock data db))
              = filled_documents db
                ++ [mkFilledDocument (g_document_id g) (t_id t) None
                      (json_dumps fields_data)
                      (current_timestamp clock) (str "generated")]
     | Error status message =>
         (status = 400 \/ status = 404 \/ status = 500)
         /\ snd (generate_document_route clock data db) = db
         /\ (status = 404 <-> no_template db data)
         /\ (status = 500
             <-> exists e,
                   Raised db data e
                   /\ message
                      = str "Ошибка при создании документа: "
                        ++ exception_str e)
     end.
Proof.
  destruct (generate_document_route_cases clock data db)
    as [(m & E)|[(Hnone & E)|[(e & Hraised & E)
       |(template_id & fields_data & p & t & Hm & Hb & Hi & Hin & Hall & E)]]].
  - rewrite E. cbn [fst snd]. do 3 (split; [reflexivity|]).
    split; [now left|]. split; [reflexivity|]. split.
    + split; [discriminate|]. intros H.
      rewrite (generate_document_route_no_template clock data db H) in E.
      discriminate.
    + split; [discriminate|]. intros (e & H & _).
      rewrite (generate_document_route_raises clock data db e H) in E.
      discriminate.
  - rewrite E. cbn [fst snd]. do 3 (split; [reflexivity|]).
    split; [now right; left|]. split; [reflexivity|]. split.
    + split; [intros _; exact Hnone|reflexivity].
    + split; [discriminate|]. intros (e & H & _).
      rewrite (generate_document_route_raises clock data db e H) in E.
      discriminate.
  - rewrite E. cbn [fst snd]. do 3 (split; [reflexivity|]).
    split; [now right; right|]. split; [reflexivity|]. split.
    + split; [discriminate|]. intros H.
      rewrite (generate_document_route_no_template clock data db H) in E.
      discriminate.
    + split; [|reflexivity]. intros _. exists e. now split.
  - rewrite E. unfold insert_filled_document.
    cbn [fst snd categories templates template_fields filled_documents
         g_document_id g_template_name].
    do 3 (split; [reflexivity|]).
    exists template_id, fields_data, p, t.
    split; [exact Hm|]. split; [exact Hb|]. split; [exact Hi|].
    split; [exact Hin|]. split; [exact Hall|]. split; reflexivity.
Qed.

(** X4: the outcome of a generation depends on the submission only through the
    set of required keys that have a truthy value: the values are never
    compared with the type, the bounds, the format or the options of the
    field.  Two submissions that fill the same required fields are both
    accepted, or both refused with the same status and message. *)
Theorem generate_document_checks_presence_only (clock : Clock) (db : DB)
    (template_id : Z) (fields1 fields2 : list (text * json)) :
  (forall f, In f (fields_of db template_id) -> Required f ->
             (Missing fields1 (f_field_key f)
              <-> Missing fields2 (f_field_key f))) ->
  forall (status : Z) (message : text),
    fst (generate_document clock
           (mkGenerateRequest (Some template_id) (Some fields1)) db)
    = Error status message
    <-> fst (generate_document clock
               (mkGenerateRequest (Some template_id) (Some fields2)) db)
        = Error status message.
Proof.
  intros Hsame status message.
  assert (Hfind : List.find (unfilled fields1) (required_fields db template_id)
                  = List.find (unfilled fields2) (required_fields db template_id)).
  { unfold required_fields.
    assert (Hall : forall f, In f (fields_of db template_id) ->
              negb (f_is_required f =? 0) = true ->
              unfilled fields1 (f_field_key f) = unfilled fields2 (f_field_key f)).
    { intros f Hin Hreq. apply negb_true_iff, Z.eqb_neq in Hreq.
      specialize (Hsame f Hin Hreq). rewrite <- !unfilled_Missing in Hsame.
      destruct (unfilled fields1 _), (unfilled fields2 _); try reflexivity;
        destruct Hsame as [H1 H2]; [now rewrite H1|now rewrite H2]. }
    clear Hsame. revert Hall.
    generalize (fields_of db template_id) as l.
    induction l as [|f l IH]; intros Hall; [reflexivity|].
    cbn [List.filter].
    destruct (negb (f_is_required f =? 0)) eqn:Hreq.
    - cbn [List.map List.find].
      rewrite (Hall f (or_introl eq_refl) Hreq).
      destruct (unfilled fields2 (f_field_key f)); [reflexivity|].
      apply IH. intros g Hg. apply Hall. now right.
    - apply IH. intros g Hg. apply Hall. now right. }
  unfold generate_document. cbn [rq_template_id rq_fields].
  destruct (find_template db template_id) as [t|]; [|reflexivity].
  rewrite Hfind.
  destruct (List.find (unfilled fields2) (required_fields db template_id));
    [reflexivity|].
  unfold insert_filled_document. cbn [fst]. split; discriminate.
Qed.

(** ** The fields endpoint and the generation *)

(** X5: a submission is accepted for a template exactly when it has a truthy
    value for every field that the fields endpoint reports as required. *)
Theorem generate_document_accepts_reported_fields (clock : Clock) (db : DB)
    (template_id : Z) (fields_data : list (text * json)) (r : FieldsResponse) :
  get_template_fields template_id db = Ok r ->
  (forall fd, In fd (fr_fields r) -> fdat_required fd = true ->
              exists v, dict_get (fdat_key fd) fields_data = Some v
                        /\ truthy v = true)
  <-> exists g db',
        generate_document clock
          (mkGenerateRequest (Some template_id) (Some fields_data)) db
        = (Ok g, db').
Proof.
  unfold get_template_fields, generate_document.
  cbn [rq_template_id rq_fields].
  destruct (find_template db template_id) as [t|]; [|discriminate].
  intros Hr. injection Hr as <-. cbn [fr_fields].
  assert (Hin : forall f, In f (order_by by_order_index_id
                                   (fields_of db template_id))
                          <-> In f (fields_of db template_id)).
  { intros f. split; apply Permutation_in;
      [|symmetry]; apply order_by_perm. }
  split.
  - intros Hall.
    replace (List.find (unfilled fields_data) (required_fields db template_id))
      with (@None text); [unfold insert_filled_document; eauto|].
    symmetry. apply find_required_none. intros f Hf Hreq Hmiss.
    destruct (Hall (field_data f)) as (v & Hv & Htrue).
    + apply in_map. now apply Hin.
    + cbn. apply negb_true_iff. now apply Z.eqb_neq.
    + cbn in Hv. destruct Hmiss as [Hnone|(v' & Hv' & Hfalse)]; congruence.
  - intros (g & db' & Hgen) fd Hfd Hreq.
    apply in_map_iff in Hfd. destruct Hfd as (f & <- & Hf).
    apply Hin in Hf. cbn in Hreq |- *.
    apply negb_true_iff, Z.eqb_neq in Hreq.
    destruct (List.find (unfilled fields_data) (required_fields db template_id))
      eqn:E; [discriminate|].
    rewrite find_required_none in E. specialize (E f Hf Hreq).
    unfold Missing in E.
    destruct (dict_get (f_field_key f) fields_data) as [v|];
      [|exfalso; apply E; now left].
    exists v. split; [reflexivity|].
    destruct (truthy v) eqn:T; [reflexivity|].
    exfalso. apply E. right. now exists v.
Qed.

(** ** A detail view and the other endpoints *)

Lemma bump_same tid t :
  t_id (bump tid t) = t_id t
  /\ t_name (bump tid t) = t_name t
  /\ t_category_id (bump tid t) = t_category_id t
  /\ t_description (bump tid t) = t_description t
  /\ t_doc_type (bump tid t) = t_doc_type t.
Proof. unfold bump. destruct (t_id t =? tid); repeat split. Qed.

Lemma insert_by_map {A B} (f : A -> B) (leb : A -> A -> bool)
    (leb' : B -> B -> bool) x l :
  (forall a b, leb' (f a) (f b) = leb a b) ->
  insert_by leb' (f x) (List.map f l) = List.map f (insert_by leb x l).
Proof.
  intros H. induction l as [|y l IH]; simpl; [reflexivity|].
  rewrite H. destruct (leb x y); simpl; [reflexivity|]. now rewrite IH.
Qed.

Lemma order_by_map {A B} (f : A -> B) (leb : A -> A -> bool)
    (leb' : B -> B -> bool) l :
  (forall a b, leb' (f a) (f b) = leb a b) ->
  order_by leb' (List.map f l) = List.map f (order_by leb l).
Proof.
  intros H. induction l as [|x l IH]; simpl; [reflexivity|].
  rewrite IH. now apply insert_by_map.
Qed.

Lemma filter_map_same {A} (f : A -> A) (p : A -> bool) l :
  (forall x, p (f x) = p x) ->
  List.filter p (List.map f l) = List.map f (List.filter p l).
Proof.
  intros H. induction l as [|x l IH]; simpl; [reflexivity|].
  rewrite H. destruct (p x); simpl; now rewrite IH.
Qed.

Lemma joined_documents_update tid db :
  joined_documents (update_popularity tid db)
  = List.map (fun r => (fst r, bump tid (snd r))) (joined_documents db).
Proof.
  unfold joined_documents. cbn [filled_documents templates update_popularity].
  induction (filled_documents db) as [|fd fds IH]; simpl; [reflexivity|].
  rewrite List.map_app, IH. f_equal.
  rewrite filter_map_same
    by (intros t; now rewrite (proj1 (bump_same tid t))).
  now rewrite !List.map_map.
Qed.

Lemma required_fields_update tid db x :
  required_fields (update_popularity tid db) x = required_fields db x.
Proof. reflexivity. Qed.

(** X6: a GET of a template's detail changes the answer of no other endpoint
    but the listing of the templates and the statistics: the fields of
    every template, the categories with their counts, the documents listing
    and the response to any generation request are what they were. *)
Theorem get_template_detail_leaves_other_answers (template_id : Z) (db : DB) :
  (forall x, get_template_fields x (snd (get_template_detail template_id db))
             = get_template_fields x db)
  /\ get_categories (snd (get_template_detail template_id db))
     = get_categories db
  /\ get_documents (snd (get_template_detail template_id db))
     = get_documents db
  /\ forall clock data,
       fst (generate_document clock data
              (snd (get_template_detail template_id db)))
       = fst (generate_document clock data db).
Proof.
  unfold get_template_detail.
  destruct (find_template db template_id) as [t0|]; [|now repeat split].
  cbn [snd]. split; [|split; [|split]].
  - intros x. unfold get_template_fields. rewrite find_after_update.
    destruct (find_template db x) as [t|]; [|reflexivity].
    cbn [option_map]. now rewrite (proj1 (proj2 (bump_same template_id t))).
  - unfold get_categories.
    replace (List.map (category_info (update_popularity template_id db))
               (categories (update_popularity template_id db)))
      with (List.map (category_info db) (categories db)); [reflexivity|].
    cbn [categories update_popularity]. apply List.map_ext. intros c.
    unfold category_info, template_count. do 2 f_equal.
    cbn [templates update_popularity].
    rewrite filter_map_same, length_map; [reflexivity|].
    intros t. now rewrite (proj1 (proj2 (proj2 (bump_same template_id t)))).
  - unfold get_documents, select_documents.
    replace (List.map document_info
               (firstn 100 (order_by by_created_at_desc
                  (joined_documents (update_popularity template_id db)))))
      with (List.map document_info
              (firstn 100 (order_by by_created_at_desc (joined_documents db))));
      [reflexivity|].
    rewrite joined_documents_update.
    rewrite (order_by_map _ by_created_at_desc by_created_at_desc)
      by reflexivity.
    rewrite firstn_map, List.map_map. apply List.map_ext.
    intros [fd t]. cbn [document_info fst snd].
    now rewrite (proj1 (proj2 (bump_same template_id t))).
  - intros clock data. unfold generate_document.
    destruct (rq_template_id data) as [tid|]; [|reflexivity].
    destruct (rq_fields data) as [fields_data|]; [|reflexivity].
    rewrite find_after_update.
    destruct (find_template db tid) as [t|]; [|reflexivity].
    cbn [option_map]. rewrite required_fields_update.
    destruct (List.find _ _); [reflexivity|].
    unfold insert_filled_document. cbn [fst filled_documents
      seq_filled_documents update_popularity].
    now rewrite (proj1 (proj2 (bump_same template_id t))).
Qed.

Lemma selected_bump category_id doc_type search tid t :
  selected (where_clauses category_id doc_type search) (bump tid t)
  = selected (where_clauses category_id doc_type search) t.
Proof.
  destruct (bump_same tid t) as (_ & Hn & Hc & Hd & Hty).
  unfold selected, where_clauses. rewrite !forallb_app. f_equal; [|f_equal].
  - destruct category_id as [c|]; [|reflexivity].
    destruct (negb (c =? 0)); [|reflexivity]. cbn [forallb]. now rewrite Hc.
  - destruct doc_type as [d|]; [|reflexivity].
    destruct (nonempty d); [|reflexivity]. cbn [forallb]. now rewrite Hty.
  - destruct (nonempty search); [|reflexivity]. cbn [forallb].
    now rewrite Hn, Hd.
Qed.

(** X7: after a GET of a template's detail every listing request lists the
    templates it listed before: the filters do not look at the popularity,
    only the order of the rows may change. *)
Theorem get_template_detail_keeps_listing (template_id : Z)
    (category_id : option Z) (doc_type : option text) (search : text) (db : DB) :
  exists before after : Listing TemplateSummary,
    get_all_templates category_id doc_type search db = Ok before
    /\ get_all_templates category_id doc_type search
         (snd (get_template_detail template_id db)) = Ok after
    /\ count after = count before
    /\ Permutation (List.map ts_id (items after))
         (List.map ts_id (items before)).
Proof.
  do 2 eexists. split; [reflexivity|]. split; [reflexivity|].
  cbn [count items listing]. rewrite !length_map, !List.map_map. cbn [ts_id template_summary].
  assert (Hperm : Permutation
            (select_templates category_id doc_type search
               (snd (get_template_detail template_id db)))
            (List.map (bump template_id)
               (select_templates category_id doc_type search db))).
  { unfold get_template_detail.
    destruct (find_template db template_id) as [t0|] eqn:E; cbn [snd].
    - unfold select_templates. cbn [templates update_popularity].
      rewrite filter_map_same by (intros t; apply selected_bump).
      rewrite order_by_perm. apply Permutation_map. symmetry.
      apply order_by_perm.
    - replace (List.map (bump template_id)
                 (select_templates category_id doc_type search db))
        with (select_templates category_id doc_type search db); [reflexivity|].
      rewrite <- (List.map_id (select_templates _ _ _ db)) at 1.
      apply List.map_ext_in. intros t Hin. symmetry. apply bump_miss.
      intros Hid. unfold select_templates in Hin.
      apply (Permutation_in _ (order_by_perm _ _)) in Hin.
      apply filter_In in Hin. destruct Hin as [Hin _].
      unfold find_template in E. eapply find_none in E; [|exact Hin].
      apply Z.eqb_neq in E. contradiction. }
  split.
  - f_equal. rewrite (Permutation_length Hperm). apply length_map.
  - rewrite (Permutation_map t_id Hperm), List.map_map.
    erewrite List.map_ext; [reflexivity|].
    intros t. apply bump_same.
Qed.

(** ** A generated document in the listing *)

(** X8: a document that was generated is listed: where no two templates share
    an id and the listing had fewer than 100 rows, the listing after a
    successful generation has a row with the id of the response, the
    template of the request and its name, the time of the insert and the
    status [generated]. *)
Theorem generated_document_is_listed (clock : Clock) (db db' : DB)
    (template_id : Z) (fields_data : list (text * json)) (g : Generated) :
  generate_document clock
    (mkGenerateRequest (Some template_id) (Some fields_data)) db = (Ok g, db') ->
  List.NoDup (List.map t_id (templates db)) ->
  (length (joined_documents db) < 100)%nat ->
  exists docs : Listing DocumentInfo,
    get_documents db' = Ok docs
    /\ In (mkDocumentInfo (g_document_id g) template_id (g_template_name g)
             (current_timestamp clock) (str "generated"))
         (items docs).
Proof.
  unfold generate_document. cbn [rq_template_id rq_fields].
  destruct (find_template db template_id) as [t|] eqn:Efind; [|discriminate].
  destruct (List.find _ _); [discriminate|].
  unfold insert_filled_document. intros Hgen Hnd Hlen.
  injection Hgen as <- <-.
  eexists. split; [reflexivity|].
  cbn [items listing g_document_id g_template_name].
  set (id := next_rowid _ _).
  set (fd := mkFilledDocument id template_id None _ _ _).
  match goal with |- In _ (List.map _ (select_documents ?d)) =>
    set (db1 := d) end.
  change (mkDocumentInfo id template_id (t_name t) (current_timestamp clock)
            (str "generated")) with (document_info (fd, t)).
  apply in_map. unfold select_documents.
  assert (Hjoin : joined_documents db1
                  = joined_documents db
                    ++ List.map (fun t => (fd, t))
                         (List.filter (fun t => template_id =? t_id t)
                            (templates db))).
  { unfold joined_documents, db1.
    cbn [filled_documents templates]. rewrite flat_map_app. cbn [flat_map].
    now rewrite app_nil_r. }
  rewrite firstn_all2.
  - eapply Permutation_in; [symmetry; apply order_by_perm|].
    rewrite Hjoin. apply in_or_app. right. apply in_map.
    apply filter_In. split; [eapply find_template_In; eassumption|].
    apply Z.eqb_eq. symmetry. eapply find_template_id; eassumption.
  - rewrite (Permutation_length (order_by_perm _ _)), Hjoin, length_app,
      length_map.
    pose proof (filter_id_le_1 template_id (templates db) Hnd). lia.
Qed.

(** ** Primary keys in the states of the service *)

Lemma StronglySorted_snoc {A} (R : A -> A -> Prop) l y :
  StronglySorted R l -> Forall (fun x => R x y) l ->
  StronglySorted R (l ++ [y]).
Proof.
  induction 1 as [|x l Hs IH Hall]; intros Hy; simpl.
  - repeat constructor.
  - inversion Hy as [|? ? Hxy Hy']; subst. constructor; [now apply IH|].
    apply List.Forall_app. split; [exact Hall|]. now constructor.
Qed.

Lemma max_id_nonneg ids : 0 <= max_id ids.
Proof. induction ids as [|x ids IH]; simpl; lia. Qed.

Lemma ids_increasing_nil seq : ids_increasing [] seq.
Proof. split; constructor. Qed.

(** The next rowid of a table keeps its rowids increasing. *)
Lemma ids_increasing_snoc ids seq :
  ids_increasing ids seq ->
  ids_increasing (ids ++ [next_rowid seq ids]) (next_rowid seq ids).
Proof.
  intros [Hs Hb]. pose proof (next_rowid_seq seq ids) as Hseq.
  pose proof (max_id_nonneg ids) as H0. split.
  - apply StronglySorted_snoc; [exact Hs|].
    apply List.Forall_forall. intros x Hx. now apply next_rowid_fresh.
  - apply List.Forall_app. split.
    + eapply List.Forall_impl; [|exact Hb]. cbn. intros x Hx. lia.
    + constructor; [|constructor]. unfold next_rowid in *. lia.
Qed.

Lemma keys_ok_update tid db : keys_ok db -> keys_ok (update_popularity tid db).
Proof.
  intros (Hc & Ht & Hf & Hd & Hr). unfold keys_ok.
  cbn [categories templates template_fields filled_documents seq_categories
       seq_templates seq_template_fields seq_filled_documents update_popularity].
  repeat split; try assumption; try apply Hc; try apply Hf; try apply Hd;
    rewrite List.map_map;
    erewrite List.map_ext; try apply Ht; intros t; apply bump_same.
Qed.

Lemma keys_ok_insert_filled_document tid data status clock db :
  tid <= seq_templates db ->
  keys_ok db ->
  keys_ok (fst (insert_filled_document tid data status clock db)).
Proof.
  intros Htid (Hc & Ht & Hf & Hd & Hr). unfold keys_ok, insert_filled_document.
  cbn [fst categories templates template_fields filled_documents seq_categories
       seq_templates seq_template_fields seq_filled_documents].
  do 3 (split; [assumption|]). split.
  - rewrite List.map_app. now apply ids_increasing_snoc.
  - apply List.Forall_app. split; [exact Hr|]. now repeat constructor.
Qed.

Lemma keys_ok_delete db :
  keys_ok db ->
  keys_ok (delete_categories (delete_templates (delete_template_fields db))).
Proof.
  intros (Hc & Ht & Hf & Hd & Hr). unfold keys_ok.
  cbn [categories templates template_fields filled_documents seq_categories
       seq_templates seq_template_fields seq_filled_documents
       delete_categories delete_templates delete_template_fields List.map].
  repeat split; try constructor; try apply Hd. exact Hr.
Qed.

Lemma keys_ok_insert_category name desc db :
  keys_ok db -> keys_ok (fst (insert_category name desc db)).
Proof.
  intros (Hc & Ht & Hf & Hd & Hr). unfold keys_ok, insert_category.
  cbn [fst categories templates template_fields filled_documents seq_categories
       seq_templates seq_template_fields seq_filled_documents].
  split; [|split; [exact Ht|split; [exact Hf|split; [exact Hd|exact Hr]]]].
  rewrite List.map_app. now apply ids_increasing_snoc.
Qed.

Lemma keys_ok_insert_categories cats db ids :
  keys_ok db -> keys_ok (fst (insert_categories cats db ids)).
Proof.
  revert db ids. induction cats as [|[name desc] cats IH]; intros db ids H;
    [exact H|].
  cbn [insert_categories].
  pose proof (keys_ok_insert_category name desc db H) as H'.
  destruct (insert_category name desc db) as [db1 id]. now apply IH.
Qed.

Lemma keys_ok_insert_template cid name desc ty wc clock db db' tid :
  insert_template cid name desc ty wc clock db = Some (db', tid) ->
  keys_ok db ->
  keys_ok db' /\ seq_templates db < tid /\ seq_templates db' = tid
  /\ templates db' = templates db
                     ++ [mkTemplate tid (Some cid) name (Some desc) ty wc 0
                           (current_timestamp clock)].
Proof.
  unfold insert_template. destruct (mem_text ty doc_types); [|discriminate].
  intros E (Hc & Ht & Hf & Hd & Hr). injection E as <- <-.
  pose proof (next_rowid_seq (seq_templates db) (List.map t_id (templates db)))
    as Hlt.
  split; [|now repeat split]. unfold keys_ok.
  cbn [categories templates template_fields filled_documents seq_categories
       seq_templates seq_template_fields seq_filled_documents].
  split; [assumption|]. split; [|split; [assumption|split; [assumption|]]].
  - rewrite List.map_app. now apply ids_increasing_snoc.
  - eapply List.Forall_impl; [|exact Hr]. cbn. intros fd Hfd. lia.
Qed.

Lemma keys_ok_insert_template_field tid field i db db' :
  insert_template_field tid field i db = Some db' ->
  keys_ok db ->
  keys_ok db' /\ seq_templates db' = seq_templates db.
Proof.
  unfold insert_template_field.
  destruct (mem_text (fdef_type field) field_types); [|discriminate].
  intros E (Hc & Ht & Hf & Hd & Hr). injection E as <-.
  split; [|reflexivity]. unfold keys_ok.
  cbn [categories templates template_fields filled_documents seq_categories
       seq_templates seq_template_fields seq_filled_documents].
  do 2 (split; [assumption|]). split; [|now split].
  rewrite List.map_app. now apply ids_increasing_snoc.
Qed.

Lemma keys_ok_insert_fields fields tid i db :
  keys_ok db ->
  keys_ok (insert_fields tid i fields db)
  /\ seq_templates (insert_fields tid i fields db) = seq_templates db.
Proof.
  revert i db. induction fields as [|field fields IH]; intros i db H;
    [now split|].
  cbn [insert_fields].
  destruct (insert_template_field tid field i db) as [db'|] eqn:E; [|now split].
  destruct (keys_ok_insert_template_field _ _ _ _ _ E H) as [H' Hs].
  destruct (IH (i + 1) db' H') as [H'' Hs']. split; [exact H''|congruence].
Qed.

(** The loop of the seed keeps the keys, never lowers the counter of the
    templates, and gives every row it adds an id above the counter it
    found. *)
Lemma keys_ok_add_template ids clock db n template :
  keys_ok db ->
  let db' := fst (add_template ids clock (db, n) template) in
  keys_ok db'
  /\ seq_templates db <= seq_templates db'
  /\ forall t, In t (templates db') ->
       In t (templates db) \/ seq_templates db < t_id t.
Proof.
  intros H. cbv zeta. unfold add_template.
  destruct (ids !! tdef_category template) as [cid|];
    [|cbn [fst]; split; [exact H|split; [lia|tauto]]].
  destruct (insert_template cid _ _ _ _ clock db) as [[db1 tid]|] eqn:E;
    [|cbn [fst]; split; [exact H|split; [lia|tauto]]].
  destruct (keys_ok_insert_template _ _ _ _ _ _ _ _ _ E H)
    as (H1 & Hlt & Hseq & Hts).
  destruct (keys_ok_insert_fields (tdef_fields template) tid 0 db1 H1)
    as [H2 Hseq2].
  pose proof (insert_fields_spec (tdef_fields template) tid 0 db1) as Hspec.
  cbv zeta in Hspec. destruct Hspec as (_ & Ht & _).
  cbn [fst]. split; [exact H2|]. split; [lia|].
  intros t Hin. rewrite Ht, Hts in Hin. apply in_app_or in Hin.
  destruct Hin as [Hin|[<-|[]]]; [now left|right; exact Hlt].
Qed.

Lemma keys_ok_fold_add ids clock tdata st :
  keys_ok (fst st) ->
  let st' := fold_left (add_template ids clock) tdata st in
  keys_ok (fst st')
  /\ seq_templates (fst st) <= seq_templates (fst st')
  /\ forall t, In t (templates (fst st')) ->
       In t (templates (fst st)) \/ seq_templates (fst st) < t_id t.
Proof.
  revert st. induction tdata as [|template tdata IH]; intros [db n] H; cbv zeta.
  - cbn [fold_left fst]. split; [exact H|split; [lia|tauto]].
  - cbn [fold_left].
    pose proof (keys_ok_add_template ids clock db n template H) as H1.
    cbv zeta in H1. destruct H1 as (H1 & Hle & Hin1).
    specialize (IH (add_template ids clock (db, n) template) H1).
    cbv zeta in IH. destruct IH as (H2 & Hle2 & Hin2).
    cbn [fst] in *. split; [exact H2|]. split; [lia|].
    intros t Hin. destruct (Hin2 t Hin) as [Hin'|Hlt]; [|right; lia].
    apply Hin1 in Hin'. destruct Hin' as [Hin'|Hlt]; [now left|right; lia].
Qed.

(** The seed keeps the keys, and every template it leaves has an id above
    the counter that it found. *)
Lemma keys_ok_seed_with cats tdata clock db :
  keys_ok db ->
  keys_ok (snd (seed_with cats tdata clock db))
  /\ forall t, In t (templates (snd (seed_with cats tdata clock db))) ->
       seq_templates db < t_id t.
Proof.
  intros H. rewrite seed_with_unfold. cbv zeta. cbn [snd].
  set (emptied := delete_categories (delete_templates (delete_template_fields db))).
  pose proof (keys_ok_insert_categories cats emptied ∅ (keys_ok_delete db H))
    as H1.
  pose proof (insert_categories_spec cats emptied ∅) as Hspec.
  cbv zeta in Hspec. destruct Hspec as (_ & Ht & _).
  assert (Hseq : seq_templates (fst (insert_categories cats emptied ∅))
                 = seq_templates db).
  { clear. generalize (∅ : gmap text Z) as ids.
    change (seq_templates db) with (seq_templates emptied).
    generalize emptied as d. induction cats as [|[name desc] cats IH];
      intros d ids; [reflexivity|].
    cbn [insert_categories insert_category]. now rewrite IH. }
  pose proof (keys_ok_fold_add (snd (insert_categories cats emptied ∅)) clock
                tdata (fst (insert_categories cats emptied ∅), 0) H1) as H2.
  cbv zeta in H2. cbn [fst] in H2. destruct H2 as (H2 & _ & Hin).
  split; [exact H2|]. intros t Hint. destruct (Hin t Hint) as [Hold|Hlt].
  - rewrite Ht in Hold. destruct Hold.
  - now rewrite Hseq in Hlt.
Qed.

Lemma keys_ok_empty : keys_ok empty_db.
Proof. repeat split; constructor. Qed.

Lemma reachable_keys db : reachable db -> keys_ok db.
Proof.
  induction 1 as [|db db' Hreach IH Hstep]; [exact keys_ok_empty|].
  destruct Hstep as [tid|clock data|clock data|clock].
  - unfold get_template_detail.
    destruct (find_template db tid); [|exact IH].
    cbn [snd]. now apply keys_ok_update.
  - unfold generate_document.
    destruct (rq_template_id data) as [tid|]; [|exact IH].
    destruct (rq_fields data) as [fields_data|]; [|exact IH].
    destruct (find_template db tid) as [t|] eqn:E; [|exact IH].
    destruct (List.find _ _); [exact IH|].
    pose proof (keys_ok_insert_filled_document tid
                  (json_dumps (JObj fields_data)) (str "generated") clock db)
      as H.
    destruct (insert_filled_document tid _ _ clock db) as [db1 id].
    cbn [snd fst] in *. apply H; [|exact IH].
    destruct IH as (_ & [_ Hb] & _).
    rewrite List.Forall_forall in Hb.
    specialize (Hb (t_id t) (in_map t_id _ _ (find_template_In _ _ _ E))).
    apply find_template_id in E. lia.
  - destruct (generate_document_route_db clock data db)
      as [->|(t & document_data & Hin & ->)]; [exact IH|].
    apply keys_ok_insert_filled_document; [|exact IH].
    destruct IH as (_ & [_ Hb] & _).
    rewrite List.Forall_forall in Hb.
    exact (proj2 (Hb (t_id t) (in_map t_id _ _ Hin))).
  - now apply keys_ok_seed_with.
Qed.

Lemma StronglySorted_lt_NoDup ids : StronglySorted Z.lt ids -> List.NoDup ids.
Proof.
  induction 1 as [|x ids Hs IH Hall]; constructor; [|exact IH].
  intros Hin. rewrite List.Forall_forall in Hall.
  specialize (Hall x Hin). lia.
Qed.

(** X9: in every state of the service no two rows of a table share an id, and
    looking a template up by the id of one of the rows returns that row. *)
Theorem reachable_primary_keys (db : DB) :
  reachable db ->
  List.NoDup (List.map cat_id (categories db))
  /\ List.NoDup (List.map t_id (templates db))
  /\ List.NoDup (List.map f_id (template_fields db))
  /\ List.NoDup (List.map fd_id (filled_documents db))
  /\ forall t, In t (templates db) -> find_template db (t_id t) = Some t.
Proof.
  intros Hreach. destruct (reachable_keys db Hreach)
    as ([Hc _] & [Ht _] & [Hf _] & [Hd _] & _).
  apply StronglySorted_lt_NoDup in Hc, Ht, Hf, Hd.
  repeat split; try assumption.
  intros t Hin. now apply find_by_id.
Qed.

(** ** A seed and the filled documents *)

Lemma seed_database_documents clock db :
  filled_documents (snd (seed_database clock db)) = filled_documents db.
Proof.
  destruct (seed_with_all seed_categories templates_data clock db
              templates_data_insertable) as (s & db' & Hseed & _ & _ & _ & _ & _ & Hd).
  unfold seed_database. now rewrite Hseed.
Qed.

Lemma seed_database_new_ids clock db :
  keys_ok db ->
  forall t, In t (templates (snd (seed_database clock db))) ->
            seq_templates db < t_id t.
Proof. intros H. now apply keys_ok_seed_with. Qed.

Lemma seed_database_joins_nothing clock db :
  reachable db -> joined_documents (snd (seed_database clock db)) = [].
Proof.
  intros Hreach. pose proof (reachable_keys db Hreach) as Hkeys.
  pose proof (seed_database_new_ids clock db Hkeys) as Hnew.
  destruct Hkeys as (_ & _ & _ & _ & Hrefs).
  unfold joined_documents. rewrite seed_database_documents.
  induction Hrefs as [|fd fds Hfd Hrefs IH]; [reflexivity|].
  cbn [flat_map]. rewrite IH, app_nil_r.
  rewrite filter_none; [reflexivity|].
  intros t Hin. apply Z.eqb_neq. specialize (Hnew t Hin). lia.
Qed.

(** X10: a seed hides every filled document of the state it starts from: the
    templates it inserts get ids that no template had before, so the
    documents listing and the recent documents of the statistics are empty
    right after a seed, while the statistics still count the documents. *)
Theorem seed_database_hides_documents (clock : Clock) (db : DB) :
  reachable db ->
  get_documents (snd (seed_database clock db)) = Ok (mkListing [] 0)
  /\ exists st : Statistics,
       get_statistics (snd (seed_database clock db)) = Ok st
       /\ recent_documents st = []
       /\ total_documents st = Z.of_nat (length (filled_documents db)).
Proof.
  intros Hreach.
  pose proof (seed_database_joins_nothing clock db Hreach) as Hjoin. split.
  - unfold get_documents, select_documents. now rewrite Hjoin.
  - eexists. split; [reflexivity|].
    cbn [recent_documents total_documents]. unfold select_recent.
    rewrite Hjoin, seed_database_documents. now split.
Qed.

(** ** The rows that the seed stores *)

Lemma insert_categories_resolve cats db ids :
  names_resolve db ids ->
  names_resolve (fst (insert_categories cats db ids))
    (snd (insert_categories cats db ids)).
Proof.
  revert db ids. induction cats as [|[name desc] cats IH]; intros db ids H;
    [exact H|].
  cbn [insert_categories insert_category]. apply IH.
  destruct H as [Hs Hres]. split.
  - cbn [categories]. rewrite List.map_app. apply StronglySorted_snoc;
      [exact Hs|].
    apply List.Forall_forall. intros x Hx. now apply next_rowid_fresh.
  - intros name' id. cbn [categories].
    destruct (decide (name = name')) as [<-|Hne].
    + rewrite lookup_insert_eq. intros E. injection E as <-.
      eexists. split; [apply in_or_app; right; now left|]. now split.
    + rewrite lookup_insert_ne by exact Hne. intros E.
      destruct (Hres name' id E) as (c & Hin & Hid & Hname).
      exists c. split; [apply in_or_app; now left|]. now split.
Qed.

Lemma category_name_of db c :
  StronglySorted Z.lt (List.map cat_id (categories db)) ->
  In c (categories db) ->
  category_name db (Some (cat_id c)) = Some (cat_name c).
Proof.
  intros Hs Hin. apply StronglySorted_lt_NoDup in Hs. unfold category_name.
  cbn [eq_null]. induction (categories db) as [|c' cs IH]; [destruct Hin|].
  inversion Hs as [|? ? Hnotin Hs']; subst. cbn [List.find].
  destruct Hin as [->|Hin]; [now rewrite Z.eqb_refl|].
  destruct (Z.eqb_spec (cat_id c) (cat_id c')) as [E|E]; [|now apply IH].
  exfalso. apply Hnotin. rewrite <- E. now apply in_map.
Qed.

Lemma valid_entry_insertable names template :
  valid_entry names template = true ->
  mem_text (tdef_category template) names = true
  /\ mem_text (tdef_type template) doc_types = true
  /\ Forall (fun field => mem_text (fdef_type field) field_types = true)
       (tdef_fields template).
Proof.
  unfold valid_entry. rewrite !andb_true_iff, forallb_forall.
  intros [[H1 H2] H3]. repeat split; try assumption.
  now apply List.Forall_forall.
Qed.

(** With valid types every entry of ['fields'] is stored, in order. *)
Lemma insert_fields_rows fields tid i db :
  Forall (fun field => mem_text (fdef_type field) field_types = true) fields ->
  exists new,
    template_fields (insert_fields tid i fields db) = template_fields db ++ new
    /\ stored_fields tid i new fields
    /\ Forall (fun f => f_template_id f = tid) new.
Proof.
  intros Hvalid. revert i db.
  induction Hvalid as [|field fields Hty Hvalid IH]; intros i db.
  - exists []. cbn. now rewrite app_nil_r.
  - cbn [insert_fields]. unfold insert_template_field. rewrite Hty.
    match goal with |- context [insert_fields tid (i + 1) fields ?d] =>
      destruct (IH (i + 1) d) as (new & Hf & Hst & Hall) end.
    cbn [template_fields] in Hf.
    eexists (_ :: new). rewrite Hf, <- app_assoc. split; [reflexivity|].
    split; [split; [reflexivity|exact Hst]|].
    constructor; [reflexivity|exact Hall].
Qed.

Lemma fields_of_app_other db db' new x :
  template_fields db' = template_fields db ++ new ->
  Forall (fun f => f_template_id f <> x) new ->
  fields_of db' x = fields_of db x.
Proof.
  intros Hf Hall. unfold fields_of. rewrite Hf, List.filter_app.
  rewrite (filter_none _ new), app_nil_r; [reflexivity|].
  rewrite List.Forall_forall in Hall. intros f Hin.
  apply Z.eqb_neq. now apply Hall.
Qed.

Lemma fields_of_app_own db db' new x :
  template_fields db' = template_fields db ++ new ->
  Forall (fun f => f_template_id f = x) new ->
  fields_of db' x = fields_of db x ++ new.
Proof.
  intros Hf Hall. unfold fields_of. rewrite Hf, List.filter_app. f_equal.
  clear Hf. induction Hall as [|f new Hx Hall IH]; [reflexivity|].
  cbn [List.filter]. rewrite (proj2 (Z.eqb_eq _ _) Hx). now rewrite IH.
Qed.

Lemma fields_of_unreferred db x :
  fields_refer db -> (forall t, In t (templates db) -> t_id t <> x) ->
  fields_of db x = [].
Proof.
  intros Href Hx. unfold fields_of. apply filter_none. intros f Hin.
  apply Z.eqb_neq. intros E. destruct (Href f Hin) as (t & Ht & Hid).
  apply (Hx t Ht). congruence.
Qed.

(** A valid entry adds its template row and all its field rows. *)
Lemma add_template_rows ids names clock db n template :
  (forall name, In name names -> is_Some (ids !! name)) ->
  valid_entry names template = true ->
  exists db' row new,
    add_template ids clock (db, n) template = (db', n + 1)
    /\ categories db' = categories db
    /\ templates db' = templates db ++ [row]
    /\ row_of ids clock row template
    /\ (forall t, In t (templates db) -> t_id t < t_id row)
    /\ template_fields db' = template_fields db ++ new
    /\ stored_fields (t_id row) 0 new (tdef_fields template)
    /\ Forall (fun f => f_template_id f = t_id row) new.
Proof.
  intros Hids Hvalid.
  destruct (valid_entry_insertable _ _ Hvalid) as (Hcat & Htype & Hfields).
  apply mem_text_In in Hcat. destruct (Hids _ Hcat) as [cid Hcid].
  unfold add_template. rewrite Hcid. unfold insert_template. rewrite Htype.
  set (tid := next_rowid (seq_templates db) (List.map t_id (templates db))).
  match goal with |- context [insert_fields tid 0 _ ?d] => set (db1 := d) end.
  destruct (insert_fields_rows (tdef_fields template) tid 0 db1 Hfields)
    as (new & Hf & Hst & Hall).
  pose proof (insert_fields_spec (tdef_fields template) tid 0 db1) as Hspec.
  cbv zeta in Hspec. destruct Hspec as (Hc & Ht & _).
  eexists _, _, new. split; [reflexivity|].
  rewrite Hc, Ht, Hf. cbn [db1 categories templates template_fields t_id].
  split; [reflexivity|]. split; [reflexivity|]. split.
  { exists cid. split; [exact Hcid|reflexivity]. }
  split; [|now repeat split].
  intros t Hin. apply next_rowid_fresh. now apply in_map.
Qed.

Lemma fold_add_rows ids names clock tdata db n :
  (forall name, In name names -> is_Some (ids !! name)) ->
  forallb (valid_entry names) tdata = true ->
  fields_refer db ->
  exists db' rows,
    fold_left (add_template ids clock) tdata (db, n)
    = (db', n + Z.of_nat (length tdata))
    /\ categories db' = categories db
    /\ templates db' = templates db ++ rows
    /\ Forall2 (row_of ids clock) rows tdata
    /\ Forall (fun row => forall t, In t (templates db) -> t_id t < t_id row)
         rows
    /\ StronglySorted Z.lt (List.map t_id rows)
    /\ (forall t template, In (t, template) (combine rows tdata) ->
          stored_fields (t_id t) 0 (fields_of db' (t_id t))
            (tdef_fields template))
    /\ (forall t, In t (templates db) ->
          fields_of db' (t_id t) = fields_of db (t_id t))
    /\ fields_refer db'.
Proof.
  intros Hids. revert db n.
  induction tdata as [|template tdata IH]; intros db n Hvalid Href.
  - exists db, []. cbn. rewrite Z.add_0_r, app_nil_r.
    repeat split; try constructor; try assumption. intros t def [].
  - cbn [forallb] in Hvalid. apply andb_true_iff in Hvalid.
    destruct Hvalid as [Hvalid Hrest].
    destruct (add_template_rows ids names clock db n template Hids Hvalid)
      as (db1 & row & new & Hadd & Hc1 & Ht1 & Hrow & Hfresh & Hf1 & Hst & Hall).
    assert (Href1 : fields_refer db1).
    { intros f Hin. rewrite Hf1 in Hin. rewrite Ht1.
      apply in_app_or in Hin. destruct Hin as [Hin|Hin].
      - destruct (Href f Hin) as (t & Ht & Hid). exists t.
        split; [apply in_or_app; now left|exact Hid].
      - exists row. split; [apply in_or_app; right; now left|].
        rewrite List.Forall_forall in Hall. symmetry. now apply Hall. }
    destruct (IH db1 (n + 1) Hrest Href1)
      as (db' & rows & Hfold & Hc & Ht & Hrows & Hnew & Hsorted & Hfields
          & Hkeep & Href').
    assert (Hrow1 : In row (templates db1))
      by (rewrite Ht1; apply in_or_app; right; now left).
    assert (Hown : fields_of db1 (t_id row) = new).
    { rewrite (fields_of_app_own db db1 new (t_id row) Hf1 Hall).
      rewrite fields_of_unreferred; [reflexivity|exact Href|].
      intros t Hin E. specialize (Hfresh t Hin). lia. }
    exists db', (row :: rows). cbn [fold_left]. rewrite Hadd, Hfold.
    split; [f_equal; cbn [length]; lia|].
    split; [congruence|].
    split; [rewrite Ht, Ht1, <- app_assoc; reflexivity|].
    split; [now constructor|].
    split.
    { constructor; [exact Hfresh|].
      eapply List.Forall_impl; [|exact Hnew]. cbn. intros r Hr t Hin.
      apply Hr. rewrite Ht1. apply in_or_app. now left. }
    split.
    { cbn [List.map]. constructor; [exact Hsorted|].
      apply List.Forall_forall. intros x Hx. apply in_map_iff in Hx.
      destruct Hx as (r & <- & Hr). rewrite List.Forall_forall in Hnew.
      now apply Hnew. }
    split.
    { intros t def [E|Hin].
      - injection E as <- <-. rewrite (Hkeep row Hrow1), Hown. exact Hst.
      - now apply Hfields. }
    split; [|exact Href'].
    intros t Hin. rewrite (Hkeep t) by (rewrite Ht1; apply in_or_app; now left).
    apply (fields_of_app_other db db1 new _ Hf1).
    eapply List.Forall_impl; [|exact Hall]. cbn. intros f Hf E.
    specialize (Hfresh t Hin). lia.
Qed.

Lemma Forall2_combine_and {A B} (P Q : A -> B -> Prop) l1 l2 :
  Forall2 P l1 l2 ->
  (forall a b, In (a, b) (combine l1 l2) -> Q a b) ->
  Forall2 (fun a b => P a b /\ Q a b) l1 l2.
Proof.
  induction 1 as [|a b l1 l2 Hab Hl IH]; intros HQ; constructor.
  - split; [exact Hab|]. apply HQ. now left.
  - apply IH. intros a' b' Hin. apply HQ. now right.
Qed.

Lemma names_resolve_emptied db :
  names_resolve
    (delete_categories (delete_templates (delete_template_fields db))) ∅.
Proof.
  split; [constructor|]. intros name id H. now rewrite lookup_empty in H.
Qed.

(** For a catalog whose inserts cannot fail, the seed stores every entry:
    the template rows are those of [tdata], in order and with increasing
    ids, each with its fields. *)
Lemma seed_with_rows cats tdata clock db :
  forallb (valid_entry (List.map fst cats)) tdata = true ->
  Forall2 (seeded_template (snd (seed_with cats tdata clock db)) clock)
    (templates (snd (seed_with cats tdata clock db))) tdata
  /\ StronglySorted Z.lt
       (List.map t_id (templates (snd (seed_with cats tdata clock db)))).
Proof.
  intros Hvalid. rewrite seed_with_unfold. cbv zeta. cbn [snd].
  set (emptied := delete_categories (delete_templates (delete_template_fields db))).
  pose proof (insert_categories_resolve cats emptied ∅
                (names_resolve_emptied db)) as [Hsorted Hres].
  pose proof (insert_categories_spec cats emptied ∅) as Hspec.
  cbv zeta in Hspec. destruct Hspec as (_ & Ht0 & Hf0 & _ & Hids).
  set (db0 := fst (insert_categories cats emptied ∅)) in *.
  set (ids := snd (insert_categories cats emptied ∅)) in *.
  assert (Href0 : fields_refer db0).
  { intros f Hin. rewrite Hf0 in Hin. destruct Hin. }
  destruct (fold_add_rows ids (List.map fst cats) clock tdata db0 0)
    as (db' & rows & Hfold & Hc & Ht & Hrows & _ & Hinc & Hfields & _ & _);
    [|exact Hvalid|exact Href0|].
  { intros name Hin. apply Hids. now left. }
  rewrite Hfold. cbn [fst]. rewrite Ht, Ht0. cbn [templates emptied
    delete_categories delete_templates app].
  split; [|exact Hinc].
  eapply Forall2_impl;
    [apply (Forall2_combine_and _ _ _ _ Hrows Hfields)|].
  cbn beta. intros t template [(cid & Hcid & Hrow) Hst].
  destruct (Hres _ _ Hcid) as (c & Hin & Hid & Hname).
  unfold seeded_template.
  rewrite (f_equal t_name Hrow), (f_equal t_description Hrow),
    (f_equal t_doc_type Hrow), (f_equal t_word_count Hrow),
    (f_equal t_popularity Hrow), (f_equal t_created_at Hrow),
    (f_equal t_category_id Hrow).
  cbn [template_row t_name t_description t_doc_type t_word_count t_popularity
       t_created_at t_category_id].
  do 6 (split; [reflexivity|]). split; [|exact Hst].
  rewrite <- Hid, <- Hname. unfold category_name. rewrite Hc.
  apply (category_name_of db0 c Hsorted Hin).
Qed.

Lemma templates_data_valid :
  forallb (valid_entry (List.map fst seed_categories)) templates_data = true.
Proof. vm_compute. reflexivity. Qed.

(** X11: from any state, the seed stores the catalog as it is written: the
    template rows are the entries of [templates_data], in order, each with
    popularity 0, with a category reference that resolves to the category
    named in the entry, and with the field rows of the entry in the order
    of the entry, numbered from 0. *)
Theorem seed_database_stores_catalog (clock : Clock) (db : DB) :
  Forall2 (seeded_template (snd (seed_database clock db)) clock)
    (templates (snd (seed_database clock db))) templates_data.
Proof.
  exact (proj1 (seed_with_rows seed_categories templates_data clock db
                  templates_data_valid)).
Qed.

Lemma stored_fields_reported tid i rows fields :
  stored_fields tid i rows fields ->
  List.map (fun fd => (fdat_key fd, fdat_label fd, fdat_type fd,
                       fdat_required fd, fdat_placeholder fd,
                       fdat_min fd, fdat_max fd, fdat_format fd))
    (List.map field_data rows)
  = List.map (fun field => (fdef_key field, fdef_label field, fdef_type field,
                            fdef_required field,
                            match fdef_placeholder field with
                            | Some p => p
                            | None => []
                            end,
                            fdef_min field, fdef_max field, None))
      fields.
Proof.
  revert i fields. induction rows as [|row rows IH]; intros i [|field fields];
    cbn [stored_fields]; try contradiction; [reflexivity|].
  intros [Hrow Hrest]. cbn [List.map]. rewrite (IH _ _ Hrest). f_equal.
  rewrite Hrow. unfold field_data, field_row.
  cbn [f_field_key f_field_label f_field_type f_is_required f_placeholder
       f_min_value f_max_value f_format fdat_key fdat_label fdat_type
       fdat_required fdat_placeholder fdat_min fdat_max fdat_format if_truthy].
  destruct (fdef_required field), (fdef_placeholder field) as [[|c p]|];
    reflexivity.
Qed.

Lemma seed_database_rows clock db :
  Forall2 (seeded_template (snd (seed_database clock db)) clock)
    (templates (snd (seed_database clock db))) templates_data
  /\ StronglySorted Z.lt
       (List.map t_id (templates (snd (seed_database clock db)))).
Proof.
  exact (seed_with_rows seed_categories templates_data clock db
           templates_data_valid).
Qed.

Lemma seed_database_in_order clock db :
  fields_in_order (snd (seed_database clock db)).
Proof. exact (seed_with_in_order seed_categories templates_data clock db). Qed.

Lemma Forall2_impl_In {A B} (P Q : A -> B -> Prop) l1 l2 :
  Forall2 P l1 l2 ->
  (forall a b, In a l1 -> P a b -> Q a b) ->
  Forall2 Q l1 l2.
Proof.
  induction 1 as [|a b l1 l2 Hab Hl IH]; intros HQ; constructor.
  - apply HQ; [now left|exact Hab].
  - apply IH. intros a' b' Hin. apply HQ. now right.
Qed.

(** X12: after a seed the fields endpoint answers, for every template of the
    catalog, with the name of the entry and the fields of the entry in the
    order in which the catalog lists them: key, label, type, required flag,
    placeholder (or the empty string), [min] and [max] as the entry has
    them, and no [format]. *)
Theorem seed_database_fields_endpoint (clock : Clock) (db : DB) :
  Forall2
    (fun t template =>
       exists r : FieldsResponse,
         get_template_fields (t_id t) (snd (seed_database clock db)) = Ok r
         /\ fr_template_id r = t_id t
         /\ fr_template_name r = tdef_name template
         /\ List.map (fun fd => (fdat_key fd, fdat_label fd, fdat_type fd,
                                 fdat_required fd, fdat_placeholder fd,
                                 fdat_min fd, fdat_max fd, fdat_format fd))
              (fr_fields r)
            = List.map
                (fun field => (fdef_key field, fdef_label field,
                               fdef_type field, fdef_required field,
                               match fdef_placeholder field with
                               | Some p => p
                               | None => []
                               end,
                               fdef_min field, fdef_max field, None))
                (tdef_fields template))
    (templates (snd (seed_database clock db))) templates_data.
Proof.
  destruct (seed_database_rows clock db) as [Hrows Hsorted].
  destruct (seed_database_in_order clock db) as [Horder _].
  apply StronglySorted_lt_NoDup in Hsorted.
  eapply Forall2_impl_In; [exact Hrows|]. cbn beta.
  intros t template Hin (Hname & _ & _ & _ & _ & _ & _ & Hst).
  unfold get_template_fields, find_template.
  rewrite (find_by_id _ t Hsorted Hin).
  eexists. split; [reflexivity|].
  cbn [fr_template_id fr_template_name fr_fields].
  split; [reflexivity|]. split; [exact Hname|].
  rewrite order_by_of_sorted
    by (eapply Sorted_impl; [|apply Horder];
        intros a b; apply by_order_index_id_le).
  eapply stored_fields_reported. exact Hst.
Qed.

(** ** The catalog in the states of the service *)

Lemma Forall2_map_l {A B} (f : A -> A) (P Q : A -> B -> Prop) l1 l2 :
  (forall a b, P a b -> Q (f a) b) ->
  Forall2 P l1 l2 -> Forall2 Q (List.map f l1) l2.
Proof.
  intros H. induction 1 as [|a b l1 l2 Hab Hl IH]; cbn [List.map];
    constructor; auto.
Qed.

(** X14: the catalog of the service is empty, or it is the fixed catalog: in
    every state that has templates, the template rows are the entries of
    [templates_data], in order, each with its category, its fields in the
    order of the entry and a view counter that is not negative. *)
Theorem reachable_catalog (db : DB) :
  reachable db ->
  templates db = []
  \/ Forall2 (catalog_entry db) (templates db) templates_data.
Proof.
  induction 1 as [|db db' Hreach IH Hstep]; [now left|].
  destruct Hstep as [tid|clock data|clock data|clock].
  - unfold get_template_detail.
    destruct (find_template db tid) as [t0|]; [|exact IH]. cbn [snd].
    destruct IH as [IH|IH]; [left|right].
    + cbn [templates update_popularity]. now rewrite IH.
    + cbn [templates update_popularity].
      eapply Forall2_map_l; [|exact IH].
      intros t template (Hn & Hd & Hty & Hw & Hp & Hc & Hf).
      destruct (bump_same tid t) as (Hid' & Hn' & Hc' & Hd' & Hty').
      unfold catalog_entry. rewrite Hn', Hd', Hty', Hc', Hid'.
      repeat split; try assumption.
      * unfold bump. now destruct (t_id t =? tid).
      * unfold bump. destruct (t_id t =? tid); cbn [t_popularity]; lia.
  - unfold generate_document.
    destruct (rq_template_id data) as [tid|]; [|exact IH].
    destruct (rq_fields data) as [fields_data|]; [|exact IH].
    destruct (find_template db tid) as [t|]; [|exact IH].
    destruct (List.find _ _); exact IH.
  - destruct (generate_document_route_db clock data db)
      as [->|(t & document_data & _ & ->)]; exact IH.
  - right. destruct (seed_database_rows clock db) as [Hrows _].
    eapply Forall2_impl; [exact Hrows|].
    intros t template (Hn & Hd & Hty & Hw & Hp & _ & Hc & Hf).
    unfold catalog_entry.
    split; [exact Hn|]. split; [exact Hd|]. split; [exact Hty|].
    split; [exact Hw|]. split; [lia|]. split; [exact Hc|exact Hf].
Qed.

(** ** A search for percent signs *)



(** ** The order of the fields in the states of the service *)

Lemma required_reported l :
  List.map f_field_key (List.filter (fun f => negb (f_is_required f =? 0)) l)
  = List.map fdat_key (List.filter fdat_required (List.map field_data l)).
Proof.
  induction l as [|f l IH]; [reflexivity|].
  cbn [List.map List.filter]. cbn [field_data fdat_required].
  destruct (negb (f_is_required f =? 0)); cbn [List.map]; now rewrite IH.
Qed.

(** X15: in every state of the service the fields endpoint reports the
    fields of a template of the table in the order in which they are
    stored, and the generation checks the required ones in the order of
    that report: the query of the generation has no ORDER BY, and the rows
    are stored in the order of the order index. *)
Theorem reachable_fields_endpoint_order (db : DB) (template_id : Z) :
  reachable db ->
  (forall t : Template,
     In t (templates db) -> t_id t = template_id ->
     - 2 ^ 63 <= template_id < 2 ^ 63 ->
     get_template_fields_route template_id db
     = Ok (mkFieldsResponse template_id (t_name t)
             (List.map field_data
                (List.filter
                   (fun f => bool_decide (f_template_id f = template_id))
                   (template_fields db)))))
  /\ required_fields db template_id
     = List.map fdat_key
         (List.filter fdat_required
            (List.map field_data
               (List.filter
                  (fun f => bool_decide (f_template_id f = template_id))
                  (template_fields db)))).
Proof.
  intros Hreach. destruct (reachable_fields_in_order db Hreach) as [Hs _].
  rewrite filter_bool_decide_eq. fold (fields_of db template_id).
  split.
  - intros t Hin Hid Hrange.
    rewrite (get_template_fields_route_in_range _ _ Hrange).
    unfold get_template_fields.
    destruct (reachable_keys db Hreach) as (_ & [Hsorted _] & _).
    rewrite (find_template_row db template_id t
               (StronglySorted_lt_NoDup _ Hsorted) Hin Hid).
    rewrite order_by_of_sorted; [reflexivity|].
    eapply Sorted_impl; [|apply Hs]. intros a b. apply by_order_index_id_le.
  - unfold required_fields. apply required_reported.
Qed.

End Handlers.

(* ===================================================================== *)
(** * The properties on the sample database *)
(* ===================================================================== *)

(** Template 2 of [sample_db] has popularity 5: after three GETs of its
    detail the stored popularity is 8, and the fourth response reports 8. *)
Lemma get_template_detail_increments_witness :
  exists t : Template,
    find_template sample_db 2 = Some t
    /\ find_template (after_details 3 2 sample_db) 2
       = Some (with_popularity t 8)
    /\ exists r : TemplateData,
         fst (get_template_detail 2 (after_details 3 2 sample_db)) = Ok r
         /\ td_popularity r = 8.
Proof.
  eexists. split; [reflexivity|].
  exact (proj2 (get_template_detail_increments sample_db 2 _ eq_refl) 3%nat).
Defined.

Lemma sample_no_template (n : Z) :
  3 < n -> forall t, In t (templates sample_db) -> t_id t <> n.
Proof.
  intros Hn t Hin. simpl in Hin.
  destruct Hin as [<-|[<-|[<-|[]]]]; simpl; lia.
Qed.

(** No template of [sample_db] has id 7. *)
Lemma get_template_detail_not_found_witness :
  (forall t, In t (templates sample_db) -> t_id t <> 7)
  /\ - 2 ^ 63 <= 7 < 2 ^ 63
  /\ get_template_detail_route sample_exception_str 7 sample_db
     = (Error 404 not_found, sample_db).
Proof.
  assert (H : forall t, In t (templates sample_db) -> t_id t <> 7).
  { apply sample_no_template. lia. }
  assert (Hrange : - 2 ^ 63 <= 7 < 2 ^ 63) by lia.
  split; [exact H|]. split; [exact Hrange|].
  exact (proj1 (get_template_detail_not_found sample_exception_str sample_db 7 H)
           Hrange).
Defined.

(** The claim C7 as it was stated fails: no template of [sample_db] has
    the id 2^63, which the route accepts, and the answer is 500, not 404:
    the id cannot be bound to the query. *)
Lemma detail_unbound_id_counterexample :
  (forall t, In t (templates sample_db) -> t_id t <> 2 ^ 63)
  /\ get_template_detail_route sample_exception_str (2 ^ 63) sample_db
     = (Error 500 (str "Ошибка сервера: " ++ overflow_text), sample_db)
  /\ get_template_detail_route sample_exception_str (2 ^ 63) sample_db
     <> (Error 404 not_found, sample_db).
Proof.
  split; [apply sample_no_template; lia|].
  split; [vm_compute; reflexivity|vm_compute; discriminate].
Qed.

(** The claim C4 as it was stated fails: searching for [_] returns the
    template named [abc], which has no description, although [_] occurs
    nowhere in [abc]. *)
Lemma search_underscore_counterexample :
  exists r : Listing TemplateSummary,
    get_all_templates_route sample_exception_str None None (str "_") sample_db
    = Ok r
    /\ In (mkTemplateSummary 2 (str "abc") None (str "Акт") (Some (str "Acts"))
             300 5) (items r)
    /\ ~ contains_ci (str "_") (str "abc").
Proof.
  eexists. split; [vm_compute; reflexivity|]. split.
  - vm_compute. auto.
  - intros H. apply (contains_ci_chars _ _ underscore) in H; [|now left].
    destruct H as (d & Hin & Hl).
    vm_compute in Hin.
    destruct Hin as [<-|[<-|[<-|[]]]]; vm_compute in Hl; discriminate.
Qed.

(** Three more departures from the claim as stated.  A NUL in the term
    ends the pattern: the term [e], NUL, [q] is the pattern [%e] and lists
    the template named [Lease], in which the term does not occur.  A
    category id that does not fit 64 bits is answered 500, and so is a
    pattern of more than 50000 bytes once a template reaches the LIKE. *)
Example search_stops_at_nul :
  exists r : Listing TemplateSummary,
    get_all_templates_route sample_exception_str None None [101; 0; 113]%N
      sample_db
    = Ok r
    /\ List.map ts_name (items r) = [str "Lease"]
    /\ ~ contains_ci [101; 0; 113]%N (str "Lease").
Proof.
  eexists. split; [vm_compute; reflexivity|]. split; [vm_compute; reflexivity|].
  intros H. apply (contains_ci_chars _ _ 0%N) in H; [|right; now left].
  destruct H as (d & Hin & Hl). vm_compute in Hin.
  destruct Hin as [<-|[<-|[<-|[<-|[<-|[]]]]]]; vm_compute in Hl; discriminate.
Qed.

Example category_id_unbound :
  get_all_templates_route sample_exception_str (Some (2 ^ 63)) None [] sample_db
  = Error 500 (str "Ошибка сервера: " ++ overflow_text).
Proof. vm_compute. reflexivity. Qed.

Example search_too_long :
  get_all_templates_route sample_exception_str None None
    (repeat 120%N (N.to_nat 49999)) sample_db
  = Error 500 (str "Ошибка сервера: " ++ too_complex_text)
  /\ exists r,
       get_all_templates_route sample_exception_str None None
         (repeat 120%N (N.to_nat 49999)) empty_db
       = Ok r
       /\ items r = [].
Proof.
  split; [vm_compute; reflexivity|].
  eexists. split; vm_compute; reflexivity.
Qed.

Lemma sample_will_ids_distinct :
  List.NoDup (List.map t_id (templates sample_will_db)).
Proof.
  cbn. repeat constructor; cbn; intros H;
    repeat (destruct H as [H|H]; [discriminate|]); exact H.
Qed.

(** The fields of template 3 of [sample_will_db], the last of its three
    templates. *)
Lemma get_template_fields_spec_witness :
  exists t : Template,
    In t (templates sample_will_db)
    /\ t_id t = 3
    /\ t_name t = str "Will"
    /\ - 2 ^ 63 <= 3 < 2 ^ 63
    /\ exists fields : list TemplateField,
         get_template_fields_route sample_loads sample_exception_str 3
           sample_will_db
         = Ok (mkFieldsResponse 3 (t_name t)
                 (List.map (field_data sample_loads) fields))
         /\ Permutation fields
              (List.filter (fun f => bool_decide (f_template_id f = 3))
                 (template_fields sample_will_db))
         /\ StronglySorted order_index_id_le fields.
Proof.
  assert (Hrange : - 2 ^ 63 <= 3 < 2 ^ 63) by lia.
  eexists. split; [right; right; left; reflexivity|].
  split; [reflexivity|]. split; [reflexivity|]. split; [exact Hrange|].
  destruct (get_template_fields_spec sample_loads sample_exception_str
              sample_will_db 3 _ (or_intror (or_intror (or_introl eq_refl)))
              eq_refl sample_will_ids_distinct Hrange)
    as (fields & Hget & Hperm & Hsorted & _).
  exists fields. split; [exact Hget|]. split; [exact Hperm|exact Hsorted].
Defined.

(** The endpoint reports [testator], stored last, before [heir]. *)
Example get_template_fields_will :
  exists r,
    get_template_fields_route sample_loads sample_exception_str 3 sample_will_db
    = Ok r
    /\ fr_template_name r = str "Will"
    /\ List.map fdat_key (fr_fields r) = [str "testator"; str "heir"].
Proof. eexists. split; [reflexivity|]. split; vm_compute; reflexivity. Qed.

(** An id that cannot be bound is answered 500 by the fields endpoint
    too. *)
Example get_template_fields_unbound :
  get_template_fields_route sample_loads sample_exception_str (2 ^ 63) sample_db
  = Error 500 (str "Ошибка сервера: " ++ overflow_text).
Proof. vm_compute. reflexivity. Qed.

Lemma sample_fields_sorted :
  Sorted order_index_id_le (fields_of sample_db 1).
Proof.
  vm_compute fields_of.
  repeat (constructor; try (left; reflexivity)).
Qed.

(** [sample_incomplete] has the falsy value 0 for the required [area] of
    template 1: the request fails, and the message names [area]. *)
Lemma generate_document_missing_required_witness :
  exists t : Template,
    find_template sample_db 1 = Some t
    /\ Sorted order_index_id_le (fields_of sample_db 1)
    /\ (exists f, In f (fields_of sample_db 1)
                  /\ Required f /\ Missing sample_incomplete (f_field_key f))
    /\ exists before f after,
         order_by by_order_index_id (fields_of sample_db 1)
         = before ++ f :: after
         /\ Required f /\ Missing sample_incomplete (f_field_key f)
         /\ Forall (fun g => Required g ->
                             ~ Missing sample_incomplete (f_field_key g))
              before
         /\ generate_document sample_dumps sample_clock
              (mkGenerateRequest (Some 1) (Some sample_incomplete)) sample_db
            = (Error 400 (not_filled (f_field_key f)), sample_db).
Proof.
  assert (Hmissing : exists f, In f (fields_of sample_db 1)
                     /\ Required f /\ Missing sample_incomplete (f_field_key f)).
  { eexists. split; [right; left; reflexivity|]. split; [discriminate|].
    right. exists (JInt 0). split; reflexivity. }
  eexists. split; [reflexivity|]. split; [exact sample_fields_sorted|].
  split; [exact Hmissing|].
  exact (generate_document_missing_required sample_dumps sample_clock sample_db
           1 sample_incomplete _ eq_refl sample_fields_sorted Hmissing).
Defined.

(** [sample_will] has a truthy value for both required fields of template
    3 of [sample_will_db]: the request adds one filled document of that
    template, and the response names it. *)
Lemma generate_document_success_witness :
  exists t : Template,
    In t (templates sample_will_db)
    /\ t_id t = 3
    /\ t_name t = str "Will"
    /\ exists (document_id : Z) (db' : DB),
         generate_document_route sample_dumps sample_exception_str
           sample_integer_of_real sample_integer_of_text sample_clock
           (JObj (sample_body (JInt 3) (JObj sample_will))) sample_will_db
         = (Ok (mkGenerated document_id (t_name t)
                  (now_isoformat sample_clock)), db')
         /\ filled_documents db'
            = filled_documents sample_will_db
              ++ [mkFilledDocument document_id 3 None
                    (sample_dumps (JObj sample_will))
                    (current_timestamp sample_clock) (str "generated")].
Proof.
  assert (Hrange : - 2 ^ 63 <= 3 < 2 ^ 63) by lia.
  assert (Hall : forall f, In f (template_fields sample_will_db) ->
                   f_template_id f = 3 -> Required f ->
                   exists v, dict_get (f_field_key f) sample_will = Some v
                             /\ truthy v = true).
  { intros f Hin Hf Hreq. vm_compute in Hin.
    destruct Hin as [<-|[<-|[<-|[<-|[<-|[]]]]]]; try discriminate Hf.
    - eexists. split; reflexivity.
    - eexists. split; reflexivity. }
  eexists. split; [right; right; left; reflexivity|].
  split; [reflexivity|]. split; [reflexivity|].
  destruct (generate_document_success sample_dumps sample_exception_str
              sample_integer_of_real sample_integer_of_text sample_clock
              sample_will_db (sample_body (JInt 3) (JObj sample_will)) 3
              sample_will _ eq_refl eq_refl
              (or_intror (or_intror (or_introl eq_refl))) eq_refl
              sample_will_ids_distinct Hrange Hall)
    as (document_id & db' & Hgen & Hrows & _).
  exists document_id, db'. split; [exact Hgen|exact Hrows].
Defined.

(** Bodies that are no mapping of an id to an object.  With [fields: null]
    the test of the first required field raises; without a required field
    nothing is tested and the document is stored.  A [template_id] that is
    [null] is bound as NULL and matches no template; one that does not fit
    64 bits cannot be bound; [true] is bound as 1. *)
Example generate_document_fields_null :
  generate_document_route sample_dumps sample_exception_str
    sample_integer_of_real sample_integer_of_text sample_clock
    (JObj (sample_body (JInt 1) JNull)) sample_db
  = (Error 500 (str "Ошибка при создании документа: " ++ type_text),
     sample_db).
Proof. vm_compute. reflexivity. Qed.

Example generate_document_fields_null_unchecked :
  exists db',
    generate_document_route sample_dumps sample_exception_str
      sample_integer_of_real sample_integer_of_text sample_clock
      (JObj (sample_body (JInt 3) JNull)) sample_db
    = (Ok (mkGenerated 3 (str "Will") (now_isoformat sample_clock)), db')
    /\ List.map fd_document_data (filled_documents db')
       = [str "{}"; str "{}"; str "null"].
Proof. eexists. split; vm_compute; reflexivity. Qed.

Example generate_document_template_id_null :
  generate_document_route sample_dumps sample_exception_str
    sample_integer_of_real sample_integer_of_text sample_clock
    (JObj (sample_body JNull (JObj sample_complete))) sample_db
  = (Error 404 not_found, sample_db).
Proof. vm_compute. reflexivity. Qed.

Example generate_document_template_id_unbound :
  generate_document_route sample_dumps sample_exception_str
    sample_integer_of_real sample_integer_of_text sample_clock
    (JObj (sample_body (JInt (2 ^ 63)) (JObj sample_complete))) sample_db
  = (Error 500 (str "Ошибка при создании документа: " ++ overflow_text),
     sample_db).
Proof. vm_compute. reflexivity. Qed.

Example generate_document_template_id_true :
  exists db',
    generate_document_route sample_dumps sample_exception_str
      sample_integer_of_real sample_integer_of_text sample_clock
      (JObj (sample_body (JBool true) (JObj sample_complete))) sample_db
    = (Ok (mkGenerated 3 (str "Lease") (now_isoformat sample_clock)), db')
    /\ List.map fd_template_id (filled_documents db') = [1; 9; 1].
Proof. eexists. split; vm_compute; reflexivity. Qed.

Example generate_document_body_list :
  generate_document_route sample_dumps sample_exception_str
    sample_integer_of_real sample_integer_of_text sample_clock
    (JArr [JStr (str "template_id"); JStr (str "fields")]) sample_db
  = (Error 500 (str "Ошибка при создании документа: " ++ type_text),
     sample_db)
  /\ generate_document_route sample_dumps sample_exception_str
       sample_integer_of_real sample_integer_of_text sample_clock
       (JArr [JStr (str "template_id")]) sample_db
     = (Error 400 missing_body, sample_db).
Proof. split; vm_compute; reflexivity. Qed.

Example generate_document_names_area :
  generate_document sample_dumps sample_clock
    (mkGenerateRequest (Some 1) (Some sample_incomplete)) sample_db
  = (Error 400 (not_filled (str "area")), sample_db).
Proof. vm_compute. reflexivity. Qed.

Example seed_database_sample :
  exists s db',
    seed_database sample_dumps sample_clock sample_db = (Ok s, db')
    /\ templates_added s = 10
    /\ List.map t_id (templates db') = [10; 11; 12; 13; 14; 15; 16; 17; 18; 19]
    /\ length (template_fields db') = 114%nat
    /\ filled_documents db' = filled_documents sample_db.
Proof. do 2 eexists. split; [vm_compute; reflexivity|]. repeat split. Qed.

(* ===================================================================== *)
(** * The further properties on the sample data *)
(* ===================================================================== *)

Lemma sample_ids_distinct : List.NoDup (List.map t_id (templates sample_db)).
Proof.
  cbn. repeat constructor; cbn; intros H;
    repeat (destruct H as [H|H]; [discriminate|]); exact H.
Qed.

(** The statistics of [sample_db] count two filled documents; the listing
    has the one whose template exists. *)
Lemma get_statistics_documents_witness :
  List.NoDup (List.map t_id (templates sample_db))
  /\ exists (st : Statistics) (docs : Listing DocumentInfo),
       get_statistics sample_db = Ok st
       /\ get_documents sample_db = Ok docs
       /\ total_documents st = Z.of_nat (length (filled_documents sample_db))
       /\ count docs
          = Z.min 100
              (Z.of_nat
                 (length (List.filter (has_template sample_db)
                            (filled_documents sample_db))))
       /\ Z.of_nat (length (recent_documents st)) = Z.min 5 (count docs).
Proof.
  split; [exact sample_ids_distinct|].
  exact (get_statistics_documents sample_db sample_ids_distinct).
Defined.

Example get_statistics_sample :
  exists st docs,
    get_statistics sample_db = Ok st /\ get_documents sample_db = Ok docs
    /\ total_documents st = 2 /\ count docs = 1
    /\ List.map pt_id (popular_templates st) = [2; 3; 1].
Proof. do 2 eexists. repeat split. Qed.

Lemma sample_same_presence :
  forall f, In f (fields_of sample_db 1) -> Required f ->
            (Missing sample_complete (f_field_key f)
             <-> Missing sample_untyped (f_field_key f)).
Proof.
  intros f Hin _. rewrite <- !unfilled_Missing. vm_compute in Hin.
  destruct Hin as [<-|[<-|[<-|[]]]]; vm_compute; tauto.
Qed.

(** [sample_untyped] fills the same required fields as [sample_complete]:
    both are accepted, whatever the types of the values. *)
Lemma generate_document_checks_presence_only_witness :
  (forall f, In f (fields_of sample_db 1) -> Required f ->
             (Missing sample_complete (f_field_key f)
              <-> Missing sample_untyped (f_field_key f)))
  /\ forall (status : Z) (message : text),
       fst (generate_document sample_dumps sample_clock
              (mkGenerateRequest (Some 1) (Some sample_complete)) sample_db)
       = Error status message
       <-> fst (generate_document sample_dumps sample_clock
                  (mkGenerateRequest (Some 1) (Some sample_untyped)) sample_db)
           = Error status message.
Proof.
  split; [exact sample_same_presence|].
  exact (generate_document_checks_presence_only sample_dumps sample_clock
           sample_db 1 sample_complete sample_untyped sample_same_presence).
Defined.

Example generate_document_untyped :
  exists g db',
    generate_document sample_dumps sample_clock
      (mkGenerateRequest (Some 1) (Some sample_untyped)) sample_db
    = (Ok g, db')
    /\ g_document_id g = 3.
Proof. do 2 eexists. split; [vm_compute; reflexivity|reflexivity]. Qed.

(** The fields endpoint and the generation on template 1 of [sample_db]. *)
Lemma generate_document_accepts_reported_fields_witness :
  exists r : FieldsResponse,
    get_template_fields sample_loads 1 sample_db = Ok r
    /\ ((forall fd, In fd (fr_fields r) -> fdat_required fd = true ->
                    exists v, dict_get (fdat_key fd) sample_complete = Some v
                              /\ truthy v = true)
        <-> exists g db',
              generate_document sample_dumps sample_clock
                (mkGenerateRequest (Some 1) (Some sample_complete)) sample_db
              = (Ok g, db')).
Proof.
  eexists. split; [reflexivity|].
  exact (generate_document_accepts_reported_fields sample_dumps sample_loads
           sample_clock sample_db 1 sample_complete _ eq_refl).
Defined.

Lemma sample_generated :
  generate_document sample_dumps sample_clock
    (mkGenerateRequest (Some 1) (Some sample_complete)) sample_db
  = (Ok (mkGenerated 3 (str "Lease") (now_isoformat sample_clock)),
     snd (generate_document sample_dumps sample_clock
            (mkGenerateRequest (Some 1) (Some sample_complete)) sample_db)).
Proof. vm_compute. reflexivity. Qed.

Lemma sample_listing_short : (length (joined_documents sample_db) < 100)%nat.
Proof. vm_compute. lia. Qed.

(** The document generated for template 1 of [sample_db] is listed. *)
Lemma generated_document_is_listed_witness :
  exists docs : Listing DocumentInfo,
    get_documents
      (snd (generate_document sample_dumps sample_clock
              (mkGenerateRequest (Some 1) (Some sample_complete)) sample_db))
    = Ok docs
    /\ In (mkDocumentInfo 3 1 (str "Lease") (current_timestamp sample_clock)
             (str "generated"))
         (items docs).
Proof.
  exact (generated_document_is_listed sample_dumps sample_clock sample_db _ 1
           sample_complete _ sample_generated sample_ids_distinct
           sample_listing_short).
Defined.

(** [sample_reached] is a state of the service. *)
Lemma sample_reached_reachable :
  reachable sample_dumps sample_exception_str sample_integer_of_real
    sample_integer_of_text (sample_reached sample_dumps).
Proof.
  eapply reachable_step; [|apply step_generate].
  eapply reachable_step; [apply reachable_init|apply step_seed].
Qed.

Example sample_reached_documents :
  exists docs,
    get_documents (sample_reached sample_dumps) = Ok docs
    /\ List.map di_id (items docs) = [1]
    /\ List.map di_template_id (items docs) = [1].
Proof. eexists. split; [reflexivity|]. split; vm_compute; reflexivity. Qed.

Lemma reachable_primary_keys_witness :
  reachable sample_dumps sample_exception_str sample_integer_of_real
    sample_integer_of_text (sample_reached sample_dumps)
  /\ List.NoDup (List.map t_id (templates (sample_reached sample_dumps)))
  /\ forall t, In t (templates (sample_reached sample_dumps)) ->
       find_template (sample_reached sample_dumps) (t_id t) = Some t.
Proof.
  split; [exact sample_reached_reachable|].
  destruct (reachable_primary_keys sample_dumps sample_loads
              sample_exception_str sample_integer_of_real
              sample_integer_of_text _ sample_reached_reachable)
    as (_ & Ht & _ & _ & Hfind).
  split; [exact Ht|exact Hfind].
Defined.

(** Seeding [sample_reached] again hides its document. *)
Lemma seed_database_hides_documents_witness :
  reachable sample_dumps sample_exception_str sample_integer_of_real
    sample_integer_of_text (sample_reached sample_dumps)
  /\ get_documents
       (snd (seed_database sample_dumps sample_clock
               (sample_reached sample_dumps)))
     = Ok (mkListing [] 0).
Proof.
  split; [exact sample_reached_reachable|].
  exact (proj1 (seed_database_hides_documents sample_dumps sample_loads
                  sample_exception_str sample_integer_of_real
                  sample_integer_of_text sample_clock _
                  sample_reached_reachable)).
Defined.

Lemma reachable_catalog_witness :
  reachable sample_dumps sample_exception_str sample_integer_of_real
    sample_integer_of_text (sample_reached sample_dumps)
  /\ (templates (sample_reached sample_dumps) = []
      \/ Forall2 (catalog_entry sample_dumps (sample_reached sample_dumps))
           (templates (sample_reached sample_dumps)) templates_data).
Proof.
  split; [exact sample_reached_reachable|].
  exact (reachable_catalog sample_dumps sample_loads sample_exception_str
           sample_integer_of_real sample_integer_of_text _
           sample_reached_reachable).
Defined.

(** Template 1 of [sample_reached], the lease of the catalog. *)
Lemma reachable_fields_endpoint_order_witness :
  reachable sample_dumps sample_exception_str sample_integer_of_real
    sample_integer_of_text (sample_reached sample_dumps)
  /\ (forall t : Template,
        In t (templates (sample_reached sample_dumps)) -> t_id t = 1 ->
        - 2 ^ 63 <= 1 < 2 ^ 63 ->
        get_template_fields_route sample_loads sample_exception_str 1
          (sample_reached sample_dumps)
        = Ok (mkFieldsResponse 1 (t_name t)
                (List.map (field_data sample_loads)
                   (List.filter (fun f => bool_decide (f_template_id f = 1))
                      (template_fields (sample_reached sample_dumps))))))
  /\ required_fields (sample_reached sample_dumps) 1
     = List.map fdat_key
         (List.filter fdat_required
            (List.map (field_data sample_loads)
               (List.filter (fun f => bool_decide (f_template_id f = 1))
                  (template_fields (sample_reached sample_dumps))))).
Proof.
  split; [exact sample_reached_reachable|].
  exact (reachable_fields_endpoint_order sample_dumps sample_loads
           sample_exception_str sample_integer_of_real sample_integer_of_text
           (sample_reached sample_dumps) 1 sample_reached_reachable).
Defined.

Example sample_reached_lease :
  exists r,
    get_template_fields_route sample_loads sample_exception_str 1
      (sample_reached sample_dumps) = Ok r
    /\ Some (fr_template_name r) = option_map tdef_name (List.head templates_data)
    /\ List.firstn 2 (List.map fdat_key (fr_fields r))
       = [str "landlord_name"; str "landlord_passport"].
Proof.
  eexists. split; [vm_compute; reflexivity|]. split; vm_compute; reflexivity.
Qed.


